(** * SaveAction Recorder: a shallow embedding of the recorder's core

    The development follows the layout of the TypeScript sources:

    - [JS]                 ECMAScript strings as sequences of UTF-16 code units
    - [Types]              the records exchanged between the components
    - [Sanitizer]          src/utils/sanitizer.ts
    - [Validator]          src/utils/validator.ts
    - [Dom]                the part of the DOM the content script looks at
    - [SelectorGenerator]  src/content/selector-generator.ts
    - [EventListener]      src/content/event-listener.ts (pointer handlers)
    - [Storage]            src/utils/storage.ts
    - [Background]         src/background/index.ts
    - [Host], [Examples], [Scenarios]
                           a host to run the model on, the vocabulary of the
                           statements and the example sessions

    Definitions come first, the properties afterwards: one [...Facts] module
    per source file. *)

From Stdlib Require Import ZArith NArith Lia String Ascii DecimalNat.
From Stdlib Require Import Sorting.Sorted Sorting.Permutation.
From stdpp Require Import base option list gmap sets.

Local Open Scope Z_scope.

(* ===================================================================== *)
(** ** ECMAScript strings *)
(* ===================================================================== *)

(** A JavaScript string is a finite sequence of UTF-16 code units; [length],
    [slice], [indexOf] and [repeat] all count code units. *)
Abbreviation jsstring := (list N).

Module JS.

(** Literals of the sources are ASCII, apart from the bullet of the masks. *)
Definition js (s : string) : jsstring :=
  List.map N_of_ascii (list_ascii_of_string s).

(** U+2022 BULLET, one code unit. *)
Definition bullet : N := 8226%N.

Definition jsstring_eqb (a b : jsstring) : bool := bool_decide (a = b).

(** JS truthiness of a string: the empty string is falsy. *)
Definition truthy (s : jsstring) : bool :=
  match s with [] => false | _ :: _ => true end.

(** Truthiness of [string | undefined]. *)
Definition truthyo (s : option jsstring) : bool :=
  match s with Some (_ :: _) => true | _ => false end.

(** [x || undefined] on a string. *)
Definition orUndefined (s : jsstring) : option jsstring :=
  if truthy s then Some s else None.

(** [x || ''] on [string | undefined]. *)
Definition orEmpty (s : option jsstring) : jsstring :=
  match s with Some v => v | None => [] end.

Fixpoint startsWith (p s : jsstring) : bool :=
  match p, s with
  | [], _ => true
  | _ :: _, [] => false
  | a :: p', b :: s' => (a =? b)%N && startsWith p' s'
  end.

(** [s.indexOf(p)], with -1 when [p] does not occur. *)
Fixpoint indexOf (s p : jsstring) : Z :=
  if startsWith p s then 0
  else match s with
       | [] => -1
       | _ :: s' => let r := indexOf s' p in if r <? 0 then -1 else r + 1
       end.

(** [s.includes(p)]. *)
Fixpoint includes (s p : jsstring) : bool :=
  startsWith p s || match s with [] => false | _ :: s' => includes s' p end.

(** Relative index of [slice] and [substring]: negative counts from the end,
    and the result is clamped to the string. *)
Definition relIndex (len i : Z) : Z :=
  if i <? 0 then Z.max (len + i) 0 else Z.min i len.

(** [s.slice(from, to)]; [to = None] is the one-argument form. *)
Definition slice (s : jsstring) (from : Z) (to : option Z) : jsstring :=
  let len := Z.of_nat (length s) in
  let k := relIndex len from in
  let e := match to with Some t => relIndex len t | None => len end in
  take (Z.to_nat (e - k)) (drop (Z.to_nat k) s).

(** [c.repeat(n)] for a one-unit string [c]; the callers never pass a
    negative count (which throws in JS). *)
Definition repeat (c : N) (n : Z) : jsstring := replicate (Z.to_nat n) c.

Definition isDigit (c : N) : bool := ((48 <=? c) && (c <=? 57))%N.

(** [a-f0-9] under the [i] flag. *)
Definition isHexDigit (c : N) : bool :=
  (isDigit c || ((97 <=? c) && (c <=? 102)) || ((65 <=? c) && (c <=? 70)))%N.

(** The class [\s]: WhiteSpace and LineTerminator of ECMA-262. *)
Definition isWhiteSpace (c : N) : bool :=
  ((c =? 9) || (c =? 10) || (c =? 11) || (c =? 12) || (c =? 13) || (c =? 32)
   || (c =? 160) || (c =? 5760) || ((8192 <=? c) && (c <=? 8202))
   || (c =? 8232) || (c =? 8233) || (c =? 8239) || (c =? 8287)
   || (c =? 12288) || (c =? 65279))%N.

Fixpoint trimStart (s : jsstring) : jsstring :=
  match s with
  | c :: s' => if isWhiteSpace c then trimStart s' else s
  | [] => []
  end.

(** [s.trim()]. *)
Definition trim (s : jsstring) : jsstring :=
  rev (trimStart (rev (trimStart s))).

(** [String(n)] for a non-negative integer below 2^53: its decimal digits. *)
Fixpoint digits (d : Decimal.uint) : jsstring :=
  match d with
  | Decimal.Nil => []
  | Decimal.D0 d => 48%N :: digits d
  | Decimal.D1 d => 49%N :: digits d
  | Decimal.D2 d => 50%N :: digits d
  | Decimal.D3 d => 51%N :: digits d
  | Decimal.D4 d => 52%N :: digits d
  | Decimal.D5 d => 53%N :: digits d
  | Decimal.D6 d => 54%N :: digits d
  | Decimal.D7 d => 55%N :: digits d
  | Decimal.D8 d => 56%N :: digits d
  | Decimal.D9 d => 57%N :: digits d
  end.

Definition String_ (n : nat) : jsstring := digits (Nat.to_uint n).

(** [s.padStart(n, c)] for a one-unit pad string. *)
Definition padStart (n : nat) (c : N) (s : jsstring) : jsstring :=
  replicate (n - length s) c ++ s.

(** Reading a decimal numeral back, digit by digit; [None] when a unit is
    not a digit. *)
Definition parseStep (acc : option nat) (c : N) : option nat :=
  match acc with
  | Some n => if isDigit c then Some (10 * n + N.to_nat (c - 48))%nat
              else None
  | None => None
  end.

Definition parseDigits (s : jsstring) : option nat :=
  foldl parseStep (Some 0%nat) s.

(** [String(n)] for an integer. *)
Definition StringZ (n : Z) : jsstring :=
  if n <? 0 then 45%N :: String_ (Z.to_nat (- n)) else String_ (Z.to_nat n).

(** [n.toString(16)] for a code unit: lower-case hexadecimal digits. *)
Fixpoint hexDigits (d : Hexadecimal.uint) : jsstring :=
  match d with
  | Hexadecimal.Nil => []
  | Hexadecimal.D0 d => 48%N :: hexDigits d
  | Hexadecimal.D1 d => 49%N :: hexDigits d
  | Hexadecimal.D2 d => 50%N :: hexDigits d
  | Hexadecimal.D3 d => 51%N :: hexDigits d
  | Hexadecimal.D4 d => 52%N :: hexDigits d
  | Hexadecimal.D5 d => 53%N :: hexDigits d
  | Hexadecimal.D6 d => 54%N :: hexDigits d
  | Hexadecimal.D7 d => 55%N :: hexDigits d
  | Hexadecimal.D8 d => 56%N :: hexDigits d
  | Hexadecimal.D9 d => 57%N :: hexDigits d
  | Hexadecimal.Da d => 97%N :: hexDigits d
  | Hexadecimal.Db d => 98%N :: hexDigits d
  | Hexadecimal.Dc d => 99%N :: hexDigits d
  | Hexadecimal.Dd d => 100%N :: hexDigits d
  | Hexadecimal.De d => 101%N :: hexDigits d
  | Hexadecimal.Df d => 102%N :: hexDigits d
  end.

Definition toString16 (n : N) : jsstring := hexDigits (N.to_hex_uint n).

End JS.

(** Functions the sources call but do not define: platform built-ins whose
    result is fixed by the ECMAScript, URL and CSSOM standards, and the id
    helper that the content script imports from [@/types]. *)
Class Externals := {
  (** [String.prototype.toLowerCase] *)
  toLowerCase : jsstring -> jsstring;
  (** [CSS.escape] *)
  cssEscape : jsstring -> jsstring;
  (** [new URL(s)] returns instead of throwing *)
  urlParses : jsstring -> bool;
  (** [isNaN(new Date(s).getTime())] is false *)
  dateParses : jsstring -> bool;
  (** [new Date(ms).toISOString()] *)
  toISOString : Z -> jsstring;
  (** [generateActionId] of [@/types], the capture engine's local numbering *)
  generateActionId : nat -> jsstring
}.

(* ===================================================================== *)
(** ** The records of [@/types], as the sources build and read them *)
(* ===================================================================== *)

Module Types.

Inductive SelectorType :=
| TId | TDataTestId | TAriaLabel | TName | TCss | TText | TTextContains
| TXpath | TXpathAbsolute | TPosition.

#[global] Instance SelectorType_eq_dec : EqDecision SelectorType.
Proof. solve_decision. Defined.

(** A candidate that was not produced is an absent key of the JS object. *)
Record SelectorStrategy := mkSelectorStrategy {
  s_id : option jsstring;
  s_dataTestId : option jsstring;
  s_ariaLabel : option jsstring;
  s_name : option jsstring;
  s_css : option jsstring;
  s_text : option jsstring;
  s_textContains : option jsstring;
  s_xpath : option jsstring;
  s_xpathAbsolute : option jsstring;
  s_position : option (jsstring * Z);
  s_priority : list SelectorType
}.

(** One object shape for the union of action interfaces: the base fields are
    always there, the payload of the other variants is absent. *)
Record Action := mkAction {
  a_id : jsstring;
  a_type : jsstring;
  a_timestamp : Z;
  a_url : jsstring;
  a_selector : option SelectorStrategy;
  a_tagName : option jsstring;
  a_text : option jsstring;
  a_coordinates : option (Z * Z);
  a_button : option jsstring;
  a_clickCount : option Z;
  a_modifiers : list jsstring;
  a_value : option jsstring;
  a_inputType : option jsstring;
  a_isSensitive : bool;
  a_from : option jsstring;
  a_to : option jsstring
}.

(** A viewport dimension as the validator inspects it. *)
Inductive Dimension :=
| DNum (px : Z)      (* a finite number *)
| DNaN               (* typeof 'number', but every comparison is false *)
| DNotNumber.        (* typeof is not 'number' *)

Record Viewport := mkViewport { width : Dimension; height : Dimension }.

Record Recording := mkRecording {
  r_id : jsstring;
  r_version : jsstring;
  r_testName : jsstring;
  r_url : jsstring;
  r_startTime : jsstring;
  r_endTime : jsstring;
  r_viewport : option Viewport;
  r_userAgent : jsstring;
  r_actions : option (list Action)
}.

End Types.

(* ===================================================================== *)
(** ** src/utils/sanitizer.ts *)
(* ===================================================================== *)

Module Sanitizer.
Import JS Types.

Section WithExternals.
Context {ext : Externals}.

Definition maskPassword (value : jsstring) : jsstring :=
  repeat bullet (Z.of_nat (length value)).

Definition maskCreditCard (value : jsstring) : jsstring :=
  if Z.of_nat (length value) <=? 4 then value
  else
    let last4 := slice value (-4) None in
    let masked :=
      List.map (fun c => if isDigit c then 42%N else c)
               (slice value 0 (Some (-4))) in
    masked ++ last4.

Definition maskEmail (value : jsstring) : jsstring :=
  let atIndex := indexOf value (js "@") in
  if atIndex <=? 2 then value
  else
    let username := slice value 0 (Some atIndex) in
    let domain := slice value atIndex None in
    let visibleChars := slice username 0 (Some 2) in
    let maskedChars := repeat bullet (Z.of_nat (length username) - 2) in
    visibleChars ++ maskedChars ++ domain.

Definition passwordPatterns : list jsstring :=
  [js "password"; js "passwd"; js "pwd"; js "pass"; js "passphrase"].
Definition cardPatterns : list jsstring :=
  [js "card"; js "cc-number"; js "cardnumber"; js "card_number";
   js "creditcard"; js "credit-card"].
Definition cvvPatterns : list jsstring :=
  [js "cvv"; js "cvc"; js "csc"; js "security-code"; js "security_code";
   js "card-code"].
Definition ssnPatterns : list jsstring :=
  [js "ssn"; js "social-security"; js "social_security"].
Definition pinPatterns : list jsstring :=
  [js "pin"; js "pin-code"; js "pincode"].

Definition isSensitiveField (type inputType name id : jsstring) : bool :=
  if jsstring_eqb type (js "password") || jsstring_eqb inputType (js "password")
  then true
  else
    let lowerName := toLowerCase name in
    let lowerId := toLowerCase id in
    let combined := lowerName ++ js " " ++ lowerId in
    let allPatterns :=
      passwordPatterns ++ cardPatterns ++ cvvPatterns ++ ssnPatterns
        ++ pinPatterns in
    existsb (fun pattern => includes combined pattern) allPatterns.

(** [/^\d{13,19}$/.test(value.replace(/[\s-]/g, ''))] *)
Definition looksLikeCardNumber (value : jsstring) : bool :=
  let stripped :=
    List.filter (fun c => negb (isWhiteSpace c || (c =? 45)%N)) value in
  forallb isDigit stripped
  && (13 <=? length stripped)%nat && (length stripped <=? 19)%nat.

Definition sanitizeValue (value type name id : jsstring) : jsstring :=
  if negb (isSensitiveField type type name id) then
    if jsstring_eqb type (js "email") && includes value (js "@")
    then maskEmail value
    else value
  else
    let lowerName := toLowerCase name in
    let lowerId := toLowerCase id in
    let combined := lowerName ++ js " " ++ lowerId in
    if includes combined (js "card") || includes combined (js "cc-number")
       || looksLikeCardNumber value
    then maskCreditCard value
    else maskPassword value.

(** [{...inputAction, value}] *)
Definition withValue (value : jsstring) (action : Action) : Action :=
  mkAction (a_id action) (a_type action) (a_timestamp action)
    (a_url action) (a_selector action) (a_tagName action)
    (a_text action) (a_coordinates action) (a_button action)
    (a_clickCount action) (a_modifiers action)
    (Some value) (a_inputType action)
    (a_isSensitive action) (a_from action) (a_to action).

(** [None] is a thrown TypeError. A flagged input action without a
    selector throws on [inputAction.selector.name]. An absent [inputType]
    is only ever compared with 'password' and 'email', and fails both
    comparisons as the empty string does. With an absent [value],
    [sanitizeValue] hands back the value it was given when the field is not
    sensitive and not of type 'email', and throws on [value.includes],
    [value.replace] or [value.length] otherwise. *)
Definition sanitizeAction (action : Action) : option Action :=
  (* Only sanitize input actions *)
  if negb (jsstring_eqb (a_type action) (js "input")) then Some action
  (* Skip if not sensitive *)
  else if negb (a_isSensitive action) then Some action
  else
    match a_selector action with
    | Some selector =>
        (* Get selector info for field detection *)
        let name := orEmpty (s_name selector) in
        let id := orEmpty (s_id selector) in
        let inputType := default [] (a_inputType action) in
        match a_value action with
        | Some value =>
            (* Sanitize the value *)
            let sanitizedValue := sanitizeValue value inputType name id in
            Some (withValue sanitizedValue action)
        | None =>
            if negb (isSensitiveField inputType inputType name id)
               && negb (jsstring_eqb inputType (js "email"))
            then Some action
            else None
        end
    | None => None
    end.

(** [{...recording, actions}] *)
Definition withActions (actions : list Action) (recording : Recording)
    : Recording :=
  mkRecording (r_id recording) (r_version recording) (r_testName recording)
    (r_url recording) (r_startTime recording) (r_endTime recording)
    (r_viewport recording) (r_userAgent recording) (Some actions).

(** [recording.actions.map(...)] throws when there is no actions array, and
    so does the sanitizing of an action on which [sanitizeAction] throws;
    [None] stands for both. *)
Definition sanitizeRecording (recording : Recording) : option Recording :=
  actions ← r_actions recording;
  sanitized ← mapM sanitizeAction actions;
  Some (withActions sanitized recording).

End WithExternals.
End Sanitizer.

(* ===================================================================== *)
(** ** src/utils/validator.ts *)
(* ===================================================================== *)

Module Validator.
Import JS Types.

Record ValidationError := mkError { field : jsstring; message : jsstring }.

Record ValidationResult := mkResult {
  isValid : bool;
  errors : list ValidationError
}.

(** [errors.push(e)] under a guard. *)
Definition pushIf (cond : bool) (e : ValidationError)
    (errors : list ValidationError) : list ValidationError :=
  if cond then errors ++ [e] else errors.

Definition keyName (key : SelectorType) : jsstring :=
  match key with
  | TId => js "id"
  | TDataTestId => js "dataTestId"
  | TAriaLabel => js "ariaLabel"
  | TName => js "name"
  | TCss => js "css"
  | TText => js "text"
  | TTextContains => js "textContains"
  | TXpath => js "xpath"
  | TXpathAbsolute => js "xpathAbsolute"
  | TPosition => js "position"
  end.

(** The value found under a candidate key: a string, the position object,
    or nothing. *)
Inductive SelectorValue :=
| VUndefined
| VString (v : jsstring)
| VObject (parent : jsstring) (index : Z).

Definition ofString (v : option jsstring) : SelectorValue :=
  match v with Some x => VString x | None => VUndefined end.

(** [selector[key as keyof SelectorStrategy]] *)
Definition selectorValue (selector : SelectorStrategy) (key : SelectorType)
    : SelectorValue :=
  match key with
  | TId => ofString (s_id selector)
  | TDataTestId => ofString (s_dataTestId selector)
  | TAriaLabel => ofString (s_ariaLabel selector)
  | TName => ofString (s_name selector)
  | TCss => ofString (s_css selector)
  | TText => ofString (s_text selector)
  | TTextContains => ofString (s_textContains selector)
  | TXpath => ofString (s_xpath selector)
  | TXpathAbsolute => ofString (s_xpathAbsolute selector)
  | TPosition =>
      match s_position selector with
      | Some (p, i) => VObject p i
      | None => VUndefined
      end
  end.

Definition truthyValue (v : SelectorValue) : bool :=
  match v with
  | VUndefined => false
  | VString s => truthy s
  | VObject _ _ => true
  end.

(** [typeof v === 'object' && !Array.isArray(v)] *)
Definition isPlainObject (v : SelectorValue) : bool :=
  match v with VObject _ _ => true | _ => false end.

Definition allKeys : list SelectorType :=
  [TId; TDataTestId; TAriaLabel; TName; TCss; TText; TTextContains; TXpath;
   TXpathAbsolute; TPosition].

Definition validateSelector (selector : SelectorStrategy) : ValidationResult :=
  let errors := [] in
  (* Check priority array *)
  let errors :=
    pushIf (bool_decide (s_priority selector = []))
      (mkError (js "selector.priority") (js "Priority array cannot be empty"))
      errors in
  (* Check that priority references actual selectors *)
  let errors :=
    foldl (fun errors key =>
             let value := selectorValue selector key in
             pushIf (negb (truthyValue value) || isPlainObject value)
               (mkError (js "selector." ++ keyName key)
                  (js "Priority references " ++ [34%N] ++ keyName key
                     ++ [34%N] ++ js " but selector is not defined"))
               errors)
          errors (s_priority selector) in
  (* Check that at least one selector is provided *)
  let hasAnySelector :=
    existsb (fun key => truthyValue (selectorValue selector key)) allKeys in
  let errors :=
    pushIf (negb hasAnySelector)
      (mkError (js "selector") (js "At least one selector must be provided"))
      errors in
  mkResult (bool_decide (errors = [])) errors.

Definition selectorErrors (what : jsstring) (s : option SelectorStrategy)
    (errors : list ValidationError) : list ValidationError :=
  match s with
  | None =>
      errors ++ [mkError (js "action.selector")
                   (what ++ js " action must have a selector")]
  | Some selector => errors ++ Validator.errors (validateSelector selector)
  end.

Definition validateAction (action : Action) : ValidationResult :=
  let errors := [] in
  (* Base action validation *)
  let errors :=
    pushIf (negb (truthy (a_id action)))
      (mkError (js "action.id") (js "Action ID is required")) errors in
  let errors :=
    pushIf (negb (truthy (a_type action)))
      (mkError (js "action.type") (js "Action type is required")) errors in
  let errors :=
    pushIf (a_timestamp action <? 0)
      (mkError (js "action.timestamp")
         (js "Timestamp must be a positive number")) errors in
  let errors :=
    pushIf (negb (truthy (a_url action)))
      (mkError (js "action.url") (js "Action URL is required")) errors in
  (* Type-specific validation *)
  let errors :=
    if jsstring_eqb (a_type action) (js "click") then
      let errors := selectorErrors (js "Click") (a_selector action) errors in
      let errors :=
        pushIf (negb (truthyo (a_tagName action)))
          (mkError (js "action.tagName")
             (js "Click action must have a tagName")) errors in
      pushIf (bool_decide (a_coordinates action = None))
        (mkError (js "action.coordinates")
           (js "Click action must have coordinates")) errors
    else if jsstring_eqb (a_type action) (js "input") then
      let errors := selectorErrors (js "Input") (a_selector action) errors in
      let errors :=
        pushIf (bool_decide (a_value action = None))
          (mkError (js "action.value")
             (js "Input action must have a value")) errors in
      pushIf (negb (truthyo (a_inputType action)))
        (mkError (js "action.inputType")
           (js "Input action must have an inputType")) errors
    else if jsstring_eqb (a_type action) (js "navigation") then
      let errors :=
        pushIf (negb (truthyo (a_from action)))
          (mkError (js "action.from")
             (js "Navigation action must have a " ++ [34%N] ++ js "from"
                ++ [34%N] ++ js " URL")) errors in
      pushIf (negb (truthyo (a_to action)))
        (mkError (js "action.to")
           (js "Navigation action must have a " ++ [34%N] ++ js "to"
              ++ [34%N] ++ js " URL")) errors
    else errors in
  mkResult (bool_decide (errors = [])) errors.

(** [typeof d !== 'number'] *)
Definition notNumber (d : Dimension) : bool :=
  match d with DNotNumber => true | _ => false end.

(** [d <= 0] *)
Definition leZero (d : Dimension) : bool :=
  match d with DNum px => px <=? 0 | _ => false end.

Section WithExternals.
Context {ext : Externals}.

(** The errors of the action at [index], prefixed with its position. *)
Definition actionErrors (index : nat) (action : Action)
    : list ValidationError :=
  let actionResult := validateAction action in
  if negb (isValid actionResult) then
    List.map (fun error =>
                mkError (js "actions[" ++ String_ index ++ js "]."
                           ++ field error) (message error))
             (errors actionResult)
  else [].

Definition validateRecording (recording : Recording) : ValidationResult :=
  let errors := [] in
  (* Required fields *)
  let errors :=
    pushIf (negb (truthy (r_id recording)))
      (mkError (js "recording.id") (js "Recording ID is required")) errors in
  let errors :=
    pushIf (negb (truthy (r_version recording)))
      (mkError (js "recording.version") (js "Schema version is required"))
      errors in
  let errors :=
    pushIf (negb (truthy (r_testName recording))
            || bool_decide (trim (r_testName recording) = []))
      (mkError (js "recording.testName") (js "Test name cannot be empty"))
      errors in
  (* URL validation *)
  let errors :=
    if negb (truthy (r_url recording)) then
      errors ++ [mkError (js "recording.url") (js "Recording URL is required")]
    else
      pushIf (negb (urlParses (r_url recording)))
        (mkError (js "recording.url") (js "Invalid URL format")) errors in
  (* Timestamp validation *)
  let errors :=
    if negb (truthy (r_startTime recording)) then
      errors ++ [mkError (js "recording.startTime")
                   (js "Start time is required")]
    else
      pushIf (negb (dateParses (r_startTime recording)))
        (mkError (js "recording.startTime")
           (js "Start time must be valid ISO 8601 format")) errors in
  let errors :=
    if truthy (r_endTime recording) then
      pushIf (negb (dateParses (r_endTime recording)))
        (mkError (js "recording.endTime")
           (js "End time must be valid ISO 8601 format")) errors
    else errors in
  (* Viewport validation *)
  let errors :=
    match r_viewport recording with
    | None =>
        errors ++ [mkError (js "recording.viewport")
                     (js "Viewport is required")]
    | Some viewport =>
        pushIf (notNumber (width viewport) || notNumber (height viewport)
                || leZero (width viewport) || leZero (height viewport))
          (mkError (js "recording.viewport")
             (js "Viewport width and height must be positive numbers"))
          errors
    end in
  (* User agent *)
  let errors :=
    pushIf (negb (truthy (r_userAgent recording)))
      (mkError (js "recording.userAgent") (js "User agent is required"))
      errors in
  (* Actions array *)
  let errors :=
    match r_actions recording with
    | None =>
        errors ++ [mkError (js "recording.actions")
                     (js "Actions array is required")]
    | Some actions =>
        errors ++ List.concat (imap actionErrors actions)
    end in
  mkResult (bool_decide (errors = [])) errors.

End WithExternals.
End Validator.

(* ===================================================================== *)
(** ** The DOM, as far as the content script reads it *)
(* ===================================================================== *)

Module Dom.
Import JS.

(** The constructors the sources test with [instanceof]. *)
Inductive Interface :=
| HTMLInputElement
| HTMLSelectElement
| HTMLTextAreaElement
| HTMLOtherElement      (* any other HTMLElement *)
| ForeignElement.       (* an Element that is not an HTMLElement (SVG, ...) *)

Record Node := mkNode {
  uid : nat;                          (* object identity, for [===] *)
  tagName : jsstring;
  id : jsstring;                      (* [element.id], '' when absent *)
  classList : list jsstring;
  attributes : list (jsstring * jsstring);
  interface : Interface;
  type_ : jsstring;                   (* the [type] property *)
  name : jsstring;                    (* the [name] property *)
  href : jsstring;                    (* the [href] property *)
  textContent : option jsstring;
  cursor : jsstring;                  (* getComputedStyle(element).cursor *)
  isBody : bool;                      (* [=== document.body] *)
  isDocumentElement : bool;           (* [=== document.documentElement] *)
  rectLeft : Z;                       (* getBoundingClientRect().left *)
  rectTop : Z
}.

#[global] Instance Interface_eq_dec : EqDecision Interface.
Proof. solve_decision. Defined.

(** An element with the chain of its ancestors. [Detached n] has no
    [parentElement]; in [Child n p cs] the parent is [p] and [cs] is
    [p.children], the element itself included. *)
Inductive Element :=
| Detached (node : Node)
| Child (node : Node) (parent : Element) (children : list Node).

Definition node (e : Element) : Node :=
  match e with Detached n | Child n _ _ => n end.
Definition parentElement (e : Element) : option Element :=
  match e with Detached _ => None | Child _ p _ => Some p end.
(** [element.parentElement?.children || []] *)
Definition siblings (e : Element) : list Node :=
  match e with Detached _ => [] | Child _ _ cs => cs end.

(** [a === b] on element references. *)
Definition sameNode (a b : Node) : bool := (uid a =? uid b)%nat.

Definition getAttribute (n : Node) (key : jsstring) : option jsstring :=
  snd <$> List.find (fun kv => jsstring_eqb (fst kv) key) (attributes n).

Definition hasAttribute (n : Node) (key : jsstring) : bool :=
  bool_decide (is_Some (getAttribute n key)).

(** [nodes.indexOf(n)] *)
Fixpoint indexOfNode (nodes : list Node) (n : Node) : Z :=
  match nodes with
  | [] => -1
  | m :: rest =>
      if sameNode m n then 0
      else let r := indexOfNode rest n in if r <? 0 then -1 else r + 1
  end.

(** [element.closest('#' + id)]: the element or an ancestor carries the id. *)
Fixpoint closestId (e : Element) (wanted : jsstring) : bool :=
  match e with
  | Detached n => jsstring_eqb (id n) wanted
  | Child n p _ => jsstring_eqb (id n) wanted || closestId p wanted
  end.

End Dom.

(* ===================================================================== *)
(** ** src/content/selector-generator.ts *)
(* ===================================================================== *)

Module SelectorGenerator.
Import JS Types Dom.

(** The fields of [SelectorConfig] that the generator consults. *)
Record SelectorConfig := mkConfig {
  includeXPath : bool;
  includePosition : bool;
  maxCssDepth : Z
}.

(** Case-insensitive matching of ASCII pattern letters (flag [i]). *)
Definition upper (c : N) : N :=
  if ((97 <=? c) && (c <=? 122))%N then (c - 32)%N else c.

Fixpoint startsWithI (p s : jsstring) : bool :=
  match p, s with
  | [], _ => true
  | _ :: _, [] => false
  | a :: p', b :: s' => (upper a =? upper b)%N && startsWithI p' s'
  end.

(** Length of the longest prefix whose units satisfy [P]. *)
Fixpoint runLength (P : N -> bool) (s : jsstring) : nat :=
  match s with
  | c :: s' => if P c then S (runLength P s') else O
  | [] => O
  end.

(** [/\d{n,}/]: somewhere a run of at least [n] digits starts. *)
Fixpoint hasDigitRun (n : nat) (s : jsstring) : bool :=
  (n <=? runLength isDigit s)%nat
  || match s with [] => false | _ :: s' => hasDigitRun n s' end.

(** [/-\d{n,}/] *)
Fixpoint hasDashDigitRun (n : nat) (s : jsstring) : bool :=
  match s with
  | [] => false
  | c :: s' =>
      ((c =? 45)%N && (n <=? runLength isDigit s')%nat)
      || hasDashDigitRun n s'
  end.

Definition isDynamicId (id : jsstring) : bool :=
  (* Framework prefixes *)
  (startsWithI (js "react-") id || startsWithI (js "vue-") id
   || startsWithI (js "ng-") id || startsWithI (js "ember-") id)
  (* Long numbers *)
  || hasDigitRun 6 id
  (* Timestamps *)
  || hasDashDigitRun 13 id
  (* Hash-like IDs *)
  || (8 <=? runLength isHexDigit id)%nat.

Definition isDynamicClass (className : jsstring) : bool :=
  (* CSS-in-JS *)
  (startsWithI (js "css-") className || startsWithI (js "jss-") className)
  (* Hash-based classes *)
  || match className with
     | c :: rest => (c =? 95)%N && (1 <=? runLength isHexDigit rest)%nat
     | [] => false
     end
  (* Long numbers *)
  || hasDigitRun 5 className.

(** [parts.join(sep)] *)
Fixpoint join (sep : jsstring) (parts : list jsstring) : jsstring :=
  match parts with
  | [] => []
  | [x] => x
  | x :: rest => x ++ sep ++ join sep rest
  end.

Definition quote : N := 34%N.

(** *** The fallback of [cssEscape]

    The regular expression of the fallback,
    [/([\0-\x1f\x7f]|^-?\d)|^-$|[^\x80-\uFFFF\w-]/g], is matched from left to
    right; a unit at which no alternative matches is copied. *)

(** [[\0-\x1f\x7f]] *)
Definition isControl (c : N) : bool := ((c <=? 31) || (c =? 127))%N.

(** [\w] *)
Definition isWordChar (c : N) : bool :=
  (isDigit c || ((65 <=? c) && (c <=? 90)) || ((97 <=? c) && (c <=? 122))
   || (c =? 95))%N.

(** [[^\x80-\uFFFF\w-]] *)
Definition needsBackslash (c : N) : bool :=
  negb ((128 <=? c)%N || isWordChar c || (c =? 45)%N).

(** The replacement of a match in which the first group took part:
    [charCode] is the match itself. *)
Definition escapeCharCode (matched : jsstring) : jsstring :=
  if jsstring_eqb matched [0%N] then [65533%N]
  else
    slice matched 0 (Some (-1)) ++ [92%N]
      ++ match slice matched (-1) None with
         | c :: _ => toString16 c
         | [] => []
         end
      ++ [32%N].

(** The matches that can start behind the first unit: a control unit, or a
    unit of the last alternative. *)
Fixpoint escapeRest (s : jsstring) : jsstring :=
  match s with
  | [] => []
  | c :: rest =>
      (if isControl c then escapeCharCode [c]
       else if needsBackslash c then [92%N; c]
       else [c])
      ++ escapeRest rest
  end.

Definition cssEscapePolyfill (value : jsstring) : jsstring :=
  match value with
  | [] => []
  | c :: rest =>
      (* [\0-\x1f\x7f] *)
      if isControl c then escapeCharCode [c] ++ escapeRest rest
      else
        (* ^-?\d *)
        match rest with
        | d :: rest' =>
            if (c =? 45)%N && isDigit d
            then escapeCharCode [c; d] ++ escapeRest rest'
            else if isDigit c then escapeCharCode [c] ++ escapeRest rest
            else (if needsBackslash c then [92%N; c] else [c])
                 ++ escapeRest rest
        | [] =>
            if isDigit c then escapeCharCode [c]
            (* ^-$ *)
            else if (c =? 45)%N then [92%N; c]
            else if needsBackslash c then [92%N; c]
            else [c]
        end
  end.

(** [cssEscape] of the file: the platform's [CSS.escape] where there is
    one. *)
Definition cssEscapeWith (native : option (jsstring -> jsstring))
    (value : jsstring) : jsstring :=
  match native with
  | Some escape => escape value
  | None => cssEscapePolyfill value
  end.

Section WithExternals.
Context {ext : Externals}.
Variable config : SelectorConfig.

Definition generateIdSelector (element : Element) : option jsstring :=
  let id := id (node element) in
  if negb (truthy id) then None
  else if isDynamicId id then None
  else Some id.

Definition generateDataTestIdSelector (element : Element)
    : option jsstring :=
  match getAttribute (node element) (js "data-testid") with
  | Some v => orUndefined v
  | None => None
  end.

Definition generateAriaLabelSelector (element : Element) : option jsstring :=
  match getAttribute (node element) (js "aria-label") with
  | Some v => orUndefined v
  | None => None
  end.

Definition generateNameSelector (element : Element) : option jsstring :=
  match interface (node element) with
  | HTMLInputElement | HTMLSelectElement => orUndefined (name (node element))
  | _ => None
  end.

Definition getElementSelectorPart (element : Element) : jsstring :=
  let n := node element in
  let tagName := toLowerCase (tagName n) in
  if truthy (id n) && negb (isDynamicId (id n)) then
    tagName ++ js "#" ++ cssEscape (id n)
  else
    let classes :=
      take 2 (List.filter (fun cls => negb (isDynamicClass cls))
                (classList n)) in
    if (0 <? length classes)%nat then
      tagName ++ js "." ++ join (js ".") (List.map cssEscape classes)
    else tagName.

(** The [while] loop of [generateCssSelector], by recursion on the chain of
    ancestors: [cur] is [currentElement], [parts] is [selectorParts]. *)
Fixpoint cssWalk (cur : Element) (depth : Z) (parts : list jsstring)
    : list jsstring :=
  match cur with
  | Detached _ => parts
  | Child _ parent _ =>
      if (depth <? maxCssDepth config) && negb (isBody (node parent)) then
        let parentPart := getElementSelectorPart parent in
        if truthy parentPart
        then cssWalk parent (depth + 1) (parentPart :: parts)
        else cssWalk parent depth parts
      else parts
  end.

Definition generateCssSelector (element : Element) : jsstring :=
  let n := node element in
  (* Tag name *)
  let parts := [toLowerCase (tagName n)] in
  (* Type attribute for inputs *)
  let parts :=
    match interface n with
    | HTMLInputElement =>
        if truthy (type_ n)
        then parts ++ [js "[type=" ++ [quote] ++ type_ n ++ [quote] ++ js "]"]
        else parts
    | _ => parts
    end in
  (* Classes (limit to most specific) *)
  let classes :=
    take 3 (List.filter (fun cls => negb (isDynamicClass cls))
              (classList n)) in
  let parts :=
    if (0 <? length classes)%nat then
      match parts with
      | p0 :: rest =>
          (p0 ++ concat (List.map (fun cls => js "." ++ cssEscape cls)
                           classes)) :: rest
      | [] => parts
      end
    else parts in
  (* Build selector with limited depth *)
  join (js " > ") (cssWalk element 0 [concat parts]).

Definition generateTextSelector (element : Element)
    : option jsstring * option jsstring :=
  match trim <$> textContent (node element) with
  | None => (None, None)
  | Some text =>
      if negb (truthy text) then (None, None)
      (* Use exact match for short text *)
      else if (length text <=? 50)%nat then (Some text, None)
      (* Use contains for longer text *)
      else (None, Some (take 30 text))
  end.

(** [siblings.filter(el => el.tagName === element.tagName).indexOf(element)] *)
Definition sameTagIndex (element : Element) : Z :=
  indexOfNode
    (List.filter (fun el => jsstring_eqb (tagName el)
                              (tagName (node element)))
       (siblings element))
    (node element).

Definition generateRelativeXPath (element : Element) : jsstring :=
  let n := node element in
  let tagName := toLowerCase (tagName n) in
  (* Try ID-based XPath first *)
  if truthy (id n) && negb (isDynamicId (id n)) then
    js "//" ++ tagName ++ js "[@id=" ++ [quote] ++ id n ++ [quote] ++ js "]"
  else
    (* Try data-testid *)
    match getAttribute n (js "data-testid") with
    | Some (c :: v) =>
        js "//" ++ tagName ++ js "[@data-testid=" ++ [quote] ++ (c :: v)
          ++ [quote] ++ js "]"
    | _ =>
        (* Try name attribute *)
        if bool_decide (interface n = HTMLInputElement) && truthy (name n)
        then
          js "//" ++ tagName ++ js "[@name=" ++ [quote] ++ name n ++ [quote]
            ++ js "]"
        else
          (* Try class-based *)
          let classConditions :=
            join (js " and ")
              (List.map (fun cls => js "contains(@class, " ++ [quote] ++ cls
                                      ++ [quote] ++ js ")")
                 (take 2 (List.filter
                            (fun cls => negb (isDynamicClass cls))
                            (classList n)))) in
          if (0 <? length (classList n))%nat && truthy classConditions then
            js "//" ++ tagName ++ js "[" ++ classConditions ++ js "]"
          else
            (* Fallback to tag with index *)
            let index := sameTagIndex element + 1 in
            js "//" ++ tagName ++ js "[" ++ String_ (Z.to_nat index)
              ++ js "]"
    end.

(** The loop of [generateAbsoluteXPath]: [parts] collects one step per
    element below [document.documentElement]. *)
Fixpoint xpathWalk (cur : Element) (parts : list jsstring) : list jsstring :=
  if isDocumentElement (node cur) then parts
  else
    let tagName := toLowerCase (tagName (node cur)) in
    let index := sameTagIndex cur + 1 in
    let parts :=
      (tagName ++ js "[" ++ String_ (Z.to_nat index) ++ js "]") :: parts in
    match cur with
    | Child _ parent _ => xpathWalk parent parts
    | Detached _ => parts
    end.

Definition generateAbsoluteXPath (element : Element) : jsstring :=
  js "/html/" ++ join (js "/") (xpathWalk element []).

Definition generatePositionSelector (element : Element)
    : option (jsstring * Z) :=
  match parentElement element with
  | None => None
  | Some parentEl =>
      let parent := getElementSelectorPart parentEl in
      if negb (truthy parent) then None
      else
        let index := indexOfNode (siblings element) (node element) in
        Some (parent, index)
  end.

(** The candidate stored under a key, or nothing when the produced value
    is falsy. *)
Definition keep (v : jsstring) : option jsstring := orUndefined v.

Definition generateSelectors (element : Element) : SelectorStrategy :=
  let priority := [] in
  (* 1. ID selector (highest priority) *)
  let id := generateIdSelector element in
  let priority := if truthyo id then priority ++ [TId] else priority in
  (* 2. data-testid selector *)
  let dataTestId := generateDataTestIdSelector element in
  let priority :=
    if truthyo dataTestId then priority ++ [TDataTestId] else priority in
  (* 3. ARIA label selector *)
  let ariaLabel := generateAriaLabelSelector element in
  let priority :=
    if truthyo ariaLabel then priority ++ [TAriaLabel] else priority in
  (* 4. Name attribute selector (for form fields) *)
  let name := generateNameSelector element in
  let priority := if truthyo name then priority ++ [TName] else priority in
  (* 5. CSS selector *)
  let css := keep (generateCssSelector element) in
  let priority := if truthyo css then priority ++ [TCss] else priority in
  (* 6. Text-based selector *)
  let found := generateTextSelector element in
  let text := if truthyo (fst found) then fst found else None in
  let textContains :=
    if truthyo (fst found) then None
    else if truthyo (snd found) then snd found else None in
  let priority :=
    if truthyo (fst found) then priority ++ [TText]
    else if truthyo (snd found) then priority ++ [TTextContains]
    else priority in
  (* 7. XPath selectors *)
  let xpath :=
    if includeXPath config then keep (generateRelativeXPath element)
    else None in
  let priority := if truthyo xpath then priority ++ [TXpath] else priority in
  let xpathAbsolute :=
    if includeXPath config then keep (generateAbsoluteXPath element)
    else None in
  let priority :=
    if truthyo xpathAbsolute then priority ++ [TXpathAbsolute]
    else priority in
  (* 8. Position-based selector (last resort) *)
  let position :=
    if includePosition config then generatePositionSelector element
    else None in
  let priority :=
    if bool_decide (is_Some position) then priority ++ [TPosition]
    else priority in
  mkSelectorStrategy id dataTestId ariaLabel name css text textContains
    xpath xpathAbsolute position priority.

End WithExternals.
End SelectorGenerator.

(* ===================================================================== *)
(** ** src/content/event-listener.ts: the pointer handlers *)
(* ===================================================================== *)

Module EventListener.
Import JS Types Dom.

Record MouseEvent := mkMouseEvent {
  target : Element;
  clientX : Z;
  clientY : Z;
  button : Z;
  ctrlKey : bool;
  shiftKey : bool;
  altKey : bool;
  metaKey : bool
}.

(** The fields of the class that the pointer handlers read or write. *)
Record Listener := mkListener {
  isListening : bool;
  actionSequence : nat;
  lastClickTarget : option Element;
  lastClickTime : Z
}.

(** What a handler does besides updating the listener. *)
Inductive Effect :=
| Emit (action : Action)                 (* this.actionCallback(action) *)
| PreventDefault
| StopPropagation
| SetTimeoutClick (target : Element) (delay : Z).
                                 (* setTimeout(() => target.click(), delay) *)

Definition emitted (effects : list Effect) : list Action :=
  omap (fun e => match e with Emit a => Some a | _ => None end) effects.

Definition indicatorId : jsstring := js "saveaction-recording-indicator".

(** [patterns.some(pattern => classes.some(cls => cls.includes(pattern)))] *)
Definition someClassIncludes (patterns classes : list jsstring) : bool :=
  existsb (fun pattern => existsb (fun cls => includes cls pattern) classes)
          patterns.

Definition interactiveTags : list jsstring :=
  [js "A"; js "BUTTON"; js "INPUT"; js "SELECT"; js "TEXTAREA"; js "LABEL"].
Definition interactiveRoles : list jsstring :=
  [js "button"; js "link"; js "menuitem"; js "menuitemcheckbox";
   js "menuitemradio"; js "option"; js "radio"; js "checkbox"; js "tab";
   js "switch"; js "treeitem"].
Definition interactiveClassPatterns : list jsstring :=
  [js "btn"; js "button"; js "clickable"; js "click"; js "link";
   js "menu-item"; js "dropdown-item"; js "option"; js "select"; js "choice";
   js "action"; js "interactive"; js "autocomplete"].
Definition interactiveDataAttributes : list jsstring :=
  [js "data-action"; js "data-click"; js "data-toggle"; js "data-target";
   js "data-value"; js "data-option"; js "data-select"; js "data-href";
   js "data-link"].
Definition interactiveListPatterns : list jsstring :=
  [js "menu"; js "dropdown"; js "options"; js "list"; js "choices";
   js "select"; js "autocomplete"].
Definition nonInteractivePatterns : list jsstring :=
  [js "nav"; js "navigation"; js "breadcrumb"; js "footer"; js "header"].
Definition interactiveContainerPatterns : list jsstring :=
  [js "dropdown"; js "menu"; js "select"; js "option"].

Section WithExternals.
Context {ext : Externals}.
(** The configuration of [new SelectorGenerator()], i.e.
    [DEFAULT_SELECTOR_CONFIG] of [@/types]. *)
Variable config : SelectorGenerator.SelectorConfig.

Definition lowerClasses (n : Node) : list jsstring :=
  List.map toLowerCase (classList n).

Definition isInteractiveElement (element : Element) : bool :=
  let n := node element in
  (* 1. Standard interactive HTML elements *)
  if existsb (jsstring_eqb (tagName n)) interactiveTags then true
  (* 2. Elements with explicit onclick handlers *)
  else if bool_decide (is_Some (getAttribute n (js "onclick"))) then true
  (* 3. ARIA roles indicating interactivity *)
  else if match getAttribute n (js "role") with
          | Some role => truthy role
                         && existsb (jsstring_eqb role) interactiveRoles
          | None => false
          end then true
  (* 4. Common interactive class patterns (case-insensitive) *)
  else if someClassIncludes interactiveClassPatterns (lowerClasses n)
  then true
  (* 5. Data attributes commonly used for interactive elements *)
  else if existsb (hasAttribute n) interactiveDataAttributes then true
  (* 6. Elements with cursor: pointer *)
  else if jsstring_eqb (cursor n) (js "pointer") then true
  (* 7. List items in specific interactive contexts *)
  else if match parentElement element with
          | Some parent =>
              jsstring_eqb (tagName n) (js "LI")
              && jsstring_eqb (tagName (node parent)) (js "UL")
              && (let parentClasses := lowerClasses (node parent) in
                  someClassIncludes interactiveListPatterns parentClasses
                  || negb (someClassIncludes nonInteractivePatterns
                             parentClasses))
          | None => false
          end then true
  (* 8. DIV/SPAN elements that behave like buttons/links *)
  else if jsstring_eqb (tagName n) (js "DIV")
          || jsstring_eqb (tagName n) (js "SPAN") then
    if hasAttribute n (js "tabindex") then true
    else
      let parentClasses :=
        match parentElement element with
        | Some parent => lowerClasses (node parent)
        | None => []
        end in
      if someClassIncludes interactiveContainerPatterns parentClasses
      then true
      else
        match parentElement element with
        | Some parent =>
            match parentElement parent with
            | Some grandparent =>
                jsstring_eqb (tagName (node parent)) (js "LI")
                && someClassIncludes interactiveListPatterns
                     (lowerClasses (node grandparent))
            | None => false
            end
        | None => false
        end
  else false.

(** The upward walk of [findInteractiveElement]; [None] is [null]. *)
Fixpoint findInteractiveElement (element : Element) : option Element :=
  if isBody (node element) then None
  else if jsstring_eqb (id (node element)) indicatorId
          || closestId element indicatorId then None
  else if isInteractiveElement element then Some element
  else match element with
       | Child _ parent _ => findInteractiveElement parent
       | Detached _ => None
       end.

Definition isNavigationClick (element : Element) : bool :=
  let n := node element in
  (* Ignore recording indicator *)
  if closestId element indicatorId then false
  (* Check if it's a link *)
  else if jsstring_eqb (tagName n) (js "A") && truthy (href n) then true
  (* Check if it's a submit button *)
  else if jsstring_eqb (tagName n) (js "BUTTON")
          && (jsstring_eqb (type_ n) (js "submit") || negb (truthy (type_ n)))
  then true
  (* Check if it's a submit input *)
  else if jsstring_eqb (tagName n) (js "INPUT")
          && jsstring_eqb (type_ n) (js "submit") then true
  else false.

Definition getModifierKeys (event : MouseEvent) : list jsstring :=
  (if ctrlKey event then [js "ctrl"] else [])
  ++ (if shiftKey event then [js "shift"] else [])
  ++ (if altKey event then [js "alt"] else [])
  ++ (if metaKey event then [js "meta"] else []).

(** [timestamp] is the reading of [Date.now()], [href] is
    [window.location.href]; the listener's sequence number advances. *)
Definition createClickAction (l : Listener) (event : MouseEvent)
    (target : Element) (clickCount : Z) (timestamp : Z) (href : jsstring)
    : Listener * Action :=
  let selector := SelectorGenerator.generateSelectors config target in
  let x := clientX event - rectLeft (node target) in
  let y := clientY event - rectTop (node target) in
  let button :=
    if button event =? 0 then js "left"
    else if button event =? 1 then js "middle" else js "right" in
  let modifiers := getModifierKeys event in
  let seq := S (actionSequence l) in
  (mkListener (isListening l) seq (lastClickTarget l) (lastClickTime l),
   mkAction (generateActionId seq) (js "click") timestamp href
     (Some selector) (Some (toLowerCase (tagName (node target))))
     (trim <$> textContent (node target)) (Some (x, y)) (Some button)
     (Some clickCount) modifiers None None false None None).

(** [target === this.lastClickTarget] *)
Definition isLastClickTarget (l : Listener) (target : Element) : bool :=
  match lastClickTarget l with
  | Some last => sameNode (node target) (node last)
  | None => false
  end.

(** [now] is the reading of [Date.now()] in the handler, [timestamp] the
    later one in [createClickAction]. *)
Definition onClick (l : Listener) (event : MouseEvent) (now timestamp : Z)
    (href : jsstring) : Listener * list Effect :=
  if negb (isListening l) then (l, [])
  else
    let clickedElement := target event in
    (* Find the interactive element (could be the target or a parent) *)
    match findInteractiveElement clickedElement with
    | None => (l, [])
    | Some target =>
        (* Check for double-click *)
        let isDoubleClick :=
          isLastClickTarget l target && (now - lastClickTime l <? 500) in
        let l := mkListener (isListening l) (actionSequence l)
                   (Some target) now in
        (* Skip if this is part of a double-click *)
        if isDoubleClick then (l, [])
        else
          (* Check if this click might cause navigation *)
          let willNavigate := isNavigationClick target in
          if willNavigate then
            let '(l, action) :=
              createClickAction l event target 1 timestamp href in
            (l, [PreventDefault; StopPropagation; Emit action;
                 SetTimeoutClick target 50])
          else
            let '(l, action) :=
              createClickAction l event target 1 timestamp href in
            (l, [Emit action])
    end.

Definition onMouseDown (l : Listener) (event : MouseEvent) (timestamp : Z)
    (href : jsstring) : Listener * list Effect :=
  if negb (isListening l) then (l, [])
  else
    match findInteractiveElement (target event) with
    | None => (l, [])
    | Some target =>
        (* Don't record navigation clicks on mousedown *)
        if isNavigationClick target then (l, [])
        else
          let '(l, action) :=
            createClickAction l event target 1 timestamp href in
          (l, [Emit action])
    end.

Definition onDoubleClick (l : Listener) (event : MouseEvent) (timestamp : Z)
    (href : jsstring) : Listener * list Effect :=
  if negb (isListening l) then (l, [])
  else
    match findInteractiveElement (target event) with
    | None => (l, [])
    | Some target =>
        let '(l, action) :=
          createClickAction l event target 2 timestamp href in
        (l, [Emit action])
    end.

(** The pointer events the listener is registered for. *)
Inductive PointerEvent :=
| Click (event : MouseEvent) (now timestamp : Z)
| MouseDown (event : MouseEvent) (timestamp : Z)
| DblClick (event : MouseEvent) (timestamp : Z).

Definition dispatch (href : jsstring) (l : Listener) (e : PointerEvent)
    : Listener * list Effect :=
  match e with
  | Click event now timestamp => onClick l event now timestamp href
  | MouseDown event timestamp => onMouseDown l event timestamp href
  | DblClick event timestamp => onDoubleClick l event timestamp href
  end.

(** The actions handed to the callback over a sequence of events. *)
Fixpoint run (href : jsstring) (l : Listener) (events : list PointerEvent)
    : Listener * list Action :=
  match events with
  | [] => (l, [])
  | e :: rest =>
      let '(l1, effects) := dispatch href l e in
      let '(l2, actions) := run href l1 rest in
      (l2, emitted effects ++ actions)
  end.

End WithExternals.
(** *** The keyboard, form, scroll and history handlers, and the timers *)

(** The host's timers. [setTimeout] hands out a positive handle that it
    never hands out again; a timer is pending, with its callback and its
    delay, until it fires or is cleared. Clearing a handle that is not
    pending does nothing. *)
Inductive TimerCallback :=
| InputCallback       (* the arrow function of [onInput] *)
| ScrollCallback.     (* the arrow function of [onScroll] *)

Record Timers := mkTimers {
  pending : gmap positive (TimerCallback * Z);
  nextHandle : positive
}.

Definition setTimeout (callback : TimerCallback) (delay : Z) (t : Timers)
    : positive * Timers :=
  (nextHandle t,
   mkTimers (<[nextHandle t := (callback, delay)]> (pending t))
     (Pos.succ (nextHandle t))).

Definition clearTimeout (handle : positive) (t : Timers) : Timers :=
  mkTimers (delete handle (pending t)) (nextHandle t).

(** The fields of the class: those of the pointer handlers, and the ones
    the debounced handlers keep. A timer field is [null] or a handle. *)
Record Fields := mkFields {
  pointer : Listener;
  inputDebounceTimer : option positive;
  scrollDebounceTimer : option positive;
  pendingInputElement : option Element;
  typingStartTime : Z;
  keyCount : Z
}.

(** The object and the timers of its page. *)
Record Page := mkPage {
  fields : Fields;
  timers : Timers
}.

(** [new EventListener(callback)] on a page without timers. *)
Definition newEventListener : Page :=
  mkPage (mkFields (mkListener false 0 None 0) None None None 0 0)
    (mkTimers ∅ 1%positive).

Definition withPointer (l : Listener) (f : Fields) : Fields :=
  mkFields l (inputDebounceTimer f) (scrollDebounceTimer f)
    (pendingInputElement f) (typingStartTime f) (keyCount f).

Definition withListening (b : bool) (f : Fields) : Fields :=
  withPointer (mkListener b (actionSequence (pointer f))
                 (lastClickTarget (pointer f)) (lastClickTime (pointer f)))
    f.

(** [++this.actionSequence] *)
Definition advance (f : Fields) : Fields * nat :=
  let seq := S (actionSequence (pointer f)) in
  (withPointer (mkListener (isListening (pointer f)) seq
                  (lastClickTarget (pointer f)) (lastClickTime (pointer f)))
     f,
   seq).

(** The fields of an action that [Action] of the types does not carry. *)
Inductive Variant :=
| NoMore                                   (* click and submit actions *)
| InputFields (simulationType : jsstring) (typingDelay : Z)
| SelectFields (selectedValue selectedText : jsstring) (selectedIndex : Z)
| KeypressFields (key code : jsstring)
| ScrollFields (scrollX scrollY : Z) (element : jsstring)
| NavigationFields (navigationTrigger waitUntil : jsstring) (duration : Z).

(** What the callback is handed. *)
Definition Captured : Type := Action * Variant.

Record KeyboardEvent := mkKeyboardEvent {
  eventKey : jsstring;
  eventCode : jsstring;
  keyCtrl : bool;
  keyShift : bool;
  keyAlt : bool;
  keyMeta : bool
}.

(** What the select element shows when the change event is handled:
    [target.value], [target.selectedIndex] and the [textContent] of
    [target.options[target.selectedIndex]]; the outer [None] is no such
    option. *)
Record Selected := mkSelected {
  selectValue : jsstring;
  selectIndex : Z;
  optionText : option (option jsstring)
}.

(** What a timer callback reads: the value of the pending element, the two
    readings of [Date.now()], the location and the scroll offsets. *)
Record Readings := mkReadings {
  inputValue : jsstring;
  nowReading : Z;
  timestampReading : Z;
  locationHref : jsstring;
  windowScrollX : Z;
  windowScrollY : Z
}.

Definition specialKeys : list jsstring :=
  [js "Enter"; js "Tab"; js "Escape"; js "ArrowUp"; js "ArrowDown";
   js "ArrowLeft"; js "ArrowRight"].

Definition sensitivePatterns : list jsstring :=
  [js "password"; js "passwd"; js "pwd"; js "secret"; js "pin"; js "cvv";
   js "ssn"].

(** [Math.round(a / k)] for integers [a] and [k > 0]: the nearest integer,
    a half rounding up. *)
Definition roundDiv (a k : Z) : Z := (2 * a + k) / (2 * k).

Section Handlers.
Context {ext : Externals}.
Variable config : SelectorGenerator.SelectorConfig.

(** [getModifierKeys] on a keyboard event. *)
Definition getKeyModifiers (event : KeyboardEvent) : list jsstring :=
  (if keyCtrl event then [js "ctrl"] else [])
  ++ (if keyShift event then [js "shift"] else [])
  ++ (if keyAlt event then [js "alt"] else [])
  ++ (if keyMeta event then [js "meta"] else []).

(** [x?.toLowerCase() || ''] is [x.toLowerCase()] for a string [x]. *)
Definition isSensitiveInput (element : Element) : bool :=
  let n := node element in
  if bool_decide (interface n = HTMLInputElement) then
    (* Check input type *)
    if jsstring_eqb (type_ n) (js "password") then true
    else
      (* Check common password field names *)
      let name := toLowerCase (name n) in
      let id := toLowerCase (id n) in
      existsb (fun pattern => includes name pattern || includes id pattern)
        sensitivePatterns
  else false.

Definition captureInputAction (f : Fields) (target : Element)
    (page : Readings) : Fields * Captured :=
  let selector := SelectorGenerator.generateSelectors config target in
  let isSensitive := isSensitiveInput target in
  (* Calculate average typing delay *)
  let typingDuration := nowReading page - typingStartTime f in
  let typingDelay :=
    if 1 <? keyCount f then roundDiv typingDuration (keyCount f) else 50 in
  let '(f, seq) := advance f in
  (f,
   (mkAction (generateActionId seq) (js "input") (timestampReading page)
      (locationHref page) (Some selector)
      (Some (toLowerCase (tagName (node target)))) None None None None []
      (Some (if isSensitive then js "***MASKED***" else inputValue page))
      (Some (if truthy (type_ (node target)) then type_ (node target)
             else js "text"))
      isSensitive None None,
    InputFields (js "type") typingDelay)).

(** The callback that [onInput] hands to [setTimeout]. *)
Definition inputCallback (f : Fields) (page : Readings)
    : Fields * list Captured :=
  match pendingInputElement f with
  | Some target =>
      let '(f, action) := captureInputAction f target page in
      (mkFields (pointer f) (inputDebounceTimer f) (scrollDebounceTimer f)
         None 0 0,
       [action])
  | None => (f, [])
  end.

Definition onInput (p : Page) (target : option Element) (now : Z) : Page :=
  let f := fields p in
  if negb (isListening (pointer f)) then p
  else
    match target with
    | None => p
    | Some target =>
        if negb (jsstring_eqb (tagName (node target)) (js "INPUT"))
           && negb (jsstring_eqb (tagName (node target)) (js "TEXTAREA"))
        then p
        else
          (* Track typing timing *)
          let '(start, count) :=
            if typingStartTime f =? 0 then (now, 0)
            else (typingStartTime f, keyCount f) in
          let count := count + 1 in
          (* Clear previous debounce timer *)
          let t := match inputDebounceTimer f with
                   | Some handle => clearTimeout handle (timers p)
                   | None => timers p
                   end in
          (* Debounce input events *)
          let '(handle, t) := setTimeout InputCallback 500 t in
          mkPage (mkFields (pointer f) (Some handle) (scrollDebounceTimer f)
                    (Some target) start count)
            t
    end.

Definition captureSelectAction (f : Fields) (target : Element)
    (selected : Selected) (timestamp : Z) (href : jsstring)
    : Fields * Captured :=
  let selector := SelectorGenerator.generateSelectors config target in
  let selectedText :=
    match optionText selected with
    | Some (Some text) => trim text
    | _ => []
    end in
  let '(f, seq) := advance f in
  (f,
   (mkAction (generateActionId seq) (js "select") timestamp href
      (Some selector) (Some (js "select")) None None None None [] None None
      false None None,
    SelectFields (selectValue selected) selectedText (selectIndex selected))).

Definition onChange (f : Fields) (target : Element) (selected : Selected)
    (timestamp : Z) (href : jsstring) : Fields * list Captured :=
  if negb (isListening (pointer f)) then (f, [])
  else if bool_decide (interface (node target) = HTMLSelectElement) then
    let '(f, action) := captureSelectAction f target selected timestamp href in
    (f, [action])
  else (f, []).

Definition onSubmit (f : Fields) (target : option Element) (timestamp : Z)
    (href : jsstring) : Fields * list Captured :=
  if negb (isListening (pointer f)) then (f, [])
  else
    match target with
    | None => (f, [])
    | Some target =>
        if negb (jsstring_eqb (tagName (node target)) (js "FORM"))
        then (f, [])
        else
          let selector := SelectorGenerator.generateSelectors config target in
          let '(f, seq) := advance f in
          (f,
           [(mkAction (generateActionId seq) (js "submit") timestamp href
               (Some selector) (Some (js "form")) None None None None []
               None None false None None,
             NoMore)])
    end.

Definition onKeyDown (f : Fields) (event : KeyboardEvent) (timestamp : Z)
    (href : jsstring) : Fields * list Captured :=
  if negb (isListening (pointer f)) then (f, [])
  (* Only capture special keys (Enter, Tab, Escape, etc.) *)
  else if negb (existsb (jsstring_eqb (eventKey event)) specialKeys)
  then (f, [])
  else
    let modifiers := getKeyModifiers event in
    let '(f, seq) := advance f in
    (f,
     [(mkAction (generateActionId seq) (js "keypress") timestamp href None
         None None None None None modifiers None None false None None,
       KeypressFields (eventKey event) (eventCode event))]).

Definition captureScrollAction (f : Fields) (page : Readings)
    : Fields * Captured :=
  let '(f, seq) := advance f in
  (f,
   (mkAction (generateActionId seq) (js "scroll") (timestampReading page)
      (locationHref page) None None None None None None [] None None false
      None None,
    ScrollFields (windowScrollX page) (windowScrollY page) (js "window"))).

Definition onScroll (p : Page) : Page :=
  let f := fields p in
  if negb (isListening (pointer f)) then p
  else
    (* Clear previous debounce timer *)
    let t := match scrollDebounceTimer f with
             | Some handle => clearTimeout handle (timers p)
             | None => timers p
             end in
    (* Debounce scroll events *)
    let '(handle, t) := setTimeout ScrollCallback 200 t in
    mkPage (mkFields (pointer f) (inputDebounceTimer f) (Some handle)
              (pendingInputElement f) (typingStartTime f) (keyCount f))
      t.

(** [referrer] is [document.referrer]. *)
Definition onPopState (f : Fields) (referrer : jsstring) (timestamp : Z)
    (href : jsstring) : Fields * list Captured :=
  if negb (isListening (pointer f)) then (f, [])
  else
    let '(f, seq) := advance f in
    (f,
     [(mkAction (generateActionId seq) (js "navigation") timestamp href None
         None None None None None [] None None false
         (Some (if truthy referrer then referrer else href)) (Some href),
       NavigationFields (js "back") (js "load") 0)]).

Definition start (f : Fields) : Fields :=
  if isListening (pointer f) then f else withListening true f.

Definition stop (f : Fields) : Fields :=
  if negb (isListening (pointer f)) then f else withListening false f.

Definition destroy (p : Page) : Page :=
  let f := stop (fields p) in
  let t := match inputDebounceTimer f with
           | Some handle => clearTimeout handle (timers p)
           | None => timers p
           end in
  let t := match scrollDebounceTimer f with
           | Some handle => clearTimeout handle t
           | None => t
           end in
  mkPage f t.

(** A pending timer fires: it is no longer pending, and its callback
    runs. A handle that is not pending names no timer. *)
Definition fire (p : Page) (handle : positive) (page : Readings)
    : Page * list Captured :=
  match pending (timers p) !! handle with
  | Some (InputCallback, _) =>
      let '(f, out) := inputCallback (fields p) page in
      (mkPage f (clearTimeout handle (timers p)), out)
  | Some (ScrollCallback, _) =>
      let '(f, action) := captureScrollAction (fields p) page in
      (mkPage f (clearTimeout handle (timers p)), [action])
  | None => (p, [])
  end.

(** Everything that can happen to the object: the events it is registered
    for, with what the handler reads, a timer of the page firing, and the
    calls of its public methods. *)
Inductive DomEvent :=
| Pointer (href : jsstring) (e : PointerEvent)
| InputEvent (target : option Element) (now : Z)
| ChangeEvent (target : Element) (selected : Selected) (timestamp : Z)
    (href : jsstring)
| SubmitEvent (target : option Element) (timestamp : Z) (href : jsstring)
| KeyDownEvent (event : KeyboardEvent) (timestamp : Z) (href : jsstring)
| ScrollEvent
| PopStateEvent (referrer : jsstring) (timestamp : Z) (href : jsstring)
| TimerFires (handle : positive) (page : Readings)
| CallStart
| CallStop
| CallDestroy.

Definition onFields (p : Page) (r : Fields * list Captured)
    : Page * list Captured :=
  (mkPage (fst r) (timers p), snd r).

Definition handleEvent (p : Page) (e : DomEvent) : Page * list Captured :=
  match e with
  | Pointer href e =>
      let '(l, effects) := dispatch config href (pointer (fields p)) e in
      (mkPage (withPointer l (fields p)) (timers p),
       List.map (fun a => (a, NoMore)) (emitted effects))
  | InputEvent target now => (onInput p target now, [])
  | ChangeEvent target selected timestamp href =>
      onFields p (onChange (fields p) target selected timestamp href)
  | SubmitEvent target timestamp href =>
      onFields p (onSubmit (fields p) target timestamp href)
  | KeyDownEvent event timestamp href =>
      onFields p (onKeyDown (fields p) event timestamp href)
  | ScrollEvent => (onScroll p, [])
  | PopStateEvent referrer timestamp href =>
      onFields p (onPopState (fields p) referrer timestamp href)
  | TimerFires handle page => fire p handle page
  | CallStart => (mkPage (start (fields p)) (timers p), [])
  | CallStop => (mkPage (stop (fields p)) (timers p), [])
  | CallDestroy => (destroy p, [])
  end.

(** What the callback is handed over a sequence of events. *)
Fixpoint handleEvents (p : Page) (events : list DomEvent)
    : Page * list Captured :=
  match events with
  | [] => (p, [])
  | e :: rest =>
      let '(p1, out) := handleEvent p e in
      let '(p2, out') := handleEvents p1 rest in
      (p2, out ++ out')
  end.

End Handlers.

End EventListener.

(* ===================================================================== *)
(** ** src/utils/storage.ts *)
(* ===================================================================== *)

Module Storage.
Import JS Types.

(** [chrome.storage.local]: the key [recording_ids] and one key
    [recording_<id>] per saved recording. *)
Record LocalStore := mkLocal {
  recording_ids : list jsstring;
  recordings : gmap jsstring Recording
}.

Definition emptyLocal : LocalStore := mkLocal [] ∅.

(** The writes of [saveRecording] when [chrome.storage.local.set] reports
    no [lastError]. *)
Definition saveRecording (recording : Recording) (store : LocalStore)
    : LocalStore :=
  let recordingIds := recording_ids store in
  (* Add new ID if not already present *)
  let recordingIds :=
    if bool_decide (r_id recording ∈ recordingIds) then recordingIds
    else recordingIds ++ [r_id recording] in
  (* Save both the recording and updated ID list *)
  mkLocal recordingIds (<[r_id recording := recording]> (recordings store)).

(** An entry of the listing. *)
Record RecordingMetadata := mkRecordingMetadata {
  id : jsstring;
  testName : jsstring;
  url : jsstring;
  startTime : jsstring;
  endTime : jsstring;
  actionCount : nat
}.

(** What [loadRecording] resolves with when [chrome.storage.local.get]
    reports no [lastError]; [None] is [null]. The two components of
    [LocalStore] describe the store for every id but "ids", whose key
    [recording_ids] is that of the id list itself. *)
Definition loadRecording (id : jsstring) (store : LocalStore)
    : option Recording :=
  recordings store !! id.

(** The writes of [deleteRecording] when neither call reports a
    [lastError]. *)
Definition deleteRecording (id : jsstring) (store : LocalStore)
    : LocalStore :=
  let recordingIds := recording_ids store in
  (* Remove the ID from the list *)
  let updatedIds :=
    List.filter (fun recordingId => negb (jsstring_eqb recordingId id))
                recordingIds in
  (* Remove the recording and update ID list *)
  mkLocal updatedIds (delete id (recordings store)).

(** The entry built for one listed id: [Some None] when no recording is
    stored under it, [None] when reading [recording.actions.length] throws
    because the stored recording has no actions array. *)
Definition listEntry (store : LocalStore) (id : jsstring)
    : option (option RecordingMetadata) :=
  match recordings store !! id with
  | None => Some None
  | Some recording =>
      match r_actions recording with
      | Some actions =>
          Some (Some (mkRecordingMetadata (r_id recording)
                        (r_testName recording) (r_url recording)
                        (r_startTime recording) (r_endTime recording)
                        (length actions)))
      | None => None
      end
  end.

(** What [listRecordings] resolves with when no [lastError] is reported;
    [None] when the callback throws, so that the promise never settles. *)
Definition listRecordings (store : LocalStore)
    : option (list RecordingMetadata) :=
  let recordingIds := recording_ids store in
  if bool_decide (recordingIds = []) then Some []
  else
    (* Get all recordings *)
    entries ← mapM (listEntry store) recordingIds;
    Some (omap (fun item => item) entries).

End Storage.

(* ===================================================================== *)
(** ** src/background/index.ts *)
(* ===================================================================== *)

Module Background.
Import JS Types.

(** What the status query reports about the session. *)
Record RecordingMetadata := mkMetadata {
  m_testName : jsstring;
  m_startTime : Z;
  m_actionCount : nat
}.

Record BackgroundState := mkState {
  isRecording : bool;
  isPaused : bool;
  testName : option jsstring;
  currentTabId : option Z;
  startTime : option Z;
  metadata : option RecordingMetadata;
  accumulatedActions : list Action;
  actionCache : list Action;
  pollingInterval : bool;        (* a timer handle is held *)
  actionCounter : nat
}.

(** [let state: BackgroundState = {...}] *)
Definition initialState : BackgroundState :=
  mkState false false None None None None [] [] false 0.

(** Messages the coordinator sends to the page. *)
Inductive TabMessage :=
| START_RECORDING (testName : jsstring)
| STOP_RECORDING
| PAUSE_RECORDING
| RESUME_RECORDING
| SAVE_CURRENT_STATE
| GET_RECORDING.

(** Calls that leave the coordinator, in the order they are made. *)
Inductive Call :=
| TabsQuery
| TabsSendMessage (tabId : Z) (message : TabMessage)
| TabsGet (tabId : Z)
| SessionGet
| SessionSet (actions : list Action)
| SessionRemove
| SaveRecording (recording : Recording)
| ValidateRecording (recording : Recording)
| StatusUpdate (state : jsstring)
| SetInterval
| ClearInterval.

(** The coordinator's variables together with the stores it talks to:
    [session] is the value under ['saveaction_current_actions'] in
    [chrome.storage.session], [None] when the key is absent. *)
Record World := mkWorld {
  state : BackgroundState;
  session : option (list Action);
  local : Storage.LocalStore;
  trace : list Call
}.

Definition initialWorld : World :=
  mkWorld initialState None Storage.emptyLocal [].

(** A promise settles one way or the other. *)
Inductive Outcome (A : Type) :=
| Resolved (value : A)
| Rejected (message : jsstring).
Arguments Resolved {A} value.
Arguments Rejected {A} message.

Inductive ResponseData :=
| DataState (state : jsstring) (testName : option jsstring)
| DataRecording (recording : Recording)
| DataStatus (state : jsstring) (metadata : option RecordingMetadata).

Record MessageResponse := mkResponse {
  success : bool;
  data : option ResponseData;
  error : option jsstring
}.

Definition ok : MessageResponse := mkResponse true None None.
Definition okWith (d : ResponseData) : MessageResponse :=
  mkResponse true (Some d) None.
Definition failed (message : jsstring) : MessageResponse :=
  mkResponse false None (Some message).

(** What the page answers to STOP_RECORDING. *)
Record PageStopResponse := mkPageStop {
  ps_success : bool;
  ps_data : option Recording
}.

(** What the page answers to SAVE_CURRENT_STATE; [psv_actions] is
    [response.data.actions]. *)
Record PageSaveResponse := mkPageSave {
  psv_success : bool;
  psv_actions : option (list Action)
}.

(** A handler as it runs when no other handler runs while it awaits: from
    the world to its result and the world afterwards. How the handlers
    interleave at their awaits is the matter of [Interleaving] below, whose
    handlers are these when each is resumed at once. *)
Definition M (A : Type) : Type := World -> A * World.

Definition ret {A : Type} (a : A) : M A := fun w => (a, w).
Definition bind {A B : Type} (m : M A) (k : A -> M B) : M B :=
  fun w => let '(a, w1) := m w in k a w1.

Notation "'let*' x ':=' m 'in' k" := (bind m (fun x => k))
  (at level 10, x name, m at level 100, k at level 200).
Notation "'exec' m 'in' k" := (bind m (fun _ => k))
  (at level 10, m at level 100, k at level 200).

Definition getState : M BackgroundState := fun w => (state w, w).
Definition putState (s : BackgroundState) : M unit :=
  fun w => (tt, mkWorld s (session w) (local w) (trace w)).
Definition call (c : Call) : M unit :=
  fun w => (tt, mkWorld (state w) (session w) (local w) (trace w ++ [c])).

(** [chrome.storage.session.get('saveaction_current_actions')] *)
Definition sessionGet (settles : Outcome unit)
    : M (Outcome (option (list Action))) :=
  exec call SessionGet in
  fun w => (match settles with
            | Resolved _ => Resolved (session w)
            | Rejected m => Rejected m
            end, w).

(** [chrome.storage.session.set({saveaction_current_actions: actions})] *)
Definition sessionSet (settles : Outcome unit) (actions : list Action)
    : M (Outcome unit) :=
  exec call (SessionSet actions) in
  fun w => match settles with
           | Resolved _ =>
               (Resolved tt,
                mkWorld (state w) (Some actions) (local w) (trace w))
           | Rejected m => (Rejected m, w)
           end.

(** [chrome.storage.session.remove('saveaction_current_actions')] *)
Definition sessionRemove (settles : Outcome unit) : M (Outcome unit) :=
  exec call SessionRemove in
  fun w => match settles with
           | Resolved _ =>
               (Resolved tt, mkWorld (state w) None (local w) (trace w))
           | Rejected m => (Rejected m, w)
           end.

(** [saveRecording(recording)] of storage.ts. *)
Definition saveRecording (settles : Outcome unit) (recording : Recording)
    : M (Outcome unit) :=
  exec call (SaveRecording recording) in
  fun w => match settles with
           | Resolved _ =>
               (Resolved tt,
                mkWorld (state w) (session w)
                  (Storage.saveRecording recording (local w)) (trace w))
           | Rejected m => (Rejected m, w)
           end.

(** [chrome.tabs.sendMessage(tabId, message)] *)
Definition tabsSendMessage {A : Type} (tabId : Z) (message : TabMessage)
    (reply : Outcome A) : M (Outcome A) :=
  exec call (TabsSendMessage tabId message) in
  ret reply.

(** Truthiness of [number | null]. *)
Definition truthyNumber (n : option Z) : bool :=
  match n with Some v => negb (v =? 0) | None => false end.

Definition recordingState (s : BackgroundState) : jsstring :=
  if isRecording s then (if isPaused s then js "paused" else js "recording")
  else js "idle".

Definition broadcastStatusUpdate : M unit :=
  let* s := getState in
  call (StatusUpdate (recordingState s)).

Definition resetState : M unit :=
  let* s := getState in
  (* Stop polling if active *)
  exec (if pollingInterval s then call ClearInterval else ret tt) in
  putState (mkState false false None None None None [] [] false 0).

Definition startActionPolling : M unit :=
  let* s := getState in
  (* Clear any existing polling *)
  exec (if pollingInterval s then call ClearInterval else ret tt) in
  exec call SetInterval in
  let* s := getState in
  putState (mkState (isRecording s) (isPaused s) (testName s)
              (currentTabId s) (startTime s) (metadata s)
              (accumulatedActions s) (actionCache s) true (actionCounter s)).

Definition stopActionPolling : M unit :=
  let* s := getState in
  if pollingInterval s then
    exec call ClearInterval in
    putState (mkState (isRecording s) (isPaused s) (testName s)
                (currentTabId s) (startTime s) (metadata s)
                (accumulatedActions s) (actionCache s) false
                (actionCounter s))
  else ret tt.

Definition setPaused (b : bool) (s : BackgroundState) : BackgroundState :=
  mkState (isRecording s) b (testName s) (currentTabId s) (startTime s)
    (metadata s) (accumulatedActions s) (actionCache s) (pollingInterval s)
    (actionCounter s).

Definition setAccumulated (l : list Action) (s : BackgroundState)
    : BackgroundState :=
  mkState (isRecording s) (isPaused s) (testName s) (currentTabId s)
    (startTime s) (metadata s) l (actionCache s) (pollingInterval s)
    (actionCounter s).

Definition setActionCache (l : list Action) (s : BackgroundState)
    : BackgroundState :=
  mkState (isRecording s) (isPaused s) (testName s) (currentTabId s)
    (startTime s) (metadata s) (accumulatedActions s) l (pollingInterval s)
    (actionCounter s).

Definition setCounter (n : nat) (s : BackgroundState) : BackgroundState :=
  mkState (isRecording s) (isPaused s) (testName s) (currentTabId s)
    (startTime s) (metadata s) (accumulatedActions s) (actionCache s)
    (pollingInterval s) n.

(** [{...action, id}] *)
Definition withId (id : jsstring) (action : Action) : Action :=
  mkAction id (a_type action) (a_timestamp action) (a_url action)
    (a_selector action) (a_tagName action) (a_text action)
    (a_coordinates action) (a_button action) (a_clickCount action)
    (a_modifiers action) (a_value action) (a_inputType action)
    (a_isSensitive action) (a_from action) (a_to action).

(** [`act_${String(n).padStart(3, '0')}`] *)
Definition formatActionId (n : nat) : jsstring :=
  js "act_" ++ padStart 3 48%N (String_ n).

(** [actions.sort((a, b) => a.timestamp - b.timestamp)]: the sort of
    ECMAScript is stable, which fixes its result; [insertByTimestamp] puts
    an action in front of the first one that is not earlier. *)
Fixpoint insertByTimestamp (a : Action) (sorted : list Action)
    : list Action :=
  match sorted with
  | [] => [a]
  | b :: rest =>
      if a_timestamp a <=? a_timestamp b then a :: b :: rest
      else b :: insertByTimestamp a rest
  end.

Definition sortByTimestamp (actions : list Action) : list Action :=
  foldr insertByTimestamp [] actions.

(** The merge of the navigation listener: cache actions whose timestamp is
    not among the accumulated ones are appended. *)
Definition mergeNewActions (accumulated currentPageActions : list Action)
    : list Action :=
  (* Only add actions we don't already have (deduplication by timestamp) *)
  let existingTimestamps : gset Z :=
    list_to_set (List.map a_timestamp accumulated) in
  let newActions :=
    List.filter (fun a => bool_decide (a_timestamp a ∉ existingTimestamps))
                currentPageActions in
  if (0 <? length newActions)%nat then accumulated ++ newActions
  else accumulated.

(** *** The message handlers

    Each handler takes, besides the request, how the platform calls it
    awaits settle. *)

Record StartEnv := mkStartEnv {
  queriedTabs : list (option Z);     (* the ids of chrome.tabs.query(...) *)
  startNow : Z;                      (* Date.now() *)
  startReply : Outcome unit          (* the page's answer to START_RECORDING *)
}.

Record StopEnv := mkStopEnv {
  stopSessionGet : Outcome unit;
  stopReply : Outcome (option PageStopResponse);
  stopTabUrl : Outcome jsstring;     (* chrome.tabs.get(tabId): tab.url || '' *)
  stopNowId : nat;                   (* Date.now() in the recording id *)
  stopNowEnd : Z;                    (* new Date() *)
  stopSave : Outcome unit
}.

Record SyncEnv := mkSyncEnv {
  syncSessionGet : Outcome unit;
  syncSessionSet : Outcome unit
}.

Record NavEnv := mkNavEnv {
  navSessionGet : Outcome unit;
  navSessionRemove : Outcome unit
}.

Record TabChangeInfo := mkChange {
  status : option jsstring;
  url : option jsstring
}.

Section WithExternals.
Context {ext : Externals}.

Definition handleStartRecording (env : StartEnv) (name : jsstring)
    : M MessageResponse :=
  let* s := getState in
  if isRecording s then ret (failed (js "Recording is already in progress"))
  else
    (* Get current tab *)
    exec call TabsQuery in
    match queriedTabs env with
    | [] => ret (failed (js "No active tab found"))
    | first :: _ =>
        match first with
        | Some tabId =>
            if tabId =? 0 then ret (failed (js "Invalid tab ID"))
            else
              let startTime := startNow env in
              (* Update state *)
              exec putState
                (mkState true false (Some name) (Some tabId) (Some startTime)
                   None (accumulatedActions s) (actionCache s)
                   (pollingInterval s) (actionCounter s)) in
              (* Send message to content script to start recording *)
              let* sent :=
                tabsSendMessage tabId (START_RECORDING name)
                  (startReply env) in
              match sent with
              | Resolved _ =>
                  (* Start polling for actions *)
                  exec startActionPolling in
                  (* Broadcast status update to popup *)
                  exec broadcastStatusUpdate in
                  ret (okWith (DataState (js "recording") (Some name)))
              | Rejected message =>
                  (* Reset state on error *)
                  exec resetState in
                  ret (failed (js "Failed to start recording: " ++ message))
              end
        | None => ret (failed (js "Invalid tab ID"))
        end
    end.

(** The tail shared by both ways of finishing a stop: save, reset,
    broadcast, answer. *)
Definition finishStop (env : StopEnv) (recording : Recording)
    : M MessageResponse :=
  (* Save recording to storage; a rejection is logged only *)
  exec saveRecording (stopSave env) recording in
  (* Reset state *)
  exec resetState in
  exec broadcastStatusUpdate in
  ret (okWith (DataRecording recording)).

(** Building the recording from the coordinator's own state. *)
Definition stopFromBackgroundState (env : StopEnv) (tabId : Z)
    (currentPageActions : list Action) : M MessageResponse :=
  let* s := getState in
  match testName s, startTime s with
  | Some (c :: name), Some start =>
      if start =? 0 then
        (* throw new Error('Missing recording metadata') *)
        exec resetState in
        ret (failed (js "Failed to stop recording: "
                       ++ js "Missing recording metadata"))
      else
        (* Get current tab URL *)
        exec call (TabsGet tabId) in
        let currentUrl :=
          match stopTabUrl env with
          | Resolved url => url
          | Rejected _ => js "unknown"
          end in
        let recording :=
          mkRecording
            (js "rec_" ++ String_ (stopNowId env))
            (js "1.0.0")
            (c :: name)
            currentUrl
            (toISOString start)
            (toISOString (stopNowEnd env))
            (Some (mkViewport (DNum 1920) (DNum 1080)))
            (js "Mozilla/5.0 (Windows NT 10.0; Win64; x64) AppleWebKit/537.36")
            (* Sort by timestamp *)
            (Some (sortByTimestamp
                     (accumulatedActions s ++ currentPageActions))) in
        finishStop env recording
  | _, _ =>
      exec resetState in
      ret (failed (js "Failed to stop recording: "
                     ++ js "Missing recording metadata"))
  end.

Definition handleStopRecording (env : StopEnv) : M MessageResponse :=
  let* s := getState in
  if negb (isRecording s) then ret (failed (js "No active recording"))
  else
    match currentTabId s with
    | Some tabId =>
        if tabId =? 0 then
          exec resetState in
          ret (failed (js "No active tab for recording"))
        else
          (* Stop polling *)
          exec stopActionPolling in
          (* Get final actions from storage (has correct renumbered IDs) *)
          let* stored := sessionGet (stopSessionGet env) in
          let currentPageActions :=
            match stored with
            | Resolved (Some actions) => actions
            | _ => []
            end in
          (* Try to get recording metadata from content script *)
          let* response :=
            tabsSendMessage tabId STOP_RECORDING (stopReply env) in
          match response with
          | Resolved (Some (mkPageStop true (Some page))) =>
              (* Use the recording if we got one with valid data *)
              if truthy (r_id page) && truthy (r_testName page)
                 && truthy (r_startTime page) then
                let* s := getState in
                let actions :=
                  (* Merge accumulated actions from previous pages *)
                  if (0 <? length (accumulatedActions s))%nat then
                    (* Re-sort by timestamp *)
                    sortByTimestamp
                      (accumulatedActions s ++ currentPageActions)
                  else
                    (* Use actions from storage, not from content script *)
                    currentPageActions in
                finishStop env
                  (mkRecording (r_id page) (r_version page)
                     (r_testName page) (r_url page) (r_startTime page)
                     (r_endTime page) (r_viewport page) (r_userAgent page)
                     (Some actions))
              else stopFromBackgroundState env tabId currentPageActions
          | _ =>
              (* Content script couldn't provide recording *)
              stopFromBackgroundState env tabId currentPageActions
          end
    | None =>
        exec resetState in
        ret (failed (js "No active tab for recording"))
    end.

Definition handlePauseRecording (reply : Outcome unit) : M MessageResponse :=
  let* s := getState in
  if negb (isRecording s) then
    ret (failed (js "No active recording to pause"))
  else if isPaused s then ret (failed (js "Recording is already paused"))
  else if negb (truthyNumber (currentTabId s)) then
    ret (failed (js "No active tab for recording"))
  else
    let* sent :=
      tabsSendMessage (default 0 (currentTabId s)) PAUSE_RECORDING reply in
    match sent with
    | Resolved _ =>
        exec putState (setPaused true s) in
        exec broadcastStatusUpdate in
        ret (okWith (DataState (js "paused") None))
    | Rejected message =>
        ret (failed (js "Failed to pause recording: " ++ message))
    end.

Definition handleResumeRecording (reply : Outcome unit) : M MessageResponse :=
  let* s := getState in
  if negb (isRecording s) then
    ret (failed (js "No active recording to resume"))
  else if negb (isPaused s) then ret (failed (js "Recording is not paused"))
  else if negb (truthyNumber (currentTabId s)) then
    ret (failed (js "No active tab for recording"))
  else
    let* sent :=
      tabsSendMessage (default 0 (currentTabId s)) RESUME_RECORDING reply in
    match sent with
    | Resolved _ =>
        exec putState (setPaused false s) in
        exec broadcastStatusUpdate in
        ret (okWith (DataState (js "recording") None))
    | Rejected message =>
        ret (failed (js "Failed to resume recording: " ++ message))
    end.

Definition handleGetStatus (s : BackgroundState) : MessageResponse :=
  (* Calculate total action count (accumulated + current page cache) *)
  let totalActions :=
    (length (accumulatedActions s) + length (actionCache s))%nat in
  let metadata :=
    if isRecording s then
      match testName s, startTime s with
      | Some (c :: name), Some start =>
          if start =? 0 then None
          else Some (mkMetadata (c :: name) start totalActions)
      | _, _ => None
      end
    else None in
  okWith (DataStatus (recordingState s) metadata).

(** The page's answer is passed on as it is. *)
Definition handleGetRecording (reply : Outcome MessageResponse)
    : M MessageResponse :=
  let* s := getState in
  if negb (isRecording s) then ret (failed (js "No active recording"))
  else if negb (truthyNumber (currentTabId s)) then
    ret (failed (js "No active tab for recording"))
  else
    let* response :=
      tabsSendMessage (default 0 (currentTabId s)) GET_RECORDING reply in
    match response with
    | Resolved answer => ret answer
    | Rejected message =>
        ret (failed (js "Failed to get recording: " ++ message))
    end.

(** [payload.action] is the action of a SYNC_ACTION message, if any. *)
Definition handleSyncAction (env : SyncEnv) (payloadAction : option Action)
    : M MessageResponse :=
  let* s := getState in
  match payloadAction with
  | Some received =>
      if negb (isRecording s) then ret ok
      else
        (* Increment global counter *)
        exec putState (setCounter (S (actionCounter s)) s) in
        let* s := getState in
        (* Renumber action with global counter *)
        let action := withId (formatActionId (actionCounter s)) received in
        (* Read current actions from storage *)
        let* result := sessionGet (syncSessionGet env) in
        match result with
        | Resolved stored =>
            (* Add new action with corrected ID *)
            let actions := default [] stored ++ [action] in
            (* Save back to storage *)
            let* saved := sessionSet (syncSessionSet env) actions in
            match saved with
            | Resolved _ => ret ok
            | Rejected message => ret (failed message)
            end
        | Rejected message => ret (failed message)
        end
  | None => ret ok
  end.

Definition handleSaveCurrentState (reply : Outcome (option PageSaveResponse))
    : M MessageResponse :=
  let* s := getState in
  if negb (isRecording s) then ret ok
  else if negb (truthyNumber (currentTabId s)) then ret ok
  else
    let* response :=
      tabsSendMessage (default 0 (currentTabId s)) SAVE_CURRENT_STATE
        reply in
    match response with
    | Resolved (Some (mkPageSave true (Some newActions))) =>
        exec (if (0 <? length newActions)%nat then
                putState
                  (setAccumulated (accumulatedActions s ++ newActions) s)
              else ret tt) in
        ret ok
    | _ => ret ok      (* Don't fail on this *)
    end.

(** [chrome.tabs.onRemoved] *)
Definition onRemoved (tabId : Z) : M unit :=
  let* s := getState in
  if bool_decide (currentTabId s = Some tabId) && isRecording s then
    exec resetState in
    broadcastStatusUpdate
  else ret tt.

(** [chrome.tabs.onUpdated] *)
Definition onUpdated (env : NavEnv) (tabId : Z) (changeInfo : TabChangeInfo)
    : M unit :=
  let* s := getState in
  if bool_decide (currentTabId s = Some tabId) && isRecording s
     && bool_decide (status changeInfo = Some (js "loading"))
     && truthyo (url changeInfo)
  then
    (* Read fresh actions directly from storage *)
    let* stored := sessionGet (navSessionGet env) in
    let currentPageActions :=
      match stored with
      | Resolved (Some actions) => actions
      | _ => []
      end in
    (* Merge current page actions into accumulated *)
    exec (if (0 <? length currentPageActions)%nat then
            putState
              (setAccumulated
                 (mergeNewActions (accumulatedActions s) currentPageActions)
                 s)
          else ret tt) in
    (* Clear cache and storage after merging *)
    let* s := getState in
    exec putState (setActionCache [] s) in
    exec sessionRemove (navSessionRemove env) in
    ret tt
  else ret tt.

(** One firing of the polling timer installed by [startActionPolling]. *)
Definition pollTick (settles : Outcome unit) : M unit :=
  let* s := getState in
  if negb (isRecording s) || negb (truthyNumber (currentTabId s)) then ret tt
  else
    let* stored := sessionGet settles in
    match stored with
    | Resolved (Some actions) => putState (setActionCache actions s)
    | _ => ret tt
    end.

(** Everything that can happen to the coordinator. *)
Inductive Event :=
| MsgStartRecording (env : StartEnv) (name : jsstring)
| MsgStopRecording (env : StopEnv)
| MsgPauseRecording (reply : Outcome unit)
| MsgResumeRecording (reply : Outcome unit)
| MsgGetStatus
| MsgGetRecording (reply : Outcome MessageResponse)
| MsgSaveCurrentState (reply : Outcome (option PageSaveResponse))
| MsgSyncAction (env : SyncEnv) (payloadAction : option Action)
| TabRemoved (tabId : Z)
| TabUpdated (env : NavEnv) (tabId : Z) (changeInfo : TabChangeInfo)
| PollTick (settles : Outcome unit).

(** The answer (if the event is a message) and the world afterwards, for
    an event that is handled before the next arrives. *)
Definition handle (e : Event) : M (option MessageResponse) :=
  match e with
  | MsgStartRecording env name =>
      let* r := handleStartRecording env name in ret (Some r)
  | MsgStopRecording env => let* r := handleStopRecording env in ret (Some r)
  | MsgPauseRecording reply =>
      let* r := handlePauseRecording reply in ret (Some r)
  | MsgResumeRecording reply =>
      let* r := handleResumeRecording reply in ret (Some r)
  | MsgGetStatus => let* s := getState in ret (Some (handleGetStatus s))
  | MsgGetRecording reply =>
      let* r := handleGetRecording reply in ret (Some r)
  | MsgSaveCurrentState reply =>
      let* r := handleSaveCurrentState reply in ret (Some r)
  | MsgSyncAction env payloadAction =>
      let* r := handleSyncAction env payloadAction in ret (Some r)
  | TabRemoved tabId => exec onRemoved tabId in ret None
  | TabUpdated env tabId changeInfo =>
      exec onUpdated env tabId changeInfo in ret None
  | PollTick settles => exec pollTick settles in ret None
  end.

Definition step (w : World) (e : Event) : World := snd (handle e w).

(** The worlds that a sequence of events leads to from the freshly loaded
    service worker when each event is handled before the next arrives. *)
Definition runEvents (events : list Event) (w : World) : World :=
  foldl step w events.

Definition reachable (w : World) : Prop :=
  exists events, w = runEvents events initialWorld.

End WithExternals.
End Background.

(* ===================================================================== *)
(** ** The background script, handler by handler between the awaits *)
(* ===================================================================== *)

Module Interleaving.
Import JS Types Background.

(** An [async] handler runs until its next [await] and goes on, from the
    world as it then is, when the awaited promise has settled; in between,
    other handlers run. A platform call takes effect when it is made (the
    calls of one script reach the browser in the order they are made), and
    how it settles is given with the event, as for the handlers of
    [Background]. *)
#[warnings="-register-all"] Inductive Task (A : Type) :=
| Finished (result : A)
| Awaiting (resume : World -> Task A * World).
Arguments Finished {A} result.
Arguments Awaiting {A} resume.

Definition done {A : Type} (result : A) : M (Task A) := ret (Finished result).
Definition await {A : Type} (rest : M (Task A)) : M (Task A) :=
  ret (Awaiting rest).

(** A task resumed at once each time it awaits, until it has finished. *)
Fixpoint complete {A : Type} (t : Task A) (w : World) : A * World :=
  match t with
  | Finished result => (result, w)
  | Awaiting resume => let '(t1, w1) := resume w in complete t1 w1
  end.

(** A property of the world that a task keeps each time it goes on. *)
Inductive keeps (P : World -> Prop) {A : Type} : Task A -> Prop :=
| keeps_finished (result : A) : keeps P (Finished result)
| keeps_awaiting (resume : World -> Task A * World) :
    (forall w : World, P w -> P (snd (resume w))) ->
    (forall w : World, P w -> keeps P (fst (resume w))) ->
    keeps P (Awaiting resume).

(** A property of the result of a task, whatever the world is each time
    the task goes on. *)
Inductive always {A : Type} (Q : A -> Prop) : Task A -> Prop :=
| always_finished (result : A) : Q result -> always Q (Finished result)
| always_awaiting (resume : World -> Task A * World) :
    (forall w : World, always Q (fst (resume w))) ->
    always Q (Awaiting resume).

(** [const recordingIds = result.recording_ids || []] in the callback of
    [chrome.storage.local.get] of [saveRecording]. *)
Definition readRecordingIds : M (list jsstring) :=
  fun w => (Storage.recording_ids (local w), w).

(** The [chrome.storage.local.set] of [saveRecording], with the id list
    that its [get] has read. *)
Definition writeRecording (recordingIds : list jsstring)
    (recording : Recording) : M unit :=
  fun w =>
    (tt,
     mkWorld (state w) (session w)
       (Storage.mkLocal
          (if bool_decide (r_id recording ∈ recordingIds) then recordingIds
           else recordingIds ++ [r_id recording])
          (<[r_id recording := recording]>
             (Storage.recordings (local w))))
       (trace w)).

Section WithExternals.
Context {ext : Externals}.

Definition handleStartRecording (env : StartEnv) (name : jsstring)
    : M (Task MessageResponse) :=
  let* s := getState in
  if isRecording s then
    done (failed (js "Recording is already in progress"))
  else
    (* Get current tab *)
    exec call TabsQuery in
    await
      match queriedTabs env with
      | [] => done (failed (js "No active tab found"))
      | first :: _ =>
          match first with
          | Some tabId =>
              if tabId =? 0 then done (failed (js "Invalid tab ID"))
              else
                let startTime := startNow env in
                (* Update state *)
                let* s := getState in
                exec putState
                  (mkState true false (Some name) (Some tabId)
                     (Some startTime) None (accumulatedActions s)
                     (actionCache s) (pollingInterval s) (actionCounter s)) in
                (* Send message to content script to start recording *)
                let* sent :=
                  tabsSendMessage tabId (START_RECORDING name)
                    (startReply env) in
                await
                  match sent with
                  | Resolved _ =>
                      (* Start polling for actions *)
                      exec startActionPolling in
                      (* Broadcast status update to popup *)
                      exec broadcastStatusUpdate in
                      done (okWith (DataState (js "recording") (Some name)))
                  | Rejected message =>
                      (* Reset state on error *)
                      exec resetState in
                      done (failed (js "Failed to start recording: "
                                      ++ message))
                  end
          | None => done (failed (js "Invalid tab ID"))
          end
      end.

(** [await saveRecording(recording)] and what follows it on both ways of
    finishing a stop. [saveRecording] reads the id list, and writes the
    recording and the list in the callback of the read; a rejection is
    logged only. *)
Definition finishStop (env : StopEnv) (recording : Recording)
    : M (Task MessageResponse) :=
  exec call (SaveRecording recording) in
  let* recordingIds := readRecordingIds in
  await
    (exec match stopSave env with
          | Resolved _ => writeRecording recordingIds recording
          | Rejected _ => ret tt
          end in
     await
       ((* Reset state *)
        exec resetState in
        exec broadcastStatusUpdate in
        done (okWith (DataRecording recording)))).

(** Building the recording from the coordinator's own state. The name and
    the start time are tested before [chrome.tabs.get] is awaited and read
    again after it; a name that is [null] by then is written as the empty
    name, and [new Date(null)] is the instant 0. *)
Definition stopFromBackgroundState (env : StopEnv) (tabId : Z)
    (currentPageActions : list Action) : M (Task MessageResponse) :=
  let* s := getState in
  if negb (truthyo (testName s)) || negb (truthyNumber (startTime s)) then
    (* throw new Error('Missing recording metadata') *)
    exec resetState in
    done (failed (js "Failed to stop recording: "
                    ++ js "Missing recording metadata"))
  else
    (* Get current tab URL *)
    exec call (TabsGet tabId) in
    await
      (let currentUrl :=
         match stopTabUrl env with
         | Resolved url => url
         | Rejected _ => js "unknown"
         end in
       let* s := getState in
       let recording :=
         mkRecording
           (js "rec_" ++ String_ (stopNowId env))
           (js "1.0.0")
           (default [] (testName s))
           currentUrl
           (toISOString (default 0 (startTime s)))
           (toISOString (stopNowEnd env))
           (Some (mkViewport (DNum 1920) (DNum 1080)))
           (js "Mozilla/5.0 (Windows NT 10.0; Win64; x64) AppleWebKit/537.36")
           (* Sort by timestamp *)
           (Some (sortByTimestamp
                    (accumulatedActions s ++ currentPageActions))) in
       finishStop env recording).

Definition handleStopRecording (env : StopEnv)
    : M (Task MessageResponse) :=
  let* s := getState in
  if negb (isRecording s) then done (failed (js "No active recording"))
  else
    match currentTabId s with
    | Some tabId =>
        if tabId =? 0 then
          exec resetState in
          done (failed (js "No active tab for recording"))
        else
          (* Stop polling *)
          exec stopActionPolling in
          (* Get final actions from storage (has correct renumbered IDs) *)
          let* stored := sessionGet (stopSessionGet env) in
          await
            (let currentPageActions :=
               match stored with
               | Resolved (Some actions) => actions
               | _ => []
               end in
             (* Try to get recording metadata from content script *)
             let* response :=
               tabsSendMessage tabId STOP_RECORDING (stopReply env) in
             await
               match response with
               | Resolved (Some (mkPageStop true (Some page))) =>
                   (* Use the recording if we got one with valid data *)
                   if truthy (r_id page) && truthy (r_testName page)
                      && truthy (r_startTime page) then
                     let* s := getState in
                     let actions :=
                       (* Merge accumulated actions from previous pages *)
                       if (0 <? length (accumulatedActions s))%nat then
                         (* Re-sort by timestamp *)
                         sortByTimestamp
                           (accumulatedActions s ++ currentPageActions)
                       else
                         (* Use actions from storage *)
                         currentPageActions in
                     finishStop env
                       (mkRecording (r_id page) (r_version page)
                          (r_testName page) (r_url page) (r_startTime page)
                          (r_endTime page) (r_viewport page)
                          (r_userAgent page) (Some actions))
                   else stopFromBackgroundState env tabId currentPageActions
               | _ =>
                   (* Content script couldn't provide recording *)
                   stopFromBackgroundState env tabId currentPageActions
               end)
    | None =>
        exec resetState in
        done (failed (js "No active tab for recording"))
    end.

Definition handlePauseRecording (reply : Outcome unit)
    : M (Task MessageResponse) :=
  let* s := getState in
  if negb (isRecording s) then
    done (failed (js "No active recording to pause"))
  else if isPaused s then done (failed (js "Recording is already paused"))
  else if negb (truthyNumber (currentTabId s)) then
    done (failed (js "No active tab for recording"))
  else
    let* sent :=
      tabsSendMessage (default 0 (currentTabId s)) PAUSE_RECORDING reply in
    await
      match sent with
      | Resolved _ =>
          let* s := getState in
          exec putState (setPaused true s) in
          exec broadcastStatusUpdate in
          done (okWith (DataState (js "paused") None))
      | Rejected message =>
          done (failed (js "Failed to pause recording: " ++ message))
      end.

Definition handleResumeRecording (reply : Outcome unit)
    : M (Task MessageResponse) :=
  let* s := getState in
  if negb (isRecording s) then
    done (failed (js "No active recording to resume"))
  else if negb (isPaused s) then done (failed (js "Recording is not paused"))
  else if negb (truthyNumber (currentTabId s)) then
    done (failed (js "No active tab for recording"))
  else
    let* sent :=
      tabsSendMessage (default 0 (currentTabId s)) RESUME_RECORDING reply in
    await
      match sent with
      | Resolved _ =>
          let* s := getState in
          exec putState (setPaused false s) in
          exec broadcastStatusUpdate in
          done (okWith (DataState (js "recording") None))
      | Rejected message =>
          done (failed (js "Failed to resume recording: " ++ message))
      end.

(** The page's answer is passed on as it is. *)
Definition handleGetRecording (reply : Outcome MessageResponse)
    : M (Task MessageResponse) :=
  let* s := getState in
  if negb (isRecording s) then done (failed (js "No active recording"))
  else if negb (truthyNumber (currentTabId s)) then
    done (failed (js "No active tab for recording"))
  else
    let* response :=
      tabsSendMessage (default 0 (currentTabId s)) GET_RECORDING reply in
    await
      match response with
      | Resolved answer => done answer
      | Rejected message =>
          done (failed (js "Failed to get recording: " ++ message))
      end.

Definition handleSyncAction (env : SyncEnv) (payloadAction : option Action)
    : M (Task MessageResponse) :=
  let* s := getState in
  match payloadAction with
  | Some received =>
      if negb (isRecording s) then done ok
      else
        (* Increment global counter *)
        exec putState (setCounter (S (actionCounter s)) s) in
        let* s := getState in
        (* Renumber action with global counter *)
        let action := withId (formatActionId (actionCounter s)) received in
        (* Read current actions from storage *)
        let* result := sessionGet (syncSessionGet env) in
        await
          match result with
          | Resolved stored =>
              (* Add new action with corrected ID *)
              let actions := default [] stored ++ [action] in
              (* Save back to storage *)
              let* saved := sessionSet (syncSessionSet env) actions in
              await
                match saved with
                | Resolved _ => done ok
                | Rejected message => done (failed message)
                end
          | Rejected message => done (failed message)
          end
  | None => done ok
  end.

Definition handleSaveCurrentState
    (reply : Outcome (option PageSaveResponse)) : M (Task MessageResponse) :=
  let* s := getState in
  if negb (isRecording s) then done ok
  else if negb (truthyNumber (currentTabId s)) then done ok
  else
    let* response :=
      tabsSendMessage (default 0 (currentTabId s)) SAVE_CURRENT_STATE
        reply in
    await
      match response with
      | Resolved (Some (mkPageSave true (Some newActions))) =>
          let* s := getState in
          exec (if (0 <? length newActions)%nat then
                  putState
                    (setAccumulated (accumulatedActions s ++ newActions) s)
                else ret tt) in
          done ok
      | _ => done ok      (* Don't fail on this *)
      end.

(** [chrome.tabs.onUpdated] *)
Definition onUpdated (env : NavEnv) (tabId : Z) (changeInfo : TabChangeInfo)
    : M (Task unit) :=
  let* s := getState in
  if bool_decide (currentTabId s = Some tabId) && isRecording s
     && bool_decide (status changeInfo = Some (js "loading"))
     && truthyo (url changeInfo)
  then
    (* Read fresh actions directly from storage *)
    let* stored := sessionGet (navSessionGet env) in
    await
      (let currentPageActions :=
         match stored with
         | Resolved (Some actions) => actions
         | _ => []
         end in
       (* Merge current page actions into accumulated *)
       let* s := getState in
       exec (if (0 <? length currentPageActions)%nat then
               putState
                 (setAccumulated
                    (mergeNewActions (accumulatedActions s)
                       currentPageActions)
                    s)
             else ret tt) in
       (* Clear cache and storage after merging *)
       let* s := getState in
       exec putState (setActionCache [] s) in
       exec sessionRemove (navSessionRemove env) in
       await (done tt))
  else done tt.

(** One firing of the polling timer installed by [startActionPolling]. *)
Definition pollTick (settles : Outcome unit) : M (Task unit) :=
  let* s := getState in
  if negb (isRecording s) || negb (truthyNumber (currentTabId s))
  then done tt
  else
    let* stored := sessionGet settles in
    await
      match stored with
      | Resolved (Some actions) =>
          let* s := getState in
          exec putState (setActionCache actions s) in
          done tt
      | _ => done tt
      end.

(** What an event starts: the handler of a message, whose result is sent
    as the response, or a listener. *)
Inductive Running :=
| Answering (t : Task MessageResponse)
| Listening (t : Task unit).

Definition handle (e : Event) (w : World) : Running * World :=
  match e with
  | MsgStartRecording env name =>
      let '(t, w1) := handleStartRecording env name w in (Answering t, w1)
  | MsgStopRecording env =>
      let '(t, w1) := handleStopRecording env w in (Answering t, w1)
  | MsgPauseRecording reply =>
      let '(t, w1) := handlePauseRecording reply w in (Answering t, w1)
  | MsgResumeRecording reply =>
      let '(t, w1) := handleResumeRecording reply w in (Answering t, w1)
  | MsgGetStatus => (Answering (Finished (handleGetStatus (state w))), w)
  | MsgGetRecording reply =>
      let '(t, w1) := handleGetRecording reply w in (Answering t, w1)
  | MsgSaveCurrentState reply =>
      let '(t, w1) := handleSaveCurrentState reply w in (Answering t, w1)
  | MsgSyncAction env payloadAction =>
      let '(t, w1) := handleSyncAction env payloadAction w in
      (Answering t, w1)
  | TabRemoved tabId =>
      (Listening (Finished tt), snd (Background.onRemoved tabId w))
  | TabUpdated env tabId changeInfo =>
      let '(t, w1) := onUpdated env tabId changeInfo w in (Listening t, w1)
  | PollTick settles =>
      let '(t, w1) := pollTick settles w in (Listening t, w1)
  end.

(** The script at some instant: its world, the handlers and listeners
    that are awaiting, oldest first, and the responses sent so far. *)
Record Machine := mkMachine {
  world : World;
  suspended : list (World -> Running * World);
  answers : list MessageResponse
}.

Definition initialMachine : Machine := mkMachine initialWorld [] [].

Definition settle (m : Machine) (r : Running * World) : Machine :=
  match fst r with
  | Answering (Finished answer) =>
      mkMachine (snd r) (suspended m) (answers m ++ [answer])
  | Answering (Awaiting resume) =>
      mkMachine (snd r)
        (suspended m
           ++ [fun w => let '(t, w1) := resume w in (Answering t, w1)])
        (answers m)
  | Listening (Finished _) => mkMachine (snd r) (suspended m) (answers m)
  | Listening (Awaiting resume) =>
      mkMachine (snd r)
        (suspended m
           ++ [fun w => let '(t, w1) := resume w in (Listening t, w1)])
        (answers m)
  end.

(** An event arrives and its handler runs up to its first await, or the
    i-th of the awaiting ones goes on up to its next await. *)
Inductive Move :=
| Deliver (e : Event)
| Resume (i : nat).

Definition move (m : Machine) (mv : Move) : Machine :=
  match mv with
  | Deliver e => settle m (handle e (world m))
  | Resume i =>
      match suspended m !! i with
      | Some resume =>
          settle (mkMachine (world m) (delete i (suspended m)) (answers m))
                 (resume (world m))
      | None => m
      end
  end.

Definition play (moves : list Move) (m : Machine) : Machine :=
  foldl move m moves.

(** An event handled with nothing in between: delivered, and resumed at
    once each time it awaits. *)
Definition handleUninterrupted (e : Event) (w : World)
    : option MessageResponse * World :=
  let '(r, w1) := handle e w in
  match r with
  | Answering t => let '(answer, w2) := complete t w1 in (Some answer, w2)
  | Listening t => let '(_, w2) := complete t w1 in (None, w2)
  end.

End WithExternals.
End Interleaving.

(* ===================================================================== *)
(** ** src/popup/popup.ts and src/content/recording-indicator.ts: the clock *)
(* ===================================================================== *)

Module Popup.
Import JS.

(** The text that [updateDuration] of the popup and [updateTimer] of the
    overlay write, with [now] the reading of [Date.now()]; [None] when the
    start time is not set and nothing is written. *)
Definition updateDuration (startTime : option Z) (now : Z)
    : option jsstring :=
  match startTime with
  | Some start =>
      if start =? 0 then None
      else
        let elapsed := (now - start) / 1000 in
        let minutes := elapsed / 60 in
        let seconds := Z.rem elapsed 60 in
        Some (padStart 2 48%N (StringZ minutes) ++ js ":"
                ++ padStart 2 48%N (StringZ seconds))
  | None => None
  end.

End Popup.

(* ===================================================================== *)
(** ** A host for running the model on examples *)
(* ===================================================================== *)

Module Host.
Import JS.

(** [toLowerCase] on Basic Latin; the example strings stay in that range. *)
Definition lowerAscii (s : jsstring) : jsstring :=
  List.map (fun c => if ((65 <=? c) && (c <=? 90))%N then (c + 32)%N else c) s.

(** [toISOString] for instants within the first second of the epoch. *)
Definition isoFirstSecond (ms : Z) : jsstring :=
  js "1970-01-01T00:00:00." ++ padStart 3 48%N (String_ (Z.to_nat ms))
    ++ js "Z".

(** The built-ins on the values the examples use: identifiers made of
    letters, digits and hyphens are their own [CSS.escape]; absolute http(s)
    URLs parse; the timestamps are those printed by [isoFirstSecond]. *)
Definition example : Externals := {|
  toLowerCase := lowerAscii;
  cssEscape := fun s => s;
  urlParses := fun s => startsWith (js "https://") s
                        || startsWith (js "http://") s;
  dateParses := fun s => startsWith (js "1970-01-01T00:00:00.") s;
  toISOString := isoFirstSecond;
  generateActionId := fun n => js "act_" ++ padStart 3 48%N (String_ n)
|}.

End Host.

(* ===================================================================== *)
(** ** Vocabulary of the statements and the example data *)
(* ===================================================================== *)

Module Examples.
Import JS Types.

(** A partially masked address: two units of the local part, one bullet for
    each further unit of the local part, then the at sign and what follows
    it. *)
Definition partiallyMasked (localPart domain : jsstring) : jsstring :=
  take 2 localPart ++ replicate (length localPart - 2) bullet
    ++ 64%N :: domain.

Definition contactSelector : SelectorStrategy :=
  mkSelectorStrategy None None None (Some (js "contact"))
    (Some (js "input[type=" ++ [34%N] ++ js "email" ++ [34%N] ++ js "]"))
    None None None None None [TName; TCss].

(** The input action of an [<input type="email" name="contact">] holding
    jane.doe@example.com, with the capture engine's sensitivity flag. *)
Definition emailInput (isSensitive : bool) : Action :=
  mkAction (js "act_001") (js "input") 1700000000000
    (js "https://example.com/") (Some contactSelector) (Some (js "input"))
    None None None None [] (Some (js "jane.doe@example.com"))
    (Some (js "email")) isSensitive None None.

(** The error of the viewport check. *)
Definition viewportError : Validator.ValidationError :=
  Validator.mkError (js "recording.viewport")
    (js "Viewport width and height must be positive numbers").

(** A dimension that is a number and is zero or negative. *)
Definition notPositive (d : Dimension) : Prop :=
  exists px : Z, d = DNum px /\ px <= 0.

(** A recording that fails three checks at once: no test name, a viewport
    of width 0, and an action without an id. *)
Definition brokenRecording : Recording :=
  mkRecording (js "rec_1") (js "1.0.0") [] (js "https://example.com/")
    (js "1970-01-01T00:00:00.001Z") []
    (Some (mkViewport (DNum 0) (DNum 1080))) (js "Mozilla/5.0")
    (Some [mkAction [] (js "scroll") 5 (js "https://example.com/") None
             None None None None None [] None None false None None]).

(** The precedence of the candidates, most reliable first. *)
Definition precedence : list SelectorType :=
  [TId; TDataTestId; TAriaLabel; TName; TCss; TText; TTextContains; TXpath;
   TXpathAbsolute; TPosition].

(** The strategy holds a non-empty value under the key. *)
Definition populated (s : SelectorStrategy) (key : SelectorType) : bool :=
  Validator.truthyValue (Validator.selectorValue s key).

(** The configuration with every optional candidate switched on. *)
Definition fullConfig : SelectorGenerator.SelectorConfig :=
  SelectorGenerator.mkConfig true true 5.

Definition htmlNode : Dom.Node :=
  Dom.mkNode 0 (js "HTML") [] [] [] Dom.HTMLOtherElement [] [] [] (Some [])
    (js "auto") false true 0 0.
Definition bodyNode : Dom.Node :=
  Dom.mkNode 1 (js "BODY") [] [] [] Dom.HTMLOtherElement [] [] [] (Some [])
    (js "auto") true false 0 0.
Definition formNode : Dom.Node :=
  Dom.mkNode 2 (js "FORM") [] [js "login"] [] Dom.HTMLOtherElement [] [] []
    (Some (js "Log in")) (js "auto") false false 10 10.
Definition bodyElement : Dom.Element :=
  Dom.Child bodyNode (Dom.Detached htmlNode) [bodyNode].
Definition formElement : Dom.Element :=
  Dom.Child formNode bodyElement [formNode].

(** [<button id=... class="btn primary" type="submit">Log in</button>]
    inside the form. *)
Definition buttonNode (id : jsstring) : Dom.Node :=
  Dom.mkNode 3 (js "BUTTON") id [js "btn"; js "primary"] []
    Dom.HTMLOtherElement (js "submit") [] [] (Some (js "Log in"))
    (js "pointer") false false 20 30.
Definition buttonElement (id : jsstring) : Dom.Element :=
  Dom.Child (buttonNode id) formElement [buttonNode id].

(** A listener that has just been started. *)
Definition freshListener : EventListener.Listener :=
  EventListener.mkListener true 0 None 0.

(** A primary-button pointer event on the login button. *)
Definition pressLogin : EventListener.MouseEvent :=
  EventListener.mkMouseEvent (buttonElement (js "login-btn")) 25 35 0
    false false false false.

(** [<div role="button">Like</div>] in the body: interactive, but a click on
    it does not navigate. *)
Definition likeNode : Dom.Node :=
  Dom.mkNode 4 (js "DIV") [] [] [(js "role", js "button")]
    Dom.HTMLOtherElement [] [] [] (Some (js "Like")) (js "auto") false false
    40 50.
Definition pressLike : EventListener.MouseEvent :=
  EventListener.mkMouseEvent (Dom.Child likeNode bodyElement [likeNode])
    45 55 0 false false false false.

(** [a] is not later than [b]. *)
Definition notLater (a b : Action) : Prop := a_timestamp a <= a_timestamp b.

(** A click at instant [t], numbered [id] by whoever reports it. *)
Definition clickAt (id : jsstring) (t : Z) : Action :=
  mkAction id (js "click") t (js "https://example.com/") None
    (Some (js "button")) None (Some (1, 1)) (Some (js "left")) (Some 1) []
    None None false None None.

(** How often a timestamp occurs in a list of actions. *)
Definition occurrences (t : Z) (actions : list Action) : nat :=
  length (List.filter (fun a => a_timestamp a =? t) actions).

(** The types of action of the capture. *)
Definition actionTypes : list jsstring :=
  [js "click"; js "input"; js "select"; js "submit"; js "keypress";
   js "scroll"; js "navigation"].

(** The number of actions of a given type. *)
Definition countType (type : jsstring) (actions : list Action) : nat :=
  length (List.filter (fun a => jsstring_eqb (a_type a) type) actions).

(** The ancestors of an element from its parent upwards, up to the body
    (which is left out, with everything above it). *)
Fixpoint ancestorsBelowBody (e : Dom.Element) : list Dom.Element :=
  match e with
  | Dom.Detached _ => []
  | Dom.Child _ parent _ =>
      if Dom.isBody (Dom.node parent) then []
      else parent :: ancestorsBelowBody parent
  end.

(** A unit that may stand in a CSS identifier as it is. *)
Definition identifierUnit (c : N) : bool :=
  SelectorGenerator.isWordChar c || (c =? 45)%N || (128 <=? c)%N.

(** A value that [cssEscape] has nothing to do on: units that may stand in
    an identifier, no digit in front, no hyphen and digit in front, and not
    the hyphen alone. *)
Definition plainIdentifier (value : jsstring) : bool :=
  forallb identifierUnit value
  && match value with
     | [] => true
     | [c] => negb (isDigit c) && negb (c =? 45)%N
     | c :: d :: _ => negb (isDigit c) && negb ((c =? 45)%N && isDigit d)
     end.

(** A viewport dimension that the validator lets pass: a positive number,
    or NaN. *)
Definition passes (d : Dimension) : Prop :=
  d = DNaN \/ exists px : Z, d = DNum px /\ 0 < px.

(** The candidate under the key is a non-empty string. *)
Definition namesString (s : SelectorStrategy) (key : SelectorType) : Prop :=
  exists v : jsstring,
    v <> [] /\ Validator.selectorValue s key = Validator.VString v.

(** [<input id="user-pwd" type="text">] in the login form: a text field
    that the capture takes for a sensitive one by its id. *)
Definition pwdNode : Dom.Node :=
  Dom.mkNode 5 (js "INPUT") (js "user-pwd") [] [] Dom.HTMLInputElement
    (js "text") [] [] (Some []) (js "auto") false false 20 60.
Definition pwdElement : Dom.Element :=
  Dom.Child pwdNode formElement [buttonNode (js "login-btn"); pwdNode].

(** What a timer callback reads in the scenarios. *)
Definition readings : EventListener.Readings :=
  EventListener.mkReadings (js "hunter2") 2000 2001
    (js "https://example.com/") 0 120.

(** An event that the input handler takes up: on an input or a text area,
    at an instant other than 0. *)
Definition typedInto (i : Dom.Element * Z) : Prop :=
  (Dom.tagName (Dom.node i.1) = js "INPUT"
   \/ Dom.tagName (Dom.node i.1) = js "TEXTAREA")
  /\ i.2 <> 0.

Definition inputEvents (inputs : list (Dom.Element * Z))
    : list EventListener.DomEvent :=
  List.map (fun i => EventListener.InputEvent (Some i.1) i.2) inputs.

(** A burst of input events is under way: it began at [start], [count]
    events have come, the last of them on [target], and the timer of the
    last one is pending. *)
Definition typing (p : EventListener.Page) (start count : Z)
    (target : Dom.Element) : Prop :=
  EventListener.isListening (EventListener.pointer (EventListener.fields p))
  = true
  /\ EventListener.typingStartTime (EventListener.fields p) = start
  /\ EventListener.keyCount (EventListener.fields p) = count
  /\ EventListener.pendingInputElement (EventListener.fields p)
     = Some target
  /\ exists handle : positive,
       EventListener.inputDebounceTimer (EventListener.fields p)
       = Some handle
       /\ EventListener.pending (EventListener.timers p) !! handle
          = Some (EventListener.InputCallback, 500).

(** The pending timers are the ones the object holds: an input timer is
    the one of [inputDebounceTimer] and has an element to capture, a scroll
    timer is the one of [scrollDebounceTimer]; and the handles in use lie
    below the next one. *)
Definition tidy (p : EventListener.Page) : Prop :=
  (forall (handle : positive) (callback : EventListener.TimerCallback)
          (delay : Z),
      EventListener.pending (EventListener.timers p) !! handle
      = Some (callback, delay) ->
      (handle < EventListener.nextHandle (EventListener.timers p))%positive
      /\ match callback with
         | EventListener.InputCallback =>
             delay = 500
             /\ EventListener.inputDebounceTimer (EventListener.fields p)
                = Some handle
             /\ is_Some (EventListener.pendingInputElement
                           (EventListener.fields p))
         | EventListener.ScrollCallback =>
             delay = 200
             /\ EventListener.scrollDebounceTimer (EventListener.fields p)
                = Some handle
         end).

(** Stopped, and no timer pending. *)
Definition quiet (p : EventListener.Page) : Prop :=
  EventListener.isListening (EventListener.pointer (EventListener.fields p))
  = false
  /\ EventListener.pending (EventListener.timers p) = ∅.

(** The type of the action that a timer callback captures. *)
Definition capturedType (callback : EventListener.TimerCallback)
    : jsstring :=
  match callback with
  | EventListener.InputCallback => js "input"
  | EventListener.ScrollCallback => js "scroll"
  end.

End Examples.

Module Scenarios.
Import JS Types Background Examples.

(** The platform calls of the scenarios: the active tab is tab 7, the
    storage calls resolve. *)
Definition startEnv : StartEnv :=
  mkStartEnv [Some 7] 1 (Resolved tt).
Definition syncEnv : SyncEnv :=
  mkSyncEnv (Resolved tt) (Resolved tt).
Definition navEnv : NavEnv :=
  mkNavEnv (Resolved tt) (Resolved tt).
Definition loading : TabChangeInfo :=
  mkChange (Some (js "loading"))
    (Some (js "https://example.com/next")).

(** The page answers STOP_RECORDING with its own recording. *)
Definition pageRecording : Recording :=
  mkRecording (js "rec_page") (js "1.0.0") (js "checkout")
    (js "https://example.com/") (js "1970-01-01T00:00:00.001Z")
    (js "1970-01-01T00:00:00.900Z")
    (Some (mkViewport (DNum 1280) (DNum 720))) (js "Mozilla/5.0") (Some []).
Definition stopEnvLive : StopEnv :=
  mkStopEnv (Resolved tt)
    (Resolved
       (Some (mkPageStop true (Some pageRecording))))
    (Resolved (js "https://example.com/")) 900 900
    (Resolved tt).

(** The page is gone, and the tab reports no URL. *)
Definition stopEnvUnreachable : StopEnv :=
  mkStopEnv (Resolved tt)
    (Rejected (js "Could not establish connection"))
    (Resolved []) 900 900 (Resolved tt).

(** The recording of the page's answer that the stop handler accepts. *)
Definition usablePageRecording (env : StopEnv)
    : option Recording :=
  match stopReply env with
  | Resolved (Some (mkPageStop true (Some page))) =>
      if truthy (r_id page) && truthy (r_testName page)
         && truthy (r_startTime page)
      then Some page else None
  | _ => None
  end.

(** The session right after [start("checkout")] on a fresh service
    worker, and after the page has then synced the given actions. *)
Definition recordingWorld : World :=
  snd (handleStartRecording startEnv (js "checkout")
         initialWorld).
Definition afterSyncs (actions : list Action) : World :=
  runEvents (ext := Host.example)
    (List.map (fun a => MsgSyncAction syncEnv (Some a)) actions)
    recordingWorld.

(** The world in which the stop handler finishes: polling stopped, the
    cache read, the page asked. *)
Definition stopMidWorld (w : World) (tabId : Z) : World :=
  mkWorld
    (if pollingInterval (state w)
     then mkState (isRecording (state w)) (isPaused (state w))
            (testName (state w)) (currentTabId (state w))
            (startTime (state w)) (metadata (state w))
            (accumulatedActions (state w)) (actionCache (state w)) false
            (actionCounter (state w))
     else state w)
    (session w) (local w)
    (trace w
       ++ (if pollingInterval (state w) then [ClearInterval] else [])
       ++ [SessionGet; TabsSendMessage tabId STOP_RECORDING]).

(** The cache as the stop handler reads it. *)
Definition cacheRead (env : StopEnv) (w : World) : list Action :=
  match stopSessionGet env with
  | Resolved _ => default [] (session w)
  | Rejected _ => []
  end.

(** The recordings on which the validator was called. *)
Definition validatorCalls (calls : list Call) : list Recording :=
  omap (fun c => match c with
                 | ValidateRecording recording => Some recording
                 | _ => None
                 end) calls.

(** The calls made between two worlds of one run. *)
Definition tracedSince (w w1 : World) : list Call :=
  drop (length (trace w)) (trace w1).

(** The integer behind an id of the form act_NNN. *)
Definition idNumber (id : jsstring) : option nat :=
  if startsWith (js "act_") id then parseDigits (drop 4 id) else None.

(** A second session right after a first one: start, one synced action,
    stop with the page gone, start again. *)
Definition secondSession : World :=
  runEvents (ext := Host.example)
    [MsgStartRecording startEnv (js "first");
     MsgSyncAction syncEnv (Some (clickAt (js "act_001") 5));
     MsgStopRecording stopEnvUnreachable;
     MsgStartRecording startEnv (js "second")]
    initialWorld.

(** While no recording is active the coordinator's variables are those of
    a freshly loaded service worker. *)
Definition idleIsInitial (w : World) : Prop :=
  isRecording (state w) = false -> state w = initialState.

(** The actions of the recording that a response carries. *)
Definition recordedActions (response : MessageResponse)
    : option (list Action) :=
  match data response with
  | Some (DataRecording recording) => r_actions recording
  | _ => None
  end.

(** Two pages: an action at instant 10 on the first page, a navigation, an
    action at instant 5 on the second. *)
Definition twoPages : World :=
  runEvents (ext := Host.example)
    [MsgSyncAction syncEnv (Some (clickAt (js "act_001") 10));
     TabUpdated navEnv 7 loading;
     MsgSyncAction syncEnv (Some (clickAt (js "act_001") 5))]
    recordingWorld.

(** One action at instant 5, synced and then also handed over by the page
    in its answer to SAVE_CURRENT_STATE. *)
Definition afterFlush : World :=
  runEvents (ext := Host.example)
    [MsgSyncAction syncEnv (Some (clickAt (js "act_001") 5));
     MsgSaveCurrentState
       (Resolved (Some (mkPageSave true (Some [clickAt (js "act_001") 5]))))]
    recordingWorld.

(** The interval timers set and cleared among the calls. *)
Definition intervalsSet (calls : list Call) : nat :=
  length (List.filter (fun c => match c with SetInterval => true | _ => false end)
            calls).
Definition intervalsCleared (calls : list Call) : nat :=
  length (List.filter
            (fun c => match c with ClearInterval => true | _ => false end)
            calls).

(** Every interval timer that was set has been cleared, but for the one
    the coordinator holds. *)
Definition timersBalanced (w : World) : Prop :=
  intervalsSet (trace w)
  = (intervalsCleared (trace w)
     + (if pollingInterval (state w) then 1 else 0))%nat.

(** The recordings handed to [saveRecording] among the calls. *)
Definition savedRecordings (calls : list Call) : list Recording :=
  omap (fun c => match c with
                 | SaveRecording recording => Some recording
                 | _ => None
                 end) calls.

(** A session started without a test name, with one action synced. *)
Definition unnamedSession : World :=
  runEvents (ext := Host.example)
    [MsgStartRecording startEnv [];
     MsgSyncAction syncEnv (Some (clickAt (js "act_001") 5))]
    initialWorld.

(** The page does not answer the request to start. *)
Definition startEnvUnreachable : StartEnv :=
  mkStartEnv [Some 7] 1 (Rejected (js "Could not establish connection")).

(** The variables that make a session are set together and reset together:
    while a recording is active the coordinator holds a tab id other than
    0, a test name and a start time, otherwise none of the three; metadata
    it never holds. *)
Definition anchored (w : World) : Prop :=
  metadata (state w) = None
  /\ if isRecording (state w) then
       exists (tabId : Z) (name : jsstring) (start : Z),
         tabId <> 0 /\ currentTabId (state w) = Some tabId
         /\ testName (state w) = Some name
         /\ startTime (state w) = Some start
     else currentTabId (state w) = None /\ testName (state w) = None
          /\ startTime (state w) = None.

(** What an event has started keeps a property of the world each time it
    goes on. *)
Definition runningKeeps (P : World -> Prop) (r : Interleaving.Running)
    : Prop :=
  match r with
  | Interleaving.Answering t => Interleaving.keeps P t
  | Interleaving.Listening t => Interleaving.keeps P t
  end.


(** The moves in which each event is handled before the next arrives: its
    handler is resumed as soon as it awaits (no handler awaits more than
    five times; resuming when nothing awaits does nothing). *)
Definition oneAtATime (events : list Event) : list Interleaving.Move :=
  flat_map (fun e => Interleaving.Deliver e
                       :: replicate 5 (Interleaving.Resume 0)) events.

(** A recording over three pages, each event handled before the next
    arrives. The first page records an action at instant 10 and the second
    one at instant 20; each page numbers its own actions from act_001,
    syncs them, and hands its own copies over when it unloads. Then the
    recording is stopped. *)
Definition threePages (env : StopEnv) : Interleaving.Machine :=
  Interleaving.play (ext := Host.example)
    (oneAtATime
       [MsgStartRecording startEnv (js "checkout");
        MsgSyncAction syncEnv (Some (clickAt (js "act_001") 10));
        MsgSaveCurrentState
          (Resolved
             (Some (mkPageSave true (Some [clickAt (js "act_001") 10]))));
        TabUpdated navEnv 7 loading;
        MsgSyncAction syncEnv (Some (clickAt (js "act_001") 20));
        MsgSaveCurrentState
          (Resolved
             (Some (mkPageSave true (Some [clickAt (js "act_001") 20]))));
        TabUpdated navEnv 7 loading;
        MsgStopRecording env])
    Interleaving.initialMachine.

(** The write of the cache fails for a first action and succeeds for a
    second. *)
Definition rejectedWrite : Interleaving.Machine :=
  Interleaving.play (ext := Host.example)
    (oneAtATime
       [MsgStartRecording startEnv (js "checkout");
        MsgSyncAction (mkSyncEnv (Resolved tt) (Rejected (js "QuotaExceeded")))
          (Some (clickAt (js "act_001") 10));
        MsgSyncAction syncEnv (Some (clickAt (js "act_002") 11))])
    Interleaving.initialMachine.

(** Two SYNC_ACTION requests that overlap, in a recording just started:
    the second arrives while the first awaits its read of the cache; then
    each goes on twice. *)
Definition overlappingSyncs : Interleaving.Machine :=
  Interleaving.play (ext := Host.example)
    (oneAtATime [MsgStartRecording startEnv (js "checkout")]
     ++ [Interleaving.Deliver
           (MsgSyncAction syncEnv (Some (clickAt (js "act_001") 10)));
         Interleaving.Deliver
           (MsgSyncAction syncEnv (Some (clickAt (js "act_002") 11)));
         Interleaving.Resume 0; Interleaving.Resume 0;
         Interleaving.Resume 0; Interleaving.Resume 0])
    Interleaving.initialMachine.

(** The ids of the actions of the recording that the last response
    carries. *)
Definition recordedIds (m : Interleaving.Machine) : option (list jsstring) :=
  match last (Interleaving.answers m) with
  | Some answer => option_map (List.map a_id) (recordedActions answer)
  | None => None
  end.

(** The answer that pause, resume, stop and the recording query give when
    the coordinator holds no tab. *)
Definition noActiveTab : MessageResponse :=
  failed (js "No active tab for recording").

End Scenarios.

(* ===================================================================== *)
(** * Properties *)
(* ===================================================================== *)

Module JSFacts.
Import JS.

Lemma js_at : js "@" = [64%N].
Proof. reflexivity. Qed.

Lemma startsWith_single (c : N) (s : jsstring) :
  startsWith [c] s = match s with d :: _ => (c =? d)%N | [] => false end.
Proof. destruct s as [|d s]; simpl; [reflexivity | apply andb_true_r]. Qed.

Lemma indexOf_first (c : N) (before after : jsstring) :
  c ∉ before ->
  indexOf (before ++ c :: after) [c] = Z.of_nat (length before).
Proof.
  induction before as [|b before IH]; intros Hnotin.
  - cbn [app indexOf]. rewrite startsWith_single, N.eqb_refl. reflexivity.
  - apply not_elem_of_cons in Hnotin as [Hne Hrest].
    cbn [app indexOf]. rewrite startsWith_single.
    destruct (N.eqb_spec c b) as [->|_]; [congruence|].
    rewrite (IH Hrest).
    destruct (Z.ltb_spec (Z.of_nat (length before)) 0); [lia|].
    cbn [length]. lia.
Qed.

Lemma includes_occurrence (c : N) (before after : jsstring) :
  includes (before ++ c :: after) [c] = true.
Proof.
  induction before as [|b before IH]; cbn [app includes].
  - rewrite startsWith_single, N.eqb_refl. reflexivity.
  - rewrite IH. apply orb_true_r.
Qed.

Lemma slice_prefix (s : jsstring) (n : nat) :
  (n <= length s)%nat -> slice s 0 (Some (Z.of_nat n)) = take n s.
Proof.
  intros Hn. unfold slice, relIndex.
  destruct (Z.ltb_spec 0 0); [lia|].
  destruct (Z.ltb_spec (Z.of_nat n) 0); [lia|].
  rewrite (Z.min_l 0) by lia. rewrite (Z.min_l (Z.of_nat n)) by lia.
  cbn [Z.to_nat drop]. f_equal. lia.
Qed.

Lemma slice_prefix_long (s : jsstring) (n : nat) :
  (length s <= n)%nat -> slice s 0 (Some (Z.of_nat n)) = s.
Proof.
  intros Hn. unfold slice, relIndex.
  destruct (Z.ltb_spec 0 0); [lia|].
  destruct (Z.ltb_spec (Z.of_nat n) 0); [lia|].
  rewrite (Z.min_l 0) by lia. rewrite (Z.min_r (Z.of_nat n)) by lia.
  cbn [Z.to_nat drop]. apply take_ge. lia.
Qed.

Lemma slice_suffix (s : jsstring) (n : nat) :
  (n <= length s)%nat -> slice s (Z.of_nat n) None = drop n s.
Proof.
  intros Hn. unfold slice, relIndex.
  destruct (Z.ltb_spec (Z.of_nat n) 0); [lia|].
  rewrite Z.min_l by lia. rewrite Nat2Z.id.
  apply take_ge. rewrite length_drop. lia.
Qed.

(** *** Decimal numerals *)

Lemma parseDigits_foldl (s : jsstring) :
  parseDigits s = foldl parseStep (Some 0%nat) s.
Proof. reflexivity. Qed.

Lemma parse_digits_acc (d : Decimal.uint) (acc : nat) :
  foldl parseStep (Some acc) (digits d) = Some (Nat.of_uint_acc d acc).
Proof.
  revert acc. induction d as [|d IH|d IH|d IH|d IH|d IH|d IH|d IH|d IH|d IH
                               |d IH]; intros acc;
    [reflexivity|..];
    cbn [digits foldl parseStep Nat.of_uint_acc];
    change (isDigit _) with true; cbv iota; rewrite IH;
    f_equal; f_equal; rewrite Nat.tail_mul_spec;
    match goal with
    | |- (_ + N.to_nat ?k)%nat = _ =>
        let v := eval vm_compute in (N.to_nat k) in
        change (N.to_nat k) with v
    end; lia.
Qed.

Lemma parse_leading_zeros (k : nat) (s : jsstring) :
  parseDigits (replicate k 48%N ++ s) = parseDigits s.
Proof.
  rewrite !parseDigits_foldl, foldl_app. f_equal.
  induction k as [|k IH]; [reflexivity|]. cbn [replicate foldl]. exact IH.
Qed.

Lemma parseDigits_String (n : nat) : parseDigits (String_ n) = Some n.
Proof.
  rewrite parseDigits_foldl. unfold String_.
  rewrite parse_digits_acc. f_equal. apply DecimalNat.Unsigned.of_to.
Qed.

Lemma digits_are_digits (d : Decimal.uint) :
  Forall (fun c => isDigit c = true) (digits d).
Proof. induction d; cbn [digits]; constructor; auto. Qed.

(** *** Negative indices of [slice] *)

Lemma slice_without_last (s : jsstring) (k : nat) :
  (0 < k)%nat ->
  slice s 0 (Some (- Z.of_nat k)) = take (length s - k) s.
Proof.
  intros Hk. unfold slice, relIndex.
  destruct (Z.ltb_spec 0 0); [lia|].
  destruct (Z.ltb_spec (- Z.of_nat k) 0); [|lia].
  rewrite (Z.min_l 0) by lia. cbn [Z.to_nat drop]. f_equal. lia.
Qed.

Lemma slice_last (s : jsstring) (k : nat) :
  (0 < k)%nat ->
  slice s (- Z.of_nat k) None = drop (length s - k) s.
Proof.
  intros Hk. unfold slice, relIndex.
  destruct (Z.ltb_spec (- Z.of_nat k) 0); [|lia].
  replace (Z.to_nat (Z.max (Z.of_nat (length s) + - Z.of_nat k) 0))
    with (length s - k)%nat by lia.
  apply take_ge. rewrite length_drop. lia.
Qed.

(** *** [indexOf] *)

Lemma indexOf_range (s p : jsstring) :
  -1 <= indexOf s p <= Z.of_nat (length s).
Proof.
  induction s as [|c s IH]; cbn [indexOf length].
  - destruct (startsWith p []); lia.
  - destruct (startsWith p (c :: s)); [lia|].
    destruct (Z.ltb_spec (indexOf s p) 0); lia.
Qed.

Lemma indexOf_split (s : jsstring) (c : N) :
  0 <= indexOf s [c] ->
  exists before after : jsstring,
    s = before ++ c :: after /\ (c ∉ before)
    /\ indexOf s [c] = Z.of_nat (length before).
Proof.
  induction s as [|d s IH]; cbn [indexOf]; rewrite startsWith_single.
  - lia.
  - destruct (N.eqb_spec c d) as [<-|Hne].
    + intros _. exists [], s. split; [reflexivity|].
      split; [apply not_elem_of_nil | reflexivity].
    + destruct (Z.ltb_spec (indexOf s [c]) 0) as [Hneg|Hpos]; [lia|].
      intros _. destruct (IH Hpos) as (before & after & -> & Hnotin & Hlen).
      exists (d :: before), after. split; [reflexivity|]. split.
      * apply not_elem_of_cons. by split.
      * rewrite Hlen. cbn [length]. lia.
Qed.

End JSFacts.

Module SanitizerFacts.
Import JS Types Sanitizer JSFacts Examples.

Example maskPassword_secret :
  maskPassword (js "s3cr3t") = replicate 6 bullet.
Proof. reflexivity. Qed.

Example maskCreditCard_keeps_last_four :
  maskCreditCard (js "4111 1111 1111 1234") = js "**** **** **** 1234".
Proof. reflexivity. Qed.

Example sanitizeValue_card_number :
  sanitizeValue (ext := Host.example) (js "4111 1111 1111 1234") (js "text")
    (js "cardNumber") []
  = js "**** **** **** 1234".
Proof. vm_compute. reflexivity. Qed.

Example sanitizeValue_password :
  sanitizeValue (ext := Host.example) (js "s3cr3t") (js "password") [] []
  = replicate 6 bullet.
Proof. vm_compute. reflexivity. Qed.

Example maskEmail_short_local_part :
  maskEmail (js "ab@example.com") = js "ab@example.com".
Proof. vm_compute. reflexivity. Qed.

Section WithExternals.
Context {ext : Externals}.

Lemma maskEmail_spec (localPart domain : jsstring) :
  64%N ∉ localPart ->
  maskEmail (localPart ++ 64%N :: domain) = partiallyMasked localPart domain.
Proof.
  intros Hlocal. unfold maskEmail, partiallyMasked.
  rewrite js_at, (indexOf_first _ _ _ Hlocal).
  destruct (Z.leb_spec (Z.of_nat (length localPart)) 2) as [Hshort|Hlong].
  - rewrite take_ge by lia.
    replace (length localPart - 2)%nat with 0%nat by lia. reflexivity.
  - rewrite slice_prefix by (rewrite length_app; lia).
    rewrite slice_suffix by (rewrite length_app; lia).
    rewrite take_app_length, drop_app_length.
    replace (slice localPart 0 (Some 2)) with (take 2 localPart)
      by (symmetry; apply (slice_prefix localPart 2); lia).
    unfold repeat. do 3 f_equal. lia.
Qed.

(** C7 (as amended). An input action that its producer flagged sensitive,
    whose [inputType] is "email" and whose type, name and id match none of
    the sensitive patterns, leaves [sanitizeAction] with its value partially
    masked: the first two units of the part before the first at sign stay,
    every further unit of that part becomes a bullet, and the at sign with
    what follows is untouched. For jane.doe@example.com this is "ja", six
    bullets, "@example.com". An input action that is not flagged comes
    back unchanged. *)
Theorem sanitizeAction_email_partial_mask
    (a : Action) (selector : SelectorStrategy)
    (localPart domain : jsstring) :
  a_type a = js "input" ->
  a_isSensitive a = true ->
  a_selector a = Some selector ->
  a_inputType a = Some (js "email") ->
  a_value a = Some (localPart ++ 64%N :: domain) ->
  64%N ∉ localPart ->
  isSensitiveField (js "email") (js "email") (orEmpty (s_name selector))
    (orEmpty (s_id selector)) = false ->
  sanitizeAction a = Some (withValue (partiallyMasked localPart domain) a)
  /\ partiallyMasked (js "jane.doe") (js "example.com")
     = js "ja" ++ replicate 6 bullet ++ js "@example.com"
  /\ (forall b : Action, a_isSensitive b = false -> sanitizeAction b = Some b).
Proof.
  intros Htype Hflag Hsel Hinput Hvalue Hlocal Hfield.
  split; [|split].
  - unfold sanitizeAction.
    rewrite Htype, Hflag, Hsel, Hinput, Hvalue.
    unfold jsstring_eqb at 1. rewrite bool_decide_eq_true_2 by reflexivity.
    cbn [negb default from_option id]. unfold sanitizeValue.
    rewrite Hfield. cbn [negb].
    unfold jsstring_eqb at 1. rewrite bool_decide_eq_true_2 by reflexivity.
    rewrite js_at, includes_occurrence. cbn [andb].
    rewrite (maskEmail_spec _ _ Hlocal). reflexivity.
  - reflexivity.
  - intros b Hb. unfold sanitizeAction. rewrite Hb.
    destruct (negb (jsstring_eqb (a_type b) (js "input"))); reflexivity.
Qed.

End WithExternals.

Lemma sanitizeAction_email_partial_mask_witness :
  sanitizeAction (ext := Host.example) (emailInput true)
  = Some (withValue (js "ja" ++ replicate 6 bullet ++ js "@example.com")
            (emailInput true)).
Proof.
  refine (proj1 (sanitizeAction_email_partial_mask (ext := Host.example)
                   (emailInput true) contactSelector (js "jane.doe")
                   (js "example.com") _ _ _ _ _ _ _)).
  - reflexivity.
  - reflexivity.
  - reflexivity.
  - reflexivity.
  - reflexivity.
  - vm_compute. intros Hin. repeat (apply elem_of_cons in Hin as [Hin|Hin];
      [discriminate Hin|]). by apply elem_of_nil in Hin.
  - vm_compute. reflexivity.
Defined.

(** C7 fails as stated: the capture engine does not flag an email field
    named "contact", so the pipeline returns the address as it is; and even
    when the action is flagged, the local part "jane.doe" gets six bullets,
    not the eight of the stated result. *)
Lemma sanitizeAction_email_counterexample :
  let stated := js "ja" ++ replicate 8 bullet ++ js "@example.com" in
  isSensitiveField (ext := Host.example) (js "email") (js "email")
    (js "contact") [] = false
  /\ sanitizeAction (ext := Host.example) (emailInput false)
     = Some (emailInput false)
  /\ a_value (emailInput false) = Some (js "jane.doe@example.com")
  /\ sanitizeAction (ext := Host.example) (emailInput false)
     <> Some (withValue stated (emailInput false))
  /\ sanitizeAction (ext := Host.example) (emailInput true)
     <> Some (withValue stated (emailInput true)).
Proof.
  cbv zeta. repeat split; try (vm_compute; reflexivity);
    vm_compute; discriminate.
Qed.

(** *** Lengths and repeated masking *)

Lemma maskPassword_length (value : jsstring) :
  length (maskPassword value) = length value.
Proof.
  unfold maskPassword, repeat. rewrite length_replicate. lia.
Qed.

Lemma maskCreditCard_split (value : jsstring) :
  (4 < length value)%nat ->
  maskCreditCard value
  = List.map (fun c => if isDigit c then 42%N else c)
      (take (length value - 4) value)
    ++ drop (length value - 4) value.
Proof.
  intros Hlong. unfold maskCreditCard.
  destruct (Z.leb_spec (Z.of_nat (length value)) 4); [lia|].
  change (-4) with (- Z.of_nat 4).
  rewrite slice_without_last, slice_last by lia. reflexivity.
Qed.

Lemma maskCreditCard_short (value : jsstring) :
  (length value <= 4)%nat -> maskCreditCard value = value.
Proof.
  intros Hshort. unfold maskCreditCard.
  destruct (Z.leb_spec (Z.of_nat (length value)) 4); [reflexivity | lia].
Qed.

Lemma maskCreditCard_length (value : jsstring) :
  length (maskCreditCard value) = length value.
Proof.
  destruct (le_lt_dec (length value) 4) as [Hshort|Hlong].
  - by rewrite maskCreditCard_short.
  - rewrite maskCreditCard_split by done.
    rewrite length_app, length_map, length_take, length_drop. lia.
Qed.

(** The three outcomes of [maskEmail]: no at sign or one within the first
    three units, and the value is returned; otherwise the value splits at
    its first at sign. *)
Lemma maskEmail_cases (value : jsstring) :
  maskEmail value = value
  \/ exists localPart domain : jsstring,
       value = localPart ++ 64%N :: domain
       /\ (64%N ∉ localPart) /\ (2 < length localPart)%nat
       /\ maskEmail value = partiallyMasked localPart domain.
Proof.
  destruct (Z.leb_spec (indexOf value (js "@")) 2) as [Hshort|Hlong].
  - left. unfold maskEmail.
    destruct (Z.leb_spec (indexOf value (js "@")) 2); [reflexivity | lia].
  - right. rewrite js_at in Hlong.
    destruct (indexOf_split value 64%N) as (localPart & domain & -> & Hnotin
                                            & Hlen); [lia|].
    exists localPart, domain. split; [reflexivity|]. split; [exact Hnotin|].
    split; [lia|]. by apply maskEmail_spec.
Qed.

Lemma partiallyMasked_length (localPart domain : jsstring) :
  (2 <= length localPart)%nat ->
  length (partiallyMasked localPart domain)
  = length (localPart ++ 64%N :: domain).
Proof.
  intros Hlong. unfold partiallyMasked.
  rewrite !length_app, length_take, length_replicate. cbn [length]. lia.
Qed.

Lemma maskEmail_length (value : jsstring) :
  length (maskEmail value) = length value.
Proof.
  destruct (maskEmail_cases value)
    as [->|(localPart & domain & -> & _ & Hlong & ->)]; [reflexivity|].
  apply partiallyMasked_length. lia.
Qed.

Lemma not_elem_of_replicate_bullet (n : nat) : 64%N ∉ replicate n bullet.
Proof.
  intros Hin. apply elem_of_replicate in Hin as [Heq _]. discriminate Heq.
Qed.

Lemma maskEmail_again (value : jsstring) :
  maskEmail (maskEmail value) = maskEmail value.
Proof.
  destruct (maskEmail_cases value)
    as [Hsame|(localPart & domain & -> & Hnotin & Hlong & Hmasked)].
  - by rewrite !Hsame.
  - rewrite Hmasked. unfold partiallyMasked at 1.
    rewrite app_assoc. rewrite maskEmail_spec.
    + unfold partiallyMasked. rewrite length_app, length_take,
        length_replicate.
      rewrite take_app_le by (rewrite length_take; lia).
      rewrite take_take.
      replace (2 `min` 2)%nat with 2%nat by lia.
      replace (2 `min` length localPart + (length localPart - 2) - 2)%nat
        with (length localPart - 2)%nat by lia.
      reflexivity.
    + intros [Hin|Hin]%elem_of_app.
      * apply Hnotin. eapply subseteq_take, Hin.
      * by apply not_elem_of_replicate_bullet in Hin.
Qed.

Lemma star_digits_again (s : jsstring) :
  List.map (fun c => if isDigit c then 42%N else c)
    (List.map (fun c => if isDigit c then 42%N else c) s)
  = List.map (fun c => if isDigit c then 42%N else c) s.
Proof.
  rewrite List.map_map. apply List.map_ext. intros c.
  destruct (isDigit c) eqn:Hc; cbv iota; [reflexivity | by rewrite Hc].
Qed.

Lemma maskCreditCard_again (value : jsstring) :
  maskCreditCard (maskCreditCard value) = maskCreditCard value.
Proof.
  destruct (le_lt_dec (length value) 4) as [Hshort|Hlong].
  - rewrite (maskCreditCard_short value Hshort).
    by apply maskCreditCard_short.
  - rewrite (maskCreditCard_split (maskCreditCard value))
      by (rewrite maskCreditCard_length; lia).
    rewrite maskCreditCard_length, maskCreditCard_split by done.
    assert (Hlen : length (List.map (fun c => if isDigit c then 42%N else c)
                             (take (length value - 4) value))
                   = (length value - 4)%nat)
      by (rewrite length_map, length_take; lia).
    rewrite take_app_length', drop_app_length' by (symmetry; exact Hlen).
    by rewrite star_digits_again.
Qed.

Lemma maskPassword_again (value : jsstring) :
  maskPassword (maskPassword value) = maskPassword value.
Proof.
  unfold maskPassword at 1 3. by rewrite maskPassword_length.
Qed.

(** Masking a masked value. Each of the three masks leaves its own result
    as it is: all bullets stay all bullets, a card number keeps its last
    four units and its stars, and a partially masked address keeps its two
    visible units, its bullets and its domain. *)
Theorem masks_are_idempotent (value : jsstring) :
  maskPassword (maskPassword value) = maskPassword value
  /\ maskCreditCard (maskCreditCard value) = maskCreditCard value
  /\ maskEmail (maskEmail value) = maskEmail value.
Proof.
  split; [apply maskPassword_again|].
  split; [apply maskCreditCard_again | apply maskEmail_again].
Qed.

Section Values.
Context {ext : Externals}.

Lemma sanitizeValue_length (value type name id : jsstring) :
  length (sanitizeValue value type name id) = length value.
Proof.
  unfold sanitizeValue.
  destruct (negb (isSensitiveField type type name id)).
  - destruct (jsstring_eqb type (js "email") && includes value (js "@"));
      [apply maskEmail_length | reflexivity].
  - destruct (includes _ (js "card") || includes _ (js "cc-number")
              || looksLikeCardNumber value);
      [apply maskCreditCard_length | apply maskPassword_length].
Qed.

(** The sanitized value is as long as the value. Whichever mask
    [sanitizeValue] chooses, every unit of the value is kept or replaced by
    exactly one unit, so the number of units of a secret is still visible
    in the recording. *)
Theorem sanitizeValue_keeps_length (value type name id : jsstring) :
  length (sanitizeValue value type name id) = length value
  /\ length (maskPassword value) = length value
  /\ length (maskCreditCard value) = length value
  /\ length (maskEmail value) = length value.
Proof.
  split; [apply sanitizeValue_length|].
  split; [apply maskPassword_length|].
  split; [apply maskCreditCard_length | apply maskEmail_length].
Qed.

Lemma star_digits_no_digit (s : jsstring) :
  Forall (fun c => isDigit c = false)
    (List.map (fun c => if isDigit c then 42%N else c) s).
Proof.
  induction s as [|c s IH]; cbn [List.map]; constructor; [|exact IH].
  destruct (isDigit c) eqn:Hc; [reflexivity | exact Hc].
Qed.

(** No digit of a sensitive value survives in front of its last four
    units: when the field is sensitive by its type, name or id, every unit
    of the sanitized value before the last four is a bullet, a star, or a
    unit of the value that is not a digit; the last four units are those of
    the value, or the whole result is bullets. *)
Theorem sensitive_digits_are_masked (value type name id : jsstring) :
  isSensitiveField type type name id = true ->
  let sanitized := sanitizeValue value type name id in
  Forall (fun c => isDigit c = false) (take (length value - 4) sanitized)
  /\ (drop (length value - 4) sanitized = drop (length value - 4) value
      \/ sanitized = replicate (length value) bullet).
Proof.
  intros Hsensitive sanitized. subst sanitized. unfold sanitizeValue.
  rewrite Hsensitive. cbn [negb].
  destruct (includes _ (js "card") || includes _ (js "cc-number")
            || looksLikeCardNumber value).
  - destruct (le_lt_dec (length value) 4) as [Hshort|Hlong].
    + rewrite maskCreditCard_short by done.
      replace (length value - 4)%nat with 0%nat by lia.
      split; [constructor | by left].
    + rewrite maskCreditCard_split by done.
      assert (Hlen : length (List.map
                               (fun c => if isDigit c then 42%N else c)
                               (take (length value - 4) value))
                     = (length value - 4)%nat)
        by (rewrite length_map, length_take; lia).
      rewrite take_app_length', drop_app_length' by (symmetry; exact Hlen).
      split; [apply star_digits_no_digit | by left].
  - unfold maskPassword, repeat. rewrite Nat2Z.id. split; [|by right].
    rewrite take_replicate. by apply Forall_replicate.
Qed.

Lemma sanitizeAction_frame (a a' : Action) :
  sanitizeAction a = Some a' ->
  a' = a
  \/ (a_type a = js "input" /\ a_isSensitive a = true
      /\ exists value sanitized : jsstring,
           a_value a = Some value /\ a' = withValue sanitized a
           /\ length sanitized = length value).
Proof.
  unfold sanitizeAction.
  destruct (jsstring_eqb (a_type a) (js "input")) eqn:Htype; cbn [negb];
    [|intros [= <-]; by left].
  destruct (a_isSensitive a); cbn [negb]; [|intros [= <-]; by left].
  destruct (a_selector a) as [selector|]; [|discriminate].
  destruct (a_value a) as [value|].
  2:{ destruct (negb _ && negb _); [|discriminate].
      intros [= <-]. by left. }
  intros [= <-]. right.
  split; [by apply bool_decide_eq_true_1 in Htype|]. split; [reflexivity|].
  eexists _, _. split; [reflexivity|]. split; [reflexivity|].
  apply sanitizeValue_length.
Qed.

(** Sanitizing a recording touches nothing but values. Whenever
    [sanitizeRecording] returns, the result has the recording's own fields
    and as many actions, in the same order; each action is the one at the
    same place in the recording, or that action (an input action flagged
    sensitive) with a value of the same length in place of its own. And it
    does return whenever the recording has an actions array in which every
    flagged input action has a selector and a value; an input type is not
    needed. *)
Theorem sanitizeRecording_changes_values_only (recording : Recording) :
  (forall sanitized : Recording,
      sanitizeRecording recording = Some sanitized ->
      exists actions actions' : list Action,
        r_actions recording = Some actions
        /\ sanitized = withActions actions' recording
        /\ length actions' = length actions
        /\ Forall2
             (fun a a' =>
                a' = a
                \/ (a_type a = js "input" /\ a_isSensitive a = true
                    /\ exists value masked : jsstring,
                         a_value a = Some value /\ a' = withValue masked a
                         /\ length masked = length value))
             actions actions')
  /\ (forall actions : list Action,
        r_actions recording = Some actions ->
        Forall (fun a =>
                  a_type a = js "input" -> a_isSensitive a = true ->
                  is_Some (a_selector a) /\ is_Some (a_value a))
               actions ->
        is_Some (sanitizeRecording recording)).
Proof.
  split.
  - unfold sanitizeRecording. intros sanitized Hsanitized.
    destruct (r_actions recording) as [actions|]; [|discriminate Hsanitized].
    cbn [mbind option_bind] in Hsanitized.
    destruct (mapM sanitizeAction actions) as [actions'|] eqn:Hmap;
      [|discriminate Hsanitized].
    injection Hsanitized as <-.
    apply mapM_Some in Hmap.
    exists actions, actions'. split; [reflexivity|]. split; [reflexivity|].
    split; [symmetry; eapply Forall2_length, Hmap|].
    eapply Forall2_impl; [exact Hmap|].
    intros a a' Ha. by apply sanitizeAction_frame.
  - intros actions Hactions Hall. unfold sanitizeRecording.
    rewrite Hactions. cbn [mbind option_bind].
    assert (Hmap : is_Some (mapM sanitizeAction actions)).
    { apply mapM_is_Some_2. eapply Forall_impl; [exact Hall|].
      intros a Ha. cbn [compose]. unfold sanitizeAction.
      destruct (jsstring_eqb (a_type a) (js "input")) eqn:Htype;
        cbn [negb]; [|by eexists].
      apply bool_decide_eq_true_1 in Htype.
      destruct (a_isSensitive a) eqn:Hflag; cbn [negb]; [|by eexists].
      destruct (Ha Htype Hflag) as [[selector ->] [value ->]].
      by eexists. }
    destruct Hmap as [sanitized ->]. by eexists.
Qed.

End Values.

Lemma sensitive_digits_are_masked_witness :
  sanitizeValue (ext := Host.example) (js "4111 1111 1111 1234") (js "text")
    (js "cardNumber") []
  = js "**** **** **** 1234"
  /\ Forall (fun c => isDigit c = false) (js "**** **** **** ").
Proof.
  split; [vm_compute; reflexivity|].
  exact (proj1 (sensitive_digits_are_masked (ext := Host.example)
                  (js "4111 1111 1111 1234") (js "text") (js "cardNumber")
                  [] eq_refl)).
Defined.

Lemma sanitizeRecording_changes_values_only_witness :
  let recording :=
    withActions [emailInput true; clickAt (js "act_002") 7] brokenRecording in
  let masked :=
    withValue (js "ja" ++ replicate 6 bullet ++ js "@example.com")
      (emailInput true) in
  exists actions actions' : list Action,
    r_actions recording = Some actions
    /\ withActions [masked; clickAt (js "act_002") 7] brokenRecording
       = withActions actions' recording
    /\ length actions' = length actions
    /\ Forall2
         (fun a a' =>
            a' = a
            \/ (a_type a = js "input" /\ a_isSensitive a = true
                /\ exists value masked : jsstring,
                     a_value a = Some value /\ a' = withValue masked a
                     /\ length masked = length value))
         actions actions'.
Proof.
  cbv zeta.
  apply (proj1 (sanitizeRecording_changes_values_only (ext := Host.example)
                  _)).
  vm_compute. reflexivity.
Defined.

End SanitizerFacts.

Module ValidatorFacts.
Import JS Types Validator Examples.

Lemma elem_of_pushIf_keep (c : bool) (e e' : ValidationError)
    (errors : list ValidationError) :
  e ∈ errors -> e ∈ pushIf c e' errors.
Proof. intros H. unfold pushIf. destruct c; set_solver. Qed.

Lemma elem_of_pushIf_new (e : ValidationError)
    (errors : list ValidationError) :
  e ∈ pushIf true e errors.
Proof. unfold pushIf. set_solver. Qed.

Lemma invalid_of_elem (e : ValidationError) (errors : list ValidationError) :
  e ∈ errors -> bool_decide (errors = []) = false.
Proof.
  intros H. apply bool_decide_eq_false_2. intros ->. by apply elem_of_nil in H.
Qed.

(** Once an error is in the list, the later checks leave it there. *)
Ltac later_checks :=
  repeat first
    [ assumption
    | apply elem_of_pushIf_new
    | apply elem_of_pushIf_keep
    | match goal with
      | |- _ ∈ (if ?c then _ else _) => destruct c
      | |- _ ∈ match ?x with _ => _ end => destruct x
      | |- _ ∈ _ ++ _ => apply elem_of_app; left
      end ].

Section WithExternals.
Context {ext : Externals}.

Lemma actionErrors_elem (i : nat) (a : Action) (e : ValidationError) :
  e ∈ errors (validateAction a) ->
  mkError (js "actions[" ++ String_ i ++ js "]." ++ field e) (message e)
    ∈ actionErrors i a.
Proof.
  intros He. unfold actionErrors.
  assert (isValid (validateAction a) = false) as ->.
  { unfold validateAction in *. cbn [isValid errors] in *.
    eapply invalid_of_elem, He. }
  cbn [negb]. apply list_elem_of_In, in_map_iff.
  exists e. split; [reflexivity | by apply list_elem_of_In].
Qed.

(** C10. [validateRecording] is a total function (it has a result for
    every recording), and for a recording whose viewport has a width or a
    height that is zero or negative the result is invalid and lists an error
    with field "recording.viewport". The other checks are not cut short:
    whichever of them fails has its own error in the same list. *)
Theorem validateRecording_viewport_not_positive
    (recording : Recording) (viewport : Viewport) :
  r_viewport recording = Some viewport ->
  notPositive (width viewport) \/ notPositive (height viewport) ->
  let result := validateRecording recording in
  isValid result = false
  /\ viewportError ∈ errors result
  /\ field viewportError = js "recording.viewport"
  /\ (truthy (r_id recording) = false ->
      mkError (js "recording.id") (js "Recording ID is required")
        ∈ errors result)
  /\ (truthy (r_version recording) = false ->
      mkError (js "recording.version") (js "Schema version is required")
        ∈ errors result)
  /\ (trim (r_testName recording) = [] ->
      mkError (js "recording.testName") (js "Test name cannot be empty")
        ∈ errors result)
  /\ (truthy (r_url recording) = false ->
      mkError (js "recording.url") (js "Recording URL is required")
        ∈ errors result)
  /\ (truthy (r_url recording) = true ->
      urlParses (r_url recording) = false ->
      mkError (js "recording.url") (js "Invalid URL format") ∈ errors result)
  /\ (truthy (r_startTime recording) = false ->
      mkError (js "recording.startTime") (js "Start time is required")
        ∈ errors result)
  /\ (truthy (r_startTime recording) = true ->
      dateParses (r_startTime recording) = false ->
      mkError (js "recording.startTime")
        (js "Start time must be valid ISO 8601 format") ∈ errors result)
  /\ (truthy (r_endTime recording) = true ->
      dateParses (r_endTime recording) = false ->
      mkError (js "recording.endTime")
        (js "End time must be valid ISO 8601 format") ∈ errors result)
  /\ (truthy (r_userAgent recording) = false ->
      mkError (js "recording.userAgent") (js "User agent is required")
        ∈ errors result)
  /\ (r_actions recording = None ->
      mkError (js "recording.actions") (js "Actions array is required")
        ∈ errors result)
  /\ (forall (actions : list Action) (i : nat) (a : Action)
             (e : ValidationError),
        r_actions recording = Some actions ->
        actions !! i = Some a ->
        e ∈ errors (validateAction a) ->
        mkError (js "actions[" ++ String_ i ++ js "]." ++ field e) (message e)
          ∈ errors result).
Proof.
  intros Hviewport Hdim result.
  assert (Hcheck : notNumber (width viewport) || notNumber (height viewport)
                   || leZero (width viewport) || leZero (height viewport)
                   = true).
  { destruct Hdim as [(px & Hpx & Hle)|(px & Hpx & Hle)]; rewrite Hpx;
      cbn [leZero notNumber];
      replace (px <=? 0) with true by (symmetry; apply Z.leb_le; lia);
      destruct (width viewport), (height viewport); cbn;
      rewrite ?orb_true_r; reflexivity. }
  assert (Hvp : viewportError ∈ errors result).
  { subst result. unfold validateRecording. cbn [errors].
    rewrite Hviewport, Hcheck. later_checks. }
  split; [eapply invalid_of_elem, Hvp|].
  split; [exact Hvp|]. split; [reflexivity|].
  subst result. unfold validateRecording. cbn [errors]. clear Hvp.
  repeat split.
  - intros ->. cbn [negb]. later_checks.
  - intros ->. cbn [negb]. later_checks.
  - intros ->. rewrite bool_decide_eq_true_2, orb_true_r by reflexivity.
    later_checks.
  - intros ->. cbn [negb]. later_checks.
  - intros -> ->. cbn [negb]. later_checks.
  - intros ->. cbn [negb]. later_checks.
  - intros -> ->. cbn [negb]. later_checks.
  - intros -> ->. cbn [negb]. later_checks.
  - intros ->. cbn [negb]. later_checks.
  - intros ->. apply elem_of_app; right. apply list_elem_of_singleton.
    reflexivity.
  - intros actions i a e -> Hi He. apply elem_of_app; right.
    apply list_elem_of_In, in_concat. exists (actionErrors i a). split.
    + apply list_elem_of_In, list_elem_of_lookup. exists i.
      rewrite list_lookup_imap, Hi. reflexivity.
    + apply list_elem_of_In, actionErrors_elem, He.
Qed.

End WithExternals.

Lemma validateRecording_viewport_not_positive_witness :
  let result := validateRecording (ext := Host.example) brokenRecording in
  isValid result = false
  /\ List.map field (errors result)
     = [js "recording.testName"; js "recording.viewport";
        js "actions[0].action.id"].
Proof.
  pose proof (validateRecording_viewport_not_positive (ext := Host.example)
                brokenRecording (mkViewport (DNum 0) (DNum 1080)) eq_refl
                (or_introl (ex_intro _ 0 (conj eq_refl (Z.le_refl 0)))))
    as [Hinvalid _].
  split; [exact Hinvalid | vm_compute; reflexivity].
Defined.

(** *** When the error list is empty *)

Lemma pushIf_nil (c : bool) (e : ValidationError)
    (errors : list ValidationError) :
  pushIf c e errors = [] <-> c = false /\ errors = [].
Proof.
  unfold pushIf. destruct c.
  - split; [intros H; by apply app_nil in H as [_ [=]] | intros [[=] _]].
  - tauto.
Qed.

Lemma foldl_pushIf_nil {A : Type} (f : A -> bool) (g : A -> ValidationError)
    (keys : list A) :
  forall errors : list ValidationError,
    foldl (fun errors key => pushIf (f key) (g key) errors) errors keys = []
    <-> errors = [] /\ Forall (fun key => f key = false) keys.
Proof.
  induction keys as [|key keys IH]; intros errors; cbn [foldl].
  - split; [intros ->; by split | tauto].
  - rewrite IH, pushIf_nil, Forall_cons. tauto.
Qed.

Lemma isValid_nil_errors (errors : list ValidationError) :
  bool_decide (errors = []) = true <-> errors = [].
Proof. apply bool_decide_eq_true. Qed.

Lemma truthy_nonempty (s : jsstring) : negb (truthy s) = false <-> s <> [].
Proof. destruct s; cbn; split; intros H; congruence. Qed.

Lemma truthyo_present (s : option jsstring) :
  negb (truthyo s) = false <-> truthyo s = true.
Proof. destruct (truthyo s); cbn; split; intros H; congruence. Qed.

Lemma namesString_iff (selector : SelectorStrategy) (key : SelectorType) :
  negb (truthyValue (selectorValue selector key))
  || isPlainObject (selectorValue selector key) = false
  <-> namesString selector key.
Proof.
  unfold namesString.
  destruct (selectorValue selector key) as [|[|c v]|parent index]; cbn;
    split; try discriminate; try (intros (v0 & Hne & [=]); congruence).
  intros _. by exists (c :: v).
Qed.

Lemma elem_of_allKeys (key : SelectorType) : key ∈ allKeys.
Proof. unfold allKeys. destruct key; set_solver. Qed.

Lemma validateSelector_no_errors (selector : SelectorStrategy) :
  errors (validateSelector selector) = []
  <-> s_priority selector <> []
      /\ Forall (namesString selector) (s_priority selector).
Proof.
  unfold validateSelector. cbn [errors].
  rewrite pushIf_nil, foldl_pushIf_nil, pushIf_nil.
  rewrite bool_decide_eq_false, negb_false_iff.
  rewrite (Forall_iff _ _ (namesString selector))
    by (intros key; apply namesString_iff).
  split; [tauto|]. intros [Hne Hall]. repeat split; try done.
  destruct (s_priority selector) as [|key keys]; [done|].
  apply Forall_cons in Hall as [(v & Hv & Hkey) _].
  apply existsb_exists. exists key.
  split; [apply list_elem_of_In, elem_of_allKeys|].
  rewrite Hkey. by destruct v.
Qed.

Lemma isValid_validateSelector (selector : SelectorStrategy) :
  isValid (validateSelector selector) = true
  <-> errors (validateSelector selector) = [].
Proof.
  unfold validateSelector. cbn [isValid errors]. apply isValid_nil_errors.
Qed.

Lemma position_names_no_string (selector : SelectorStrategy) :
  ~ namesString selector TPosition.
Proof.
  intros (v & _ & Hv). cbn [selectorValue] in Hv.
  by destruct (s_position selector) as [[? ?]|].
Qed.

(** When [validateSelector] accepts. A strategy is valid exactly when its
    priority list is not empty and every key in it names a candidate that
    is a non-empty string. The position candidate is an object, so a
    strategy that lists "position" in its priority is never valid. *)
Theorem validateSelector_valid_iff (selector : SelectorStrategy) :
  (isValid (validateSelector selector) = true
   <-> s_priority selector <> []
       /\ Forall (namesString selector) (s_priority selector))
  /\ (TPosition ∈ s_priority selector ->
      isValid (validateSelector selector) = false).
Proof.
  split.
  - rewrite isValid_validateSelector. apply validateSelector_no_errors.
  - intros Hposition. apply not_true_is_false. intros Hvalid.
    apply isValid_validateSelector, validateSelector_no_errors in Hvalid
      as [_ Hall].
    rewrite Forall_forall in Hall.
    by apply (position_names_no_string selector), Hall.
Qed.

Lemma selectorErrors_nil (what : jsstring) (s : option SelectorStrategy)
    (errors : list ValidationError) :
  selectorErrors what s errors = []
  <-> errors = []
      /\ exists selector : SelectorStrategy,
           s = Some selector /\ isValid (validateSelector selector) = true.
Proof.
  unfold selectorErrors. destruct s as [selector|].
  - rewrite app_nil.
    pose proof (isValid_validateSelector selector) as Hvalid.
    split.
    + intros [-> Hnil]. split; [reflexivity|]. exists selector.
      split; [reflexivity | by apply Hvalid].
    + intros [-> (selector' & [= <-] & Hok)]. split; [reflexivity|].
      by apply Hvalid.
  - split; [intros H; by apply app_nil in H as [_ [=]]|].
    intros [_ (selector & [=] & _)].
Qed.

(** When [validateAction] accepts. An action is valid exactly when it has
    an id, a type and a URL, its timestamp is not negative, and, if it is a
    click, an input or a navigation, the fields of that kind are there: a
    valid selector, a tag name and coordinates for a click; a valid
    selector, a value and an input type for an input; both URLs for a
    navigation. No other type has checks of its own. *)
Theorem validateAction_valid_iff (action : Action) :
  isValid (validateAction action) = true
  <-> a_id action <> [] /\ a_type action <> [] /\ 0 <= a_timestamp action
      /\ a_url action <> []
      /\ (a_type action = js "click" ->
          (exists selector : SelectorStrategy,
              a_selector action = Some selector
              /\ isValid (validateSelector selector) = true)
          /\ truthyo (a_tagName action) = true
          /\ a_coordinates action <> None)
      /\ (a_type action = js "input" ->
          (exists selector : SelectorStrategy,
              a_selector action = Some selector
              /\ isValid (validateSelector selector) = true)
          /\ a_value action <> None
          /\ truthyo (a_inputType action) = true)
      /\ (a_type action = js "navigation" ->
          truthyo (a_from action) = true /\ truthyo (a_to action) = true).
Proof.
  unfold validateAction. cbn [isValid]. rewrite isValid_nil_errors.
  unfold jsstring_eqb.
  destruct (decide (a_type action = js "click")) as [Hclick|Hnoclick].
  { rewrite (bool_decide_eq_true_2 _ Hclick).
    rewrite !pushIf_nil, selectorErrors_nil, !pushIf_nil.
    rewrite !truthy_nonempty, truthyo_present, bool_decide_eq_false,
      Z.ltb_ge.
    rewrite Hclick. split.
    - intros (Hcoords & Htag & (Hurl & Ht & Htype & Hid & _) & Hsel).
      repeat split; try done; intros [=].
    - intros (Hid & Htype & Ht & Hurl & Hck & _ & _).
      destruct (Hck eq_refl) as (Hsel & Htag & Hcoords).
      repeat split; done. }
  rewrite (bool_decide_eq_false_2 _ Hnoclick).
  destruct (decide (a_type action = js "input")) as [Hinput|Hnoinput].
  { rewrite (bool_decide_eq_true_2 _ Hinput).
    rewrite !pushIf_nil, selectorErrors_nil, !pushIf_nil.
    rewrite !truthy_nonempty, truthyo_present, bool_decide_eq_false,
      Z.ltb_ge.
    rewrite Hinput. split.
    - intros (Hkind & Hvalue & (Hurl & Ht & Htype & Hid & _) & Hsel).
      repeat split; try done; intros [=].
    - intros (Hid & Htype & Ht & Hurl & _ & Hin & _).
      destruct (Hin eq_refl) as (Hsel & Hvalue & Hkind).
      repeat split; done. }
  rewrite (bool_decide_eq_false_2 _ Hnoinput).
  destruct (decide (a_type action = js "navigation")) as [Hnav|Hnonav].
  { rewrite (bool_decide_eq_true_2 _ Hnav).
    rewrite !pushIf_nil.
    rewrite !truthy_nonempty, !truthyo_present, Z.ltb_ge.
    rewrite Hnav. split.
    - intros (Hto & Hfrom & Hurl & Ht & Htype & Hid & _).
      repeat split; try done; intros [=].
    - intros (Hid & Htype & Ht & Hurl & _ & _ & Hn).
      destruct (Hn eq_refl) as (Hfrom & Hto).
      repeat split; done. }
  rewrite (bool_decide_eq_false_2 _ Hnonav).
  rewrite !pushIf_nil. rewrite !truthy_nonempty, Z.ltb_ge.
  split.
  - intros (Hurl & Ht & Htype & Hid & _). repeat split; done.
  - intros (Hid & Htype & Ht & Hurl & _). repeat split; done.
Qed.

Lemma trim_nil : trim [] = [].
Proof. reflexivity. Qed.

Lemma passes_iff (viewport : Viewport) :
  notNumber (width viewport) || notNumber (height viewport)
  || leZero (width viewport) || leZero (height viewport) = false
  <-> passes (width viewport) /\ passes (height viewport).
Proof.
  unfold passes.
  destruct (width viewport) as [w| |], (height viewport) as [h| |];
    cbn [notNumber leZero orb]; rewrite ?orb_false_r, ?orb_true_r,
      ?orb_false_iff, ?Z.leb_gt;
    split;
    try (intros [[Hw|(px & [=] & Hw)] [Hh|(py & [=] & Hh)]]; subst; 
         first [discriminate | lia | done | (split; lia)]);
    try discriminate;
    intros; repeat split;
    first [by left | right; eexists; (split; [reflexivity | lia])].
Qed.

Section Validity.
Context {ext : Externals}.

Lemma actionErrors_nil (index : nat) (action : Action) :
  actionErrors index action = []
  <-> isValid (validateAction action) = true.
Proof.
  unfold actionErrors.
  destruct (isValid (validateAction action)) eqn:Hvalid; cbn [negb];
    [tauto|].
  split; [|discriminate]. intros Hnil.
  apply map_eq_nil in Hnil.
  assert (isValid (validateAction action) = true); [|congruence].
  unfold validateAction in *. cbn [isValid errors] in *.
  by apply isValid_nil_errors.
Qed.

Lemma concat_actionErrors_nil (actions : list Action) :
  forall f : nat -> nat,
    List.concat (imap (fun i => actionErrors (f i)) actions) = []
    <-> Forall (fun a => isValid (validateAction a) = true) actions.
Proof.
  induction actions as [|a actions IH]; intros f.
  - split; [constructor | reflexivity].
  - rewrite imap_cons. cbn [List.concat]. rewrite app_nil, Forall_cons.
    rewrite actionErrors_nil. rewrite <- (IH (f ∘ S)). reflexivity.
Qed.

(** When [validateRecording] accepts. A recording is valid exactly when
    it has an id and a version, its test name is more than white space,
    its URL parses, its start time (and its end time, if it has one)
    parses as a date, both viewport dimensions pass, it has a user agent,
    and it has an actions array every member of which [validateAction]
    accepts. A dimension passes when it is a positive number and also when
    it is NaN, which no comparison rejects. *)
Theorem validateRecording_valid_iff (recording : Recording) :
  isValid (validateRecording recording) = true
  <-> r_id recording <> [] /\ r_version recording <> []
      /\ trim (r_testName recording) <> []
      /\ (r_url recording <> [] /\ urlParses (r_url recording) = true)
      /\ (r_startTime recording <> []
          /\ dateParses (r_startTime recording) = true)
      /\ (r_endTime recording <> [] ->
          dateParses (r_endTime recording) = true)
      /\ (exists viewport : Viewport,
             r_viewport recording = Some viewport
             /\ passes (width viewport) /\ passes (height viewport))
      /\ r_userAgent recording <> []
      /\ (exists actions : list Action,
             r_actions recording = Some actions
             /\ Forall (fun a => isValid (validateAction a) = true) actions).
Proof.
  unfold validateRecording. cbn [isValid]. rewrite isValid_nil_errors.
  (* the actions *)
  destruct (r_actions recording) as [actions|].
  2:{ split; [intros H; by apply app_nil in H as [_ [=]]|].
      intros (_ & _ & _ & _ & _ & _ & _ & _ & (actions & [=] & _)). }
  rewrite app_nil.
  rewrite (concat_actionErrors_nil actions (fun i => i)).
  rewrite pushIf_nil, truthy_nonempty.
  (* the viewport *)
  destruct (r_viewport recording) as [viewport|].
  2:{ split; [intros [[_ H] _]; by apply app_nil in H as [_ [=]]|].
      intros (_ & _ & _ & _ & _ & _ & (viewport & [=] & _) & _). }
  rewrite pushIf_nil, passes_iff.
  (* the times and the URL *)
  assert (Hend : forall errors,
            (if truthy (r_endTime recording)
             then pushIf (negb (dateParses (r_endTime recording)))
                    (mkError (js "recording.endTime")
                       (js "End time must be valid ISO 8601 format")) errors
             else errors) = []
            <-> (r_endTime recording <> [] ->
                 dateParses (r_endTime recording) = true)
                /\ errors = []).
  { intros errors. destruct (r_endTime recording) as [|c endTime];
      cbn [truthy]; [tauto|].
    rewrite pushIf_nil, negb_false_iff. split; [tauto|].
    intros [H ->]. split; [by apply H | reflexivity]. }
  rewrite Hend. clear Hend.
  assert (Hstart : forall errors,
            (if negb (truthy (r_startTime recording))
             then errors ++ [mkError (js "recording.startTime")
                               (js "Start time is required")]
             else pushIf (negb (dateParses (r_startTime recording)))
                    (mkError (js "recording.startTime")
                       (js "Start time must be valid ISO 8601 format"))
                    errors) = []
            <-> (r_startTime recording <> []
                 /\ dateParses (r_startTime recording) = true)
                /\ errors = []).
  { intros errors. destruct (r_startTime recording) as [|c startTime];
      cbn [truthy negb].
    - split; [intros H; by apply app_nil in H as [_ [=]]|].
      by intros [[? _] _].
    - rewrite pushIf_nil, negb_false_iff. split; [|tauto].
      intros [? ->]. by repeat split. }
  rewrite Hstart. clear Hstart.
  assert (Hurl : forall errors,
            (if negb (truthy (r_url recording))
             then errors ++ [mkError (js "recording.url")
                               (js "Recording URL is required")]
             else pushIf (negb (urlParses (r_url recording)))
                    (mkError (js "recording.url") (js "Invalid URL format"))
                    errors) = []
            <-> (r_url recording <> [] /\ urlParses (r_url recording) = true)
                /\ errors = []).
  { intros errors. destruct (r_url recording) as [|c url];
      cbn [truthy negb].
    - split; [intros H; by apply app_nil in H as [_ [=]]|].
      by intros [[? _] _].
    - rewrite pushIf_nil, negb_false_iff. split; [|tauto].
      intros [? ->]. by repeat split. }
  rewrite Hurl. clear Hurl.
  rewrite !pushIf_nil, !truthy_nonempty.
  assert (Hname : negb (truthy (r_testName recording))
                  || bool_decide (trim (r_testName recording) = []) = false
                  <-> trim (r_testName recording) <> []).
  { rewrite orb_false_iff, bool_decide_eq_false, truthy_nonempty.
    split; [tauto|]. intros H. split; [|exact H].
    intros Hnil. by rewrite Hnil in H. }
  rewrite Hname. clear Hname.
  split.
  - intros ((Hagent & (Hpass & (Hendt & (Hst & (Hu & Hn & Hv & Hi & _)))))
            & Hall).
    repeat split; try tauto.
    + by exists viewport.
    + by exists actions.
  - intros (Hi & Hv & Hn & Hu & Hst & Hendt & (viewport' & [= <-] & Hpass)
            & Hagent & (actions' & [= <-] & Hall)).
    repeat split; tauto.
Qed.

End Validity.

End ValidatorFacts.

Module SelectorGeneratorFacts.
Import JS Types Dom SelectorGenerator Examples.

Lemma truthyo_orUndefined (v : jsstring) : truthyo (orUndefined v) = truthy v.
Proof. destruct v; reflexivity. Qed.

Lemma truthyValue_ofString (v : option jsstring) :
  Validator.truthyValue (Validator.ofString v) = truthyo v.
Proof. destruct v as [[|]|]; reflexivity. Qed.

Lemma truthyo_guard (v : option jsstring) :
  truthyo (if truthyo v then v else None) = truthyo v.
Proof. destruct v as [[|]|]; reflexivity. Qed.

Example isDynamicId_samples :
  List.map isDynamicId
    [js "submit"; js "user-1234567"; js "el-1700000000000";
     js "deadbeef01"; js "Vue-app"; js "feedback"]
  = [false; true; true; true; true; false].
Proof. vm_compute. reflexivity. Qed.

Example isDynamicClass_samples :
  List.map isDynamicClass
    [js "btn"; js "css-1x2y3z"; js "_a1b2c3"; js "col-12345"; js "_"]
  = [false; true; true; true; false].
Proof. vm_compute. reflexivity. Qed.

Lemma not_dynamic_login_btn : isDynamicId (js "login-btn") = false.
Proof. vm_compute. reflexivity. Qed.

Lemma dynamic_react_id : isDynamicId (js "react-48213") = true.
Proof. vm_compute. reflexivity. Qed.

Section WithExternals.
Context {ext : Externals}.
Variable config : SelectorConfig.

Lemma generateTextSelector_fst (element : Element) :
  (if truthyo (fst (generateTextSelector element))
   then fst (generateTextSelector element) else None)
  = fst (generateTextSelector element).
Proof.
  unfold generateTextSelector.
  destruct (trim <$> textContent (node element)) as [[|c text]|];
    try reflexivity.
  cbn [truthy negb]. destruct (length (c :: text) <=? 50)%nat; reflexivity.
Qed.

Lemma generateTextSelector_snd (element : Element) :
  (if truthyo (fst (generateTextSelector element)) then None
   else if truthyo (snd (generateTextSelector element))
        then snd (generateTextSelector element) else None)
  = snd (generateTextSelector element).
Proof.
  unfold generateTextSelector.
  destruct (trim <$> textContent (node element)) as [[|c text]|];
    try reflexivity.
  cbn [truthy negb]. destruct (length (c :: text) <=? 50)%nat; reflexivity.
Qed.

Lemma push_piece {A : Type} (b : bool) (p : list A) (k : A) :
  (if b then p ++ [k] else p) = p ++ (if b then [k] else []).
Proof. destruct b; [reflexivity | by rewrite app_nil_r]. Qed.

Lemma filter_piece {A : Type} (f : A -> bool) (k : A) (l : list A) :
  List.filter f (k :: l) = (if f k then [k] else []) ++ List.filter f l.
Proof. cbn [List.filter]. destruct (f k); reflexivity. Qed.

(** The priority list is the precedence list filtered by what the strategy
    holds. *)
Lemma priority_is_filtered_precedence (element : Element) :
  s_priority (generateSelectors config element)
  = List.filter (populated (generateSelectors config element)) precedence.
Proof.
  unfold precedence. rewrite !filter_piece. cbn [List.filter].
  unfold generateSelectors, populated.
  cbn [Validator.selectorValue s_id s_dataTestId s_ariaLabel s_name s_css
       s_text s_textContains s_xpath s_xpathAbsolute s_position s_priority].
  rewrite !truthyValue_ofString, truthyo_guard.
  set (t := generateTextSelector element).
  set (pos := if includePosition config then _ else None).
  destruct (fst t) as [[|? ?]|], (snd t) as [[|? ?]|], pos as [[? ?]|];
    cbn [truthyo Validator.truthyValue Validator.ofString];
    rewrite ?bool_decide_eq_true_2 by (eexists; reflexivity);
    rewrite ?bool_decide_eq_false_2 by (intros [? [=]]);
    rewrite !push_piece, ?app_nil_r, <- ?app_assoc; reflexivity.
Qed.

(** C9. Every candidate of the strategy is the value of its own generator
    on the element, whatever the other generators produced (the XPath and
    position candidates when the configuration asks for them); [priority]
    names exactly the keys under which the strategy holds a non-empty value,
    in the fixed precedence. A node with id "login-btn" has "id" first; a
    node with id "react-48213" has no id candidate, and the first entry is
    the first of the remaining candidates that is populated. *)
Theorem generateSelectors_priority (element : Element) :
  let s := generateSelectors config element in
  (s_id s = generateIdSelector element
   /\ s_dataTestId s = generateDataTestIdSelector element
   /\ s_ariaLabel s = generateAriaLabelSelector element
   /\ s_name s = generateNameSelector element
   /\ s_css s = orUndefined (generateCssSelector config element)
   /\ s_text s = fst (generateTextSelector element)
   /\ s_textContains s = snd (generateTextSelector element)
   /\ s_xpath s = (if includeXPath config
                   then orUndefined (generateRelativeXPath element)
                   else None)
   /\ s_xpathAbsolute s = (if includeXPath config
                           then orUndefined (generateAbsoluteXPath element)
                           else None)
   /\ s_position s = (if includePosition config
                      then generatePositionSelector element else None))
  /\ s_priority s = List.filter (populated s) precedence
  /\ (id (node element) = js "login-btn" -> s_priority s !! 0%nat = Some TId)
  /\ (id (node element) = js "react-48213" ->
      s_id s = None
      /\ (TId ∉ s_priority s)
      /\ s_priority s !! 0%nat
         = head (List.filter (populated s) (tail precedence))).
Proof.
  intros s. split; [|split; [|split]].
  - subst s. unfold generateSelectors.
    cbn [s_id s_dataTestId s_ariaLabel s_name s_css s_text s_textContains
         s_xpath s_xpathAbsolute s_position].
    rewrite generateTextSelector_fst, generateTextSelector_snd.
    repeat split; reflexivity.
  - apply priority_is_filtered_precedence.
  - intros Hid. subst s. rewrite priority_is_filtered_precedence.
    unfold precedence. rewrite filter_piece.
    assert (populated (generateSelectors config element) TId = true) as ->.
    { unfold populated, generateSelectors. cbn [Validator.selectorValue s_id].
      unfold generateIdSelector. rewrite Hid, not_dynamic_login_btn.
      reflexivity. }
    reflexivity.
  - intros Hid. subst s.
    assert (Hnone : s_id (generateSelectors config element) = None).
    { unfold generateSelectors. cbn [s_id]. unfold generateIdSelector.
      rewrite Hid, dynamic_react_id. reflexivity. }
    assert (Hpop : populated (generateSelectors config element) TId = false).
    { unfold populated. cbn [Validator.selectorValue]. rewrite Hnone.
      reflexivity. }
    split; [exact Hnone|].
    rewrite priority_is_filtered_precedence. unfold precedence.
    rewrite filter_piece, Hpop. cbn [app tail]. split.
    + intros Hin. apply list_elem_of_In, filter_In in Hin as [Hin _].
      apply list_elem_of_In in Hin.
      repeat (apply elem_of_cons in Hin as [Hin|Hin]; [discriminate Hin|]).
      by apply elem_of_nil in Hin.
    + by destruct (List.filter _ _).
Qed.

End WithExternals.

Example generateSelectors_login_button :
  let s := generateSelectors (ext := Host.example) fullConfig
             (buttonElement (js "login-btn")) in
  s_css s = Some (js "form.login > button.btn.primary")
  /\ s_xpath s
     = Some (js "//button[@id=" ++ [quote] ++ js "login-btn" ++ [quote]
               ++ js "]")
  /\ s_xpathAbsolute s = Some (js "/html/body[1]/form[1]/button[1]")
  /\ s_position s = Some (js "form.login", 0)
  /\ s_text s = Some (js "Log in").
Proof. vm_compute. repeat split. Qed.

Lemma generateSelectors_priority_witness :
  s_priority (generateSelectors (ext := Host.example) fullConfig
                (buttonElement (js "login-btn")))
    = [TId; TCss; TText; TXpath; TXpathAbsolute; TPosition]
  /\ s_priority (generateSelectors (ext := Host.example) fullConfig
                  (buttonElement (js "react-48213")))
    = [TCss; TText; TXpath; TXpathAbsolute; TPosition]
  /\ s_priority (generateSelectors (ext := Host.example) fullConfig
                  (buttonElement (js "login-btn"))) !! 0%nat = Some TId
  /\ s_id (generateSelectors (ext := Host.example) fullConfig
             (buttonElement (js "react-48213"))) = None.
Proof.
  pose proof (generateSelectors_priority (ext := Host.example) fullConfig
                (buttonElement (js "login-btn"))) as (_ & _ & Hlogin & _).
  pose proof (generateSelectors_priority (ext := Host.example) fullConfig
                (buttonElement (js "react-48213"))) as (_ & _ & _ & Hreact).
  split; [vm_compute; reflexivity|].
  split; [vm_compute; reflexivity|].
  split; [exact (Hlogin eq_refl) | exact (proj1 (Hreact eq_refl))].
Defined.

(** *** Trimmed text *)

Lemma trimStart_head (s : jsstring) (c : N) :
  head (trimStart s) = Some c -> isWhiteSpace c = false.
Proof.
  induction s as [|d s IH]; cbn [trimStart]; [discriminate|].
  destruct (isWhiteSpace d) eqn:Hd; [exact IH|].
  cbn [head]. by intros [= <-].
Qed.

Lemma trimStart_is_drop (s : jsstring) :
  exists k : nat, trimStart s = drop k s.
Proof.
  induction s as [|d s [k IH]]; cbn [trimStart]; [by exists 0%nat|].
  destruct (isWhiteSpace d); [by exists (S k) | by exists 0%nat].
Qed.

Lemma last_rev_is_head {A : Type} (l : list A) : last (rev l) = head l.
Proof.
  destruct l as [|a l]; [reflexivity|]. cbn [rev head]. apply last_snoc.
Qed.

Lemma head_take {A : Type} (n : nat) (l : list A) (a : A) :
  head (take n l) = Some a -> head l = Some a.
Proof. destruct n, l; cbn; congruence. Qed.

Lemma trim_ends (s : jsstring) (c : N) :
  (head (trim s) = Some c -> isWhiteSpace c = false)
  /\ (last (trim s) = Some c -> isWhiteSpace c = false).
Proof.
  unfold trim. split.
  - destruct (trimStart_is_drop (rev (trimStart s))) as [k ->].
    rewrite skipn_rev, rev_involutive. intros Hhead.
    apply head_take in Hhead. by apply trimStart_head in Hhead.
  - rewrite last_rev_is_head. apply trimStart_head.
Qed.

(** *** Digit runs *)

Lemma hasDashDigitRun_hasDigitRun (n m : nat) (s : jsstring) :
  (m <= n)%nat -> hasDashDigitRun n s = true -> hasDigitRun m s = true.
Proof.
  intros Hmn. induction s as [|c s IH]; cbn [hasDashDigitRun];
    [discriminate|].
  intros [[_ Hrun]%andb_true_iff|Hlater]%orb_true_iff.
  - cbn [hasDigitRun]. apply orb_true_iff. right.
    destruct s as [|d s]; cbn [hasDigitRun]; apply orb_true_iff; left;
      apply Nat.leb_le; apply Nat.leb_le in Hrun; lia.
  - cbn [hasDigitRun]. apply orb_true_iff. right. by apply IH.
Qed.

(** The patterns of [isDynamicId]. An id counts as generated when it
    starts with a framework prefix, contains six digits in a row, or starts
    with eight hexadecimal digits; the timestamp pattern (a hyphen and
    thirteen digits) never decides, since such an id contains six digits
    in a row. *)
Theorem isDynamicId_patterns (id : jsstring) :
  isDynamicId id
  = (startsWithI (js "react-") id || startsWithI (js "vue-") id
     || startsWithI (js "ng-") id || startsWithI (js "ember-") id)
    || hasDigitRun 6 id || (8 <=? runLength isHexDigit id)%nat.
Proof.
  unfold isDynamicId.
  destruct (startsWithI (js "react-") id || startsWithI (js "vue-") id
            || startsWithI (js "ng-") id || startsWithI (js "ember-") id);
    [reflexivity|].
  cbn [orb]. destruct (hasDigitRun 6 id) eqn:Hrun; [reflexivity|].
  cbn [orb]. destruct (hasDashDigitRun 13 id) eqn:Hdash; [|reflexivity].
  apply (hasDashDigitRun_hasDigitRun 13 6) in Hdash; [congruence | lia].
Qed.

(** *** The fallback of [cssEscape] *)

Lemma escapeCharCode_single (c : N) :
  escapeCharCode [c]
  = if (c =? 0)%N then [65533%N] else 92%N :: toString16 c ++ [32%N].
Proof.
  unfold escapeCharCode, jsstring_eqb.
  destruct (N.eqb_spec c 0) as [->|Hne]; [reflexivity|].
  rewrite bool_decide_eq_false_2 by congruence. reflexivity.
Qed.

Lemma identifierUnit_plain (c : N) :
  identifierUnit c = true -> isControl c = false /\ needsBackslash c = false.
Proof.
  unfold identifierUnit, needsBackslash, isControl, isWordChar, isDigit.
  intros H. split.
  - apply orb_false_iff. split; [apply N.leb_gt | apply N.eqb_neq];
      repeat (apply orb_true_iff in H as [H|H]);
      repeat (apply andb_true_iff in H as [? H]);
      repeat match goal with
             | H : (_ <=? _)%N = true |- _ => apply N.leb_le in H
             | H : (_ =? _)%N = true |- _ => apply N.eqb_eq in H
             end; lia.
  - apply negb_false_iff.
    repeat (apply orb_true_iff in H as [H|H]); rewrite ?H, ?orb_true_r;
      reflexivity.
Qed.

Lemma escapeRest_length (s : jsstring) :
  (length s <= length (escapeRest s))%nat.
Proof.
  induction s as [|c s IH]; cbn [escapeRest]; [done|].
  rewrite length_app. cbn [length].
  assert (1 <= length (if isControl c then escapeCharCode [c]
                       else if needsBackslash c then [92%N; c] else [c]))%nat;
    [|lia].
  destruct (isControl c); [|destruct (needsBackslash c); cbn; lia].
  rewrite escapeCharCode_single. destruct (c =? 0)%N; cbn; lia.
Qed.

Lemma escapeRest_fixed (s : jsstring) :
  escapeRest s = s <-> forallb identifierUnit s = true.
Proof.
  induction s as [|c s IH]; [done|].
  cbn [escapeRest forallb]. rewrite andb_true_iff, <- IH. split.
  - intros Heq.
    assert (Hlen := escapeRest_length s).
    destruct (isControl c) eqn:Hcontrol.
    { rewrite escapeCharCode_single in Heq.
      destruct (N.eqb_spec c 0) as [->|Hne]; [discriminate Heq|].
      injection Heq as Hc _. subst c. discriminate Hcontrol. }
    destruct (needsBackslash c) eqn:Hspecial.
    { injection Heq as Hc Hrest. subst c.
      apply (f_equal length) in Hrest. cbn [length] in Hrest. lia. }
    injection Heq as Hrest. split; [|exact Hrest].
    unfold needsBackslash in Hspecial. apply negb_false_iff in Hspecial.
    unfold identifierUnit.
    destruct (128 <=? c)%N, (isWordChar c), (c =? 45)%N; done.
  - intros [Hunit ->]. destruct (identifierUnit_plain c Hunit) as [-> ->].
    reflexivity.
Qed.

Example cssEscapePolyfill_samples :
  List.map cssEscapePolyfill
    [js "login-btn"; js "1a"; js "-1"; js "-"; js "a.b"; js "col:2"]
  = [js "login-btn"; [92%N] ++ js "31 a"; js "-" ++ [92%N] ++ js "31 ";
     [92%N] ++ js "-"; js "a" ++ [92%N] ++ js ".b";
     js "col" ++ [92%N] ++ js ":2"].
Proof. vm_compute. reflexivity. Qed.

(** What the fallback of [cssEscape] leaves alone. The escaped value is
    the value itself exactly when the value is made of units of the classes
    [\w], hyphen, and U+0080 and above, does not start with a digit or with
    a hyphen and a digit, and is not the hyphen alone; every other value
    comes back changed. *)
Theorem cssEscapePolyfill_fixed (value : jsstring) :
  cssEscapePolyfill value = value <-> plainIdentifier value = true.
Proof.
  unfold plainIdentifier. rewrite andb_true_iff.
  destruct value as [|c rest]; [done|].
  cbn [cssEscapePolyfill forallb]. rewrite andb_true_iff.
  rewrite <- escapeRest_fixed.
  assert (Hlen := escapeRest_length rest).
  assert (Hdigit : isDigit c = true -> identifierUnit c = true
                                       /\ isControl c = false
                                       /\ (c =? 45)%N = false
                                       /\ (c =? 0)%N = false).
  { intros Hc. assert (identifierUnit c = true) as Hunit.
    { unfold identifierUnit, isWordChar. by rewrite Hc. }
    split; [exact Hunit|]. split; [apply (identifierUnit_plain c Hunit)|].
    unfold isDigit in Hc. apply andb_true_iff in Hc as [Hlo Hhi].
    apply N.leb_le in Hlo. apply N.leb_le in Hhi.
    split; apply N.eqb_neq; lia. }
  destruct (isControl c) eqn:Hcontrol.
  { split.
    - rewrite escapeCharCode_single.
      destruct (N.eqb_spec c 0) as [->|Hne]; [discriminate|].
      intros Heq. injection Heq as Hc _. subst c. discriminate Hcontrol.
    - intros [[Hunit _] _].
      destruct (identifierUnit_plain c Hunit) as [Hno _]. congruence. }
  destruct rest as [|d rest'].
  - (* a single unit *)
    cbn [escapeRest forallb]. destruct (isDigit c) eqn:Hc.
    { destruct (Hdigit eq_refl) as (_ & _ & _ & Hzero).
      rewrite escapeCharCode_single, Hzero. split; [|by intros [_ [=]]].
      intros Heq. injection Heq as Heq _. subst c. discriminate Hc. }
    destruct (N.eqb_spec c 45) as [->|Hne].
    { split; [discriminate | by intros [_ [=]]]. }
    destruct (needsBackslash c) eqn:Hspecial.
    { split; [discriminate|]. intros [[Hunit _] _].
      destruct (identifierUnit_plain c Hunit) as [_ Hno]. congruence. }
    split; [|done]. intros _. repeat split.
    unfold needsBackslash in Hspecial. apply negb_false_iff in Hspecial.
    unfold identifierUnit.
    destruct (128 <=? c)%N, (isWordChar c), (c =? 45)%N; done.
  - (* two units or more *)
    cbv iota.
    destruct ((c =? 45)%N && isDigit d) eqn:Hdash.
    { apply andb_true_iff in Hdash as [->%N.eqb_eq Hd].
      split; [|intros [_ H]; vm_compute in H; discriminate H].
      unfold escapeCharCode, jsstring_eqb.
      rewrite bool_decide_eq_false_2 by discriminate.
      change (slice [45%N; d] 0 (Some (-1))) with [45%N].
      change (slice [45%N; d] (-1) None) with [d].
      cbn [app]. intros Heq. injection Heq as Heq _.
      subst d. discriminate Hd. }
    cbn [negb andb].
    destruct (isDigit c) eqn:Hc.
    { destruct (Hdigit eq_refl) as (_ & _ & _ & Hzero).
      rewrite escapeCharCode_single, Hzero. split; [|by intros [_ [=]]].
      intros Heq. injection Heq as Heq _. subst c. discriminate Hc. }
    cbn [negb andb].
    assert (Hlen2 := escapeRest_length (d :: rest')).
    destruct (needsBackslash c) eqn:Hspecial.
    { split.
      - cbn [app]. intros Heq. injection Heq as Hc' Hd' Hrest.
        apply (f_equal length) in Hrest. cbn [escapeRest length] in *. lia.
      - intros [[Hunit _] _].
        destruct (identifierUnit_plain c Hunit) as [_ Hno]. congruence. }
    cbn [app]. split.
    + intros Heq. injection Heq as Hrest. repeat split; try exact Hrest.
      unfold needsBackslash in Hspecial. apply negb_false_iff in Hspecial.
      unfold identifierUnit.
      destruct (128 <=? c)%N, (isWordChar c), (c =? 45)%N; done.
    + intros [[_ ->] _]. reflexivity.
Qed.

Section Strategies.
Context {ext : Externals}.
Variable config : SelectorConfig.

(** *** Text candidates *)

(** The text candidates and their bounds. A strategy never holds both
    text candidates. The exact text is the trimmed text content when that
    has between 1 and 50 units, and neither begins nor ends with white
    space; the containing text is made of the first 30 units of a trimmed
    text content of more than 50 units; an element without text content,
    or with white space only, has neither. *)
Theorem generateTextSelector_bounds (element : Element) :
  match generateTextSelector element with
  | (Some text, None) =>
      (1 <= length text <= 50)%nat
      /\ (exists raw : jsstring,
             textContent (node element) = Some raw /\ text = trim raw)
      /\ (forall c : N, head text = Some c -> isWhiteSpace c = false)
      /\ (forall c : N, last text = Some c -> isWhiteSpace c = false)
  | (None, Some prefix) =>
      length prefix = 30%nat
      /\ exists raw : jsstring,
           textContent (node element) = Some raw
           /\ (50 < length (trim raw))%nat /\ prefix = take 30 (trim raw)
  | (None, None) =>
      textContent (node element) = None
      \/ exists raw : jsstring,
           textContent (node element) = Some raw /\ trim raw = []
  | (Some _, Some _) => False
  end.
Proof.
  unfold generateTextSelector.
  destruct (textContent (node element)) as [raw|]; cbn [fmap option_fmap
    option_map]; [|by left].
  destruct (trim raw) as [|c text] eqn:Htrim; cbn [truthy negb].
  { right. by exists raw. }
  destruct (Nat.leb_spec (length (c :: text)) 50) as [Hshort|Hlong].
  - split; [cbn [length] in *; lia|].
    split; [exists raw; by rewrite Htrim|].
    rewrite <- Htrim.
    split; intros d Hd;
      [apply (proj1 (trim_ends raw d) Hd) | apply (proj2 (trim_ends raw d) Hd)].
  - split; [rewrite length_take; lia|].
    exists raw. rewrite Htrim. by repeat split.
Qed.

(** *** The CSS path *)

Lemma cssWalk_closed (element : Element) :
  forall (depth : Z) (parts : list jsstring),
    cssWalk config element depth parts
    = rev (take (Z.to_nat (maxCssDepth config - depth))
             (List.filter truthy
                (List.map getElementSelectorPart
                   (ancestorsBelowBody element))))
      ++ parts.
Proof.
  induction element as [n|n parent IH children]; intros depth parts;
    cbn [cssWalk ancestorsBelowBody List.map List.filter];
    [by rewrite take_nil|].
  destruct (Z.ltb_spec depth (maxCssDepth config)) as [Hbelow|Hreached];
    cbn [andb].
  2:{ replace (Z.to_nat (maxCssDepth config - depth)) with 0%nat by lia.
      reflexivity. }
  destruct (isBody (node parent)); cbn [negb List.map List.filter];
    [by rewrite take_nil|].
  destruct (truthy (getElementSelectorPart parent)).
  - rewrite IH.
    replace (Z.to_nat (maxCssDepth config - depth))
      with (S (Z.to_nat (maxCssDepth config - (depth + 1)))) by lia.
    cbn [take rev]. by rewrite <- app_assoc.
  - apply IH.
Qed.

(** The CSS path and its depth. The selector is the element's own part
    (tag name in lower case, up to three class names that do not look
    generated, the type of an input) preceded by the parts of its
    ancestors, nearest last and joined by " > ": of the ancestors below
    the body, those with a non-empty part, and of these the nearest
    [maxCssDepth] at most. *)
Theorem generateCssSelector_path (element : Element) :
  let ancestorParts :=
    take (Z.to_nat (maxCssDepth config))
      (List.filter truthy
         (List.map getElementSelectorPart (ancestorsBelowBody element))) in
  let n := node element in
  let classes :=
    take 3 (List.filter (fun cls => negb (isDynamicClass cls))
              (classList n)) in
  let own :=
    toLowerCase (tagName n)
      ++ concat (List.map (fun cls => js "." ++ cssEscape cls) classes)
      ++ (if bool_decide (interface n = HTMLInputElement) && truthy (type_ n)
          then js "[type=" ++ [quote] ++ type_ n ++ [quote] ++ js "]"
          else []) in
  generateCssSelector config element
  = join (js " > ") (rev ancestorParts ++ [own])
  /\ (length (rev ancestorParts ++ [own])
      <= S (Z.to_nat (maxCssDepth config)))%nat.
Proof.
  intros ancestorParts n classes own. split.
  - unfold generateCssSelector. rewrite cssWalk_closed.
    rewrite Z.sub_0_r. fold n. fold ancestorParts. do 2 f_equal.
    subst own. fold classes.
    destruct (interface n); cbn [bool_decide decide_rel]; 
      rewrite ?bool_decide_eq_true_2 by reflexivity;
      rewrite ?bool_decide_eq_false_2 by discriminate; cbn [andb];
      try (destruct classes; cbn [length Nat.ltb Nat.leb concat app List.map];
           rewrite ?app_nil_r; reflexivity).
    destruct (truthy (type_ n)), classes;
      cbn [length Nat.ltb Nat.leb concat app List.map];
      rewrite ?app_nil_r, <- ?app_assoc; reflexivity.
  - rewrite length_app, length_rev. subst ancestorParts.
    rewrite length_take. cbn [length]. lia.
Qed.

(** *** Generated strategies and the validator *)

Lemma generateRelativeXPath_nonempty (element : Element) :
  truthy (generateRelativeXPath element) = true.
Proof.
  unfold generateRelativeXPath.
  destruct (truthy (id (node element))
            && negb (isDynamicId (id (node element)))); [reflexivity|].
  destruct (getAttribute (node element) (js "data-testid")) as [[|c v]|];
    try reflexivity;
    destruct (bool_decide (interface (node element) = HTMLInputElement)
              && truthy (name (node element))); try reflexivity;
    destruct ((0 <? length (classList (node element)))%nat && _);
    reflexivity.
Qed.

Lemma populated_namesString (element : Element) (key : SelectorType) :
  s_position (generateSelectors config element) = None ->
  populated (generateSelectors config element) key = true ->
  namesString (generateSelectors config element) key.
Proof.
  unfold populated, namesString. intros Hposition Hpopulated.
  destruct (Validator.selectorValue (generateSelectors config element) key)
    as [|[|c v]|parent index] eqn:Hvalue; try discriminate Hpopulated.
  - by exists (c :: v).
  - destruct key; cbn [Validator.selectorValue] in Hvalue;
      try (unfold Validator.ofString in Hvalue;
           match type of Hvalue with
           | match ?x with _ => _ end = _ => destruct x
           end; discriminate Hvalue).
    by rewrite Hposition in Hvalue.
Qed.

(** Generated strategies before the validator. A strategy that
    [generateSelectors] produced without a position candidate is accepted
    by [validateSelector] as soon as it holds any candidate at all, which
    is always the case when the XPath candidates are switched on. A
    strategy produced with a position candidate is always rejected: its
    priority names "position", whose value is an object. *)
Theorem generated_strategy_validity (element : Element) :
  let s := generateSelectors config element in
  (s_position s = None ->
   (Validator.isValid (Validator.validateSelector s) = true
    <-> s_priority s <> []))
  /\ (includeXPath config = true -> s_position s = None ->
      Validator.isValid (Validator.validateSelector s) = true)
  /\ (s_position s <> None ->
      TPosition ∈ s_priority s
      /\ Validator.isValid (Validator.validateSelector s) = false).
Proof.
  intros s.
  assert (Hiff : Validator.isValid (Validator.validateSelector s) = true
                 <-> s_priority s <> []
                     /\ Forall (namesString s) (s_priority s)).
  { rewrite ValidatorFacts.isValid_validateSelector.
    apply ValidatorFacts.validateSelector_no_errors. }
  assert (Hnone : s_position s = None ->
                  (Validator.isValid (Validator.validateSelector s) = true
                   <-> s_priority s <> [])).
  { intros Hposition. rewrite Hiff. split; [tauto|]. intros Hne.
    split; [exact Hne|]. subst s.
    rewrite priority_is_filtered_precedence. apply Forall_forall.
    intros key Hkey. apply list_elem_of_In, filter_In in Hkey as [_ Hkey].
    by apply populated_namesString. }
  split; [exact Hnone|]. split.
  - intros Hxpath Hposition. apply Hnone; [exact Hposition|].
    intros Hnil.
    assert (Hin : TXpath ∈ s_priority s).
    { subst s. rewrite priority_is_filtered_precedence.
      apply list_elem_of_In, filter_In. split.
      - unfold precedence. cbn [In].
        repeat (first [left; reflexivity | right]).
      - unfold populated, generateSelectors.
        cbn [Validator.selectorValue s_xpath]. rewrite Hxpath.
        unfold keep. rewrite truthyValue_ofString, truthyo_orUndefined.
        apply generateRelativeXPath_nonempty. }
    rewrite Hnil in Hin. by apply elem_of_nil in Hin.
  - intros Hposition.
    assert (Hin : TPosition ∈ s_priority s).
    { subst s. rewrite priority_is_filtered_precedence.
      apply list_elem_of_In, filter_In. split.
      - unfold precedence. cbn [In].
        repeat (first [left; reflexivity | right]).
      - unfold populated. cbn [Validator.selectorValue].
        by destruct (s_position (generateSelectors config element))
             as [[? ?]|]. }
    split; [exact Hin|]. apply not_true_is_false. intros Hvalid.
    apply Hiff in Hvalid as [_ Hall]. rewrite Forall_forall in Hall.
    by apply (ValidatorFacts.position_names_no_string s), Hall.
Qed.

End Strategies.

Lemma generated_strategy_validity_witness :
  let withPosition :=
    generateSelectors (ext := Host.example) fullConfig
      (buttonElement (js "login-btn")) in
  let withoutPosition :=
    generateSelectors (ext := Host.example)
      (mkConfig true false 5) (buttonElement (js "login-btn")) in
  Validator.isValid (Validator.validateSelector withPosition) = false
  /\ Validator.isValid (Validator.validateSelector withoutPosition) = true.
Proof.
  cbv zeta. split.
  - refine (proj2 (proj2 (proj2 (generated_strategy_validity
                                   (ext := Host.example) fullConfig
                                   (buttonElement (js "login-btn")))) _)).
    vm_compute. discriminate.
  - exact (proj1 (proj2 (generated_strategy_validity (ext := Host.example)
                           (mkConfig true false 5)
                           (buttonElement (js "login-btn"))))
             eq_refl eq_refl).
Defined.

End SelectorGeneratorFacts.

Module EventListenerFacts.
Import JS Types Dom EventListener Examples.

Section WithExternals.
Context {ext : Externals}.
Variable config : SelectorGenerator.SelectorConfig.
Variable href : jsstring.

Lemma createClickAction_action (l : Listener) (event : MouseEvent)
    (target : Element) (clickCount timestamp : Z) :
  let a := snd (createClickAction config l event target clickCount timestamp
                  href) in
  a_type a = js "click" /\ a_clickCount a = Some clickCount
  /\ a_timestamp a = timestamp
  /\ a_id a = generateActionId (S (actionSequence l)).
Proof. repeat split. Qed.

Lemma createClickAction_listener (l : Listener) (event : MouseEvent)
    (target : Element) (clickCount timestamp : Z) :
  fst (createClickAction config l event target clickCount timestamp href)
  = mkListener (isListening l) (S (actionSequence l)) (lastClickTarget l)
      (lastClickTime l).
Proof. reflexivity. Qed.

(** Whatever the handlers hand to the callback is a click action. *)
Lemma dispatch_emits_clicks (l : Listener) (e : PointerEvent) :
  Forall (fun a => a_type a = js "click")
         (emitted (snd (dispatch config href l e))).
Proof.
  destruct e as [event now timestamp|event timestamp|event timestamp];
    cbn [dispatch]; unfold onClick, onMouseDown, onDoubleClick;
    destruct (isListening l); cbn [negb snd emitted omap];
    try (by constructor);
    destruct (findInteractiveElement (target event)) as [t|];
    cbn [snd emitted]; try (by constructor).
  - destruct (isLastClickTarget l t && _); [by constructor|].
    destruct (isNavigationClick t); repeat constructor.
  - destruct (isNavigationClick t); repeat constructor.
Qed.

Lemma run_emits_clicks (events : list PointerEvent) (l : Listener) :
  Forall (fun a => a_type a = js "click") (snd (run config href l events)).
Proof.
  revert l. induction events as [|e events IH]; intros l; cbn [run].
  - constructor.
  - pose proof (dispatch_emits_clicks l e) as He.
    destruct (dispatch config href l e) as [l1 effects].
    specialize (IH l1). destruct (run config href l1 events) as [l2 actions].
    cbn [snd] in *. by apply Forall_app.
Qed.

(** Whatever any handler or timer callback hands to the callback has one
    of the seven types of action. *)
Lemma dispatch_types (location : jsstring) (l : Listener)
    (e : PointerEvent) :
  Forall (fun a => a_type a = js "click")
         (emitted (snd (dispatch config location l e))).
Proof.
  destruct e as [event now timestamp|event timestamp|event timestamp];
    cbn [dispatch]; unfold onClick, onMouseDown, onDoubleClick;
    destruct (isListening l); cbn [negb snd emitted omap];
    try (by constructor);
    destruct (findInteractiveElement (target event)) as [t|];
    cbn [snd emitted]; try (by constructor).
  - destruct (isLastClickTarget l t && _); [by constructor|].
    destruct (isNavigationClick t); repeat constructor.
  - destruct (isNavigationClick t); repeat constructor.
Qed.

Lemma handleEvent_types (p : Page) (e : DomEvent) :
  Forall (fun c : Captured => a_type c.1 ∈ actionTypes)
         (handleEvent config p e).2.
Proof.
  destruct p as [[l inputTimer scrollTimer element began count] t].
  destruct e as [location e|target now|target selected timestamp location
                 |target timestamp location|event timestamp location|
                 |referrer timestamp location|handle page| | |];
    cbn [handleEvent fields timers pointer snd].
  - pose proof (dispatch_types location l e) as Hclicks.
    destruct (dispatch config location l e) as [l1 effects].
    cbn [snd] in *. apply Forall_map.
    eapply Forall_impl; [exact Hclicks|].
    intros a Ha. cbn [fst]. rewrite Ha. apply list_elem_of_here.
  - constructor.
  - unfold onFields, onChange, captureSelectAction, advance.
    cbn [fields pointer snd fst]. repeat case_match; cbn [snd];
      repeat constructor; cbn [fst a_type]; unfold actionTypes;
      apply list_elem_of_In; cbn [In]; tauto.
  - unfold onFields, onSubmit, advance.
    cbn [fields pointer snd fst]. repeat case_match; cbn [snd];
      repeat constructor; cbn [fst a_type]; unfold actionTypes;
      apply list_elem_of_In; cbn [In]; tauto.
  - unfold onFields, onKeyDown, advance.
    cbn [fields pointer snd fst]. repeat case_match; cbn [snd];
      repeat constructor; cbn [fst a_type]; unfold actionTypes;
      apply list_elem_of_In; cbn [In]; tauto.
  - constructor.
  - unfold onFields, onPopState, advance.
    cbn [fields pointer snd fst]. repeat case_match; cbn [snd];
      repeat constructor; cbn [fst a_type]; unfold actionTypes;
      apply list_elem_of_In; cbn [In]; tauto.
  - unfold fire, inputCallback, captureInputAction, captureScrollAction,
      advance.
    cbn [fields pointer timers pendingInputElement snd fst].
    repeat case_match; simplify_eq; cbn [snd];
      repeat constructor; cbn [fst a_type]; unfold actionTypes;
      apply list_elem_of_In; cbn [In]; tauto.
  - constructor.
  - constructor.
  - constructor.
Qed.

Lemma handleEvents_types (events : list DomEvent) (p : Page) :
  Forall (fun c : Captured => a_type c.1 ∈ actionTypes)
         (handleEvents config p events).2.
Proof.
  revert p. induction events as [|e events IH]; intros p;
    cbn [handleEvents]; [constructor|].
  pose proof (handleEvent_types p e) as He.
  destruct (handleEvent config p e) as [p1 out].
  specialize (IH p1). destruct (handleEvents config p1 events) as [p2 out'].
  cbn [snd] in *. by apply Forall_app.
Qed.

Lemma no_doubleclick_among_types (actions : list Action) :
  Forall (fun a => a_type a ∈ actionTypes) actions ->
  countType (js "doubleclick") actions = 0%nat.
Proof.
  unfold countType. induction 1 as [|a actions Ha _ IH]; [reflexivity|].
  cbn [List.filter].
  assert (Hother : jsstring_eqb (a_type a) (js "doubleclick") = false).
  { apply bool_decide_eq_false_2. intros Heq. rewrite Heq in Ha.
    apply list_elem_of_In in Ha. cbn [actionTypes In] in Ha.
    repeat (destruct Ha as [Ha|Ha]; [discriminate Ha|]). exact Ha. }
  rewrite Hother. exact IH.
Qed.

(** C8 (as amended). Two click events within 500 ms on the same interactive
    target, followed by the dblclick event: [onClick] emits one action for
    the first click (type "click", clickCount 1) and none for the second,
    and [onDoubleClick] emits exactly one action, whose type is "click" and
    whose clickCount is 2. No handler ever emits an action of type
    "doubleclick": whatever the pointer handlers hand to the callback is a
    click, and over any sequence of events, timers and calls every action
    that any handler or timer callback of the class hands over has one of
    the types click, input, select, submit, keypress, scroll and
    navigation. *)
Theorem double_click_emits_click_with_count_two
    (l : Listener) (first second dbl : MouseEvent) (t : Element)
    (now1 now2 ts1 ts2 ts3 : Z) :
  isListening l = true ->
  findInteractiveElement (target first) = Some t ->
  findInteractiveElement (target second) = Some t ->
  findInteractiveElement (target dbl) = Some t ->
  isLastClickTarget l t && (now1 - lastClickTime l <? 500) = false ->
  now2 - now1 < 500 ->
  (exists a1 a2 : Action,
      snd (run config href l
             [Click first now1 ts1; Click second now2 ts2; DblClick dbl ts3])
      = [a1; a2]
      /\ a_type a1 = js "click" /\ a_clickCount a1 = Some 1
      /\ a_timestamp a1 = ts1
      /\ a_type a2 = js "click" /\ a_clickCount a2 = Some 2
      /\ a_timestamp a2 = ts3)
  /\ emitted (snd (onClick config
                     (fst (onClick config l first now1 ts1 href))
                     second now2 ts2 href)) = []
  /\ (forall (events : list PointerEvent) (l0 : Listener),
        countType (js "doubleclick") (snd (run config href l0 events))
        = 0%nat)
  /\ (forall (events : list DomEvent) (p : Page),
        Forall (fun c : Captured => a_type c.1 ∈ actionTypes)
               (handleEvents config p events).2
        /\ countType (js "doubleclick")
             (List.map fst (handleEvents config p events).2)
           = 0%nat).
Proof.
  intros Hlisten Hfirst Hsecond Hdbl Hfresh Hclose.
  assert (Hsame : sameNode (node t) (node t) = true)
    by apply Nat.eqb_refl.
  assert (Hlt : (now2 - now1 <? 500) = true) by (apply Z.ltb_lt; lia).
  assert (Hstep1 : exists l1,
             onClick config l first now1 ts1 href
             = (l1, if isNavigationClick t
                    then [PreventDefault; StopPropagation;
                          Emit (snd (createClickAction config
                                  (mkListener true (actionSequence l)
                                     (Some t) now1) first t 1 ts1 href));
                          SetTimeoutClick t 50]
                    else [Emit (snd (createClickAction config
                                  (mkListener true (actionSequence l)
                                     (Some t) now1) first t 1 ts1 href))])
             /\ isListening l1 = true /\ lastClickTarget l1 = Some t
             /\ lastClickTime l1 = now1).
  { unfold onClick. rewrite Hlisten, Hfirst, Hfresh. cbn [negb].
    destruct (isNavigationClick t); eexists; repeat split. }
  destruct Hstep1 as (l1 & Hone & Hl1 & Htarget & Htime).
  assert (Htwo : onClick config l1 second now2 ts2 href
                 = (mkListener true (actionSequence l1) (Some t) now2, [])).
  { unfold onClick, isLastClickTarget.
    rewrite Hl1, Hsecond, Htarget, Htime, Hsame, Hlt. reflexivity. }
  split; [|split; [|split]].
  - cbn [run dispatch]. rewrite Hone, Htwo.
    unfold onDoubleClick. cbn [isListening negb]. rewrite Hdbl.
    cbn [fst snd emitted omap app].
    destruct (isNavigationClick t); cbn [emitted omap app];
      eexists _, _; repeat split.
  - rewrite Hone. cbn [fst]. rewrite Htwo. reflexivity.
  - intros events l0. unfold countType.
    pose proof (run_emits_clicks events l0) as Hclicks.
    induction Hclicks as [|a actions Ha _ IH]; [reflexivity|].
    cbn [List.filter]. rewrite Ha. apply IH.
  - intros events p.
    pose proof (handleEvents_types events p) as Htypes.
    split; [exact Htypes|].
    apply no_doubleclick_among_types, Forall_map.
    exact Htypes.
Qed.

End WithExternals.

Lemma double_click_emits_click_with_count_two_witness :
  let actions :=
    snd (run (ext := Host.example) fullConfig (js "https://example.com/")
           freshListener
           [Click pressLogin 1000 1000; Click pressLogin 1200 1200;
            DblClick pressLogin 1201]) in
  List.map a_clickCount actions = [Some 1; Some 2]
  /\ countType (js "doubleclick") actions = 0%nat.
Proof.
  pose proof (double_click_emits_click_with_count_two (ext := Host.example)
                fullConfig (js "https://example.com/") freshListener
                pressLogin pressLogin pressLogin
                (buttonElement (js "login-btn")) 1000 1200 1000 1200 1201
                eq_refl eq_refl eq_refl eq_refl eq_refl eq_refl)
    as (_ & _ & Hnone & _).
  split; [vm_compute; reflexivity | apply Hnone].
Defined.

(** C8 fails as stated: a double click on the login button (click, click
    200 ms later, dblclick) is reported as two actions of type "click",
    with clickCount 1 and 2, and a double click on a [<div role="button">],
    with its mousedown events, as four; the number of actions of type
    "doubleclick" is zero, not one. *)
Lemma double_click_counterexample :
  let onSubmitButton :=
    snd (run (ext := Host.example) fullConfig (js "https://example.com/")
           freshListener
           [Click pressLogin 1000 1000; Click pressLogin 1200 1200;
            DblClick pressLogin 1201]) in
  let onDivButton :=
    snd (run (ext := Host.example) fullConfig (js "https://example.com/")
           freshListener
           [MouseDown pressLike 990; Click pressLike 1000 1000;
            MouseDown pressLike 1190; Click pressLike 1200 1200;
            DblClick pressLike 1201]) in
  List.map a_type onSubmitButton = [js "click"; js "click"]
  /\ List.map a_clickCount onSubmitButton = [Some 1; Some 2]
  /\ countType (js "doubleclick") onSubmitButton <> 1%nat
  /\ List.map a_clickCount onDivButton = [Some 1; Some 1; Some 1; Some 2]
  /\ countType (js "click") onDivButton = 4%nat
  /\ countType (js "doubleclick") onDivButton <> 1%nat.
Proof.
  cbv zeta. repeat split; try (vm_compute; reflexivity);
    vm_compute; discriminate.
Qed.

(** *** The walk to the interactive element *)

Section Walk.
Context {ext : Externals}.

(** [findInteractiveElement] in closed form. Nothing is found for the
    body and for an element that is the recording indicator or lies inside
    it, whether it is interactive or not; for any other element the result
    is the nearest interactive one among the element and its ancestors
    below the body. *)
Theorem findInteractiveElement_closed_form (element : Element) :
  findInteractiveElement element
  = if isBody (node element) then None
    else if closestId element indicatorId then None
    else List.find isInteractiveElement
           (element :: ancestorsBelowBody element).
Proof.
  induction element as [n|n parent IH cs].
  - cbn [findInteractiveElement node closestId ancestorsBelowBody List.find].
    destruct (isBody n); [reflexivity|].
    rewrite orb_diag. destruct (jsstring_eqb (id n) indicatorId);
      [reflexivity|].
    by destruct (isInteractiveElement (Detached n)).
  - cbn [findInteractiveElement node closestId ancestorsBelowBody List.find].
    destruct (isBody n); [reflexivity|].
    destruct (jsstring_eqb (id n) indicatorId); [reflexivity|].
    cbn [orb].
    destruct (closestId parent indicatorId) eqn:Hclosest; [reflexivity|].
    destruct (isInteractiveElement (Child n parent cs)); [reflexivity|].
    rewrite IH.
    by destruct (isBody (node parent)).
Qed.

End Walk.

(** *** All the handlers *)

Section Handlers.
Context {ext : Externals}.
Variable config : SelectorGenerator.SelectorConfig.

(** Going through the branches of a handler. *)
Ltac handler_cases :=
  cbn [fields pointer timers isListening actionSequence lastClickTarget
       lastClickTime inputDebounceTimer scrollDebounceTimer
       pendingInputElement typingStartTime keyCount negb fst snd withPointer
       setTimeout];
  repeat case_match; simplify_eq;
  cbn [fields pointer timers isListening actionSequence fst snd length seq
       List.map a_id withPointer];
  first [ reflexivity | lia | (split; [reflexivity|lia]) ].

Lemma dispatch_numbering (href : jsstring) (l : Listener)
    (e : PointerEvent) :
  List.map a_id (emitted (dispatch config href l e).2)
  = List.map generateActionId
      (seq (S (actionSequence l))
         (length (emitted (dispatch config href l e).2)))
  /\ actionSequence (dispatch config href l e).1
     = (actionSequence l
        + length (emitted (dispatch config href l e).2))%nat.
Proof.
  destruct e as [event now timestamp|event timestamp|event timestamp];
    cbn [dispatch]; unfold onClick, onMouseDown, onDoubleClick;
    destruct (isListening l); cbn [negb fst snd emitted omap list_omap length seq
                                   List.map];
    try (split; [reflexivity|lia]);
    destruct (findInteractiveElement (target event)) as [t|];
    cbn [fst snd emitted omap list_omap length seq List.map];
    try (split; [reflexivity|lia]).
  - destruct (isLastClickTarget l t && _);
      [cbn [fst snd emitted omap list_omap length seq List.map actionSequence];
       split; [reflexivity|lia]|].
    destruct (isNavigationClick t);
      cbn [createClickAction fst snd emitted omap list_omap length seq List.map
           actionSequence a_id]; (split; [reflexivity|lia]).
  - destruct (isNavigationClick t);
      cbn [createClickAction fst snd emitted omap list_omap length seq List.map
           actionSequence a_id]; (split; [reflexivity|lia]).
  - cbn [createClickAction fst snd emitted omap list_omap length seq List.map
         actionSequence a_id]. split; [reflexivity|lia].
Qed.

Lemma handleEvent_numbering (p : Page) (e : DomEvent) :
  List.map (fun c => a_id c.1) (handleEvent config p e).2
  = List.map generateActionId
      (seq (S (actionSequence (pointer (fields p))))
         (length (handleEvent config p e).2))
  /\ actionSequence (pointer (fields (handleEvent config p e).1))
     = (actionSequence (pointer (fields p))
        + length (handleEvent config p e).2)%nat.
Proof.
  destruct p as [[l inputTimer scrollTimer element began count] t].
  destruct e as [href e|target now|target selected timestamp href
                 |target timestamp href|event timestamp href|
                 |referrer timestamp href|handle page| | |];
    cbn [handleEvent fields timers pointer].
  - pose proof (dispatch_numbering href l e) as [Hids Hseq].
    destruct (dispatch config href l e) as [l1 effects].
    cbn [fst snd fields pointer withPointer] in *.
    rewrite List.map_map, length_map. cbn [fst]. by split.
  - cbn [snd fst length seq List.map]. split; [reflexivity|].
    rewrite Nat.add_0_r. unfold onInput. handler_cases.
  - unfold onFields, onChange, captureSelectAction, advance.
    handler_cases.
  - unfold onFields, onSubmit, advance. handler_cases.
  - unfold onFields, onKeyDown, advance. handler_cases.
  - cbn [snd fst length seq List.map]. split; [reflexivity|].
    rewrite Nat.add_0_r. unfold onScroll. handler_cases.
  - unfold onFields, onPopState, advance. handler_cases.
  - unfold fire, inputCallback, captureInputAction, captureScrollAction,
      advance. handler_cases.
  - unfold start, withListening, withPointer. handler_cases.
  - unfold stop, withListening, withPointer. handler_cases.
  - unfold destroy, stop, withListening, withPointer. handler_cases.
Qed.

(** The numbering of the captured actions. Over any sequence of events,
    timers and calls, the actions handed to the callback carry the ids that
    [generateActionId] makes of the sequence numbers following the one the
    object held, in order and without a gap, and the object ends up holding
    the last of them. *)
Theorem captured_ids_are_consecutive (events : list DomEvent) (p : Page) :
  List.map (fun c => a_id c.1) (handleEvents config p events).2
  = List.map generateActionId
      (seq (S (actionSequence (pointer (fields p))))
         (length (handleEvents config p events).2))
  /\ actionSequence (pointer (fields (handleEvents config p events).1))
     = (actionSequence (pointer (fields p))
        + length (handleEvents config p events).2)%nat.
Proof.
  revert p. induction events as [|e events IH]; intros p;
    cbn [handleEvents].
  - cbn [fst snd length seq List.map]. split; [reflexivity|lia].
  - pose proof (handleEvent_numbering p e) as [Hids Hseq].
    destruct (handleEvent config p e) as [p1 out]. cbn [fst snd] in Hids, Hseq.
    specialize (IH p1) as [IHids IHseq].
    destruct (handleEvents config p1 events) as [p2 out'].
    cbn [fst snd] in *.
    rewrite List.map_app, length_app, seq_app, List.map_app.
    split; [|lia]. rewrite Hseq in IHids. f_equal; [exact Hids|exact IHids].
Qed.

(** *** The debounce timers *)

Lemma tidy_newEventListener : tidy newEventListener.
Proof. intros handle callback delay Hpending. by cbn in Hpending. Qed.

Lemma tidy_same_timers (p p' : Page) :
  timers p' = timers p ->
  inputDebounceTimer (fields p') = inputDebounceTimer (fields p) ->
  scrollDebounceTimer (fields p') = scrollDebounceTimer (fields p) ->
  pendingInputElement (fields p') = pendingInputElement (fields p) ->
  tidy p -> tidy p'.
Proof.
  intros Htimers Hinput Hscroll Helement Htidy handle callback delay.
  rewrite Htimers, Hinput, Hscroll, Helement. apply Htidy.
Qed.

Lemma onInput_keeps_tidy (p : Page) (target : option Element) (now : Z) :
  tidy p -> tidy (onInput p target now).
Proof.
  intros Htidy. unfold onInput.
  destruct (isListening (pointer (fields p))); cbn [negb]; [|exact Htidy].
  destruct target as [target|]; [|exact Htidy].
  destruct (negb _ && negb _); [exact Htidy|].
  destruct (if typingStartTime (fields p) =? 0 then _ else _)
    as [began count].
  intros handle callback delay. cbn [setTimeout fields timers pending
    nextHandle inputDebounceTimer scrollDebounceTimer pendingInputElement].
  assert (Hnext : nextHandle
                    match inputDebounceTimer (fields p) with
                    | Some old => clearTimeout old (timers p)
                    | None => timers p
                    end = nextHandle (timers p))
    by (by destruct (inputDebounceTimer (fields p))).
  rewrite Hnext.
  destruct (decide (handle = nextHandle (timers p))) as [->|Hother].
  - rewrite lookup_insert_eq. intros [= <- <-].
    split; [lia|]. by repeat split.
  - rewrite lookup_insert_ne by done. intros Hpending.
    assert (Hwas : pending (timers p) !! handle = Some (callback, delay)
                   /\ inputDebounceTimer (fields p) <> Some handle).
    { destruct (inputDebounceTimer (fields p)) as [old|];
        cbn [clearTimeout pending] in Hpending; [|done].
      destruct (decide (old = handle)) as [->|Hold].
      - by rewrite lookup_delete_eq in Hpending.
      - rewrite lookup_delete_ne in Hpending by done.
        split; [done|]. by intros [= ->]. }
    destruct Hwas as [Hwas Hnot].
    destruct (Htidy handle callback delay Hwas) as [Hbelow Hheld].
    split; [lia|]. destruct callback; [|exact Hheld].
    by destruct Hheld as (_ & Hheld & _).
Qed.

Lemma onScroll_keeps_tidy (p : Page) : tidy p -> tidy (onScroll p).
Proof.
  intros Htidy. unfold onScroll.
  destruct (isListening (pointer (fields p))); cbn [negb]; [|exact Htidy].
  intros handle callback delay. cbn [setTimeout fields timers pending
    nextHandle inputDebounceTimer scrollDebounceTimer pendingInputElement].
  assert (Hnext : nextHandle
                    match scrollDebounceTimer (fields p) with
                    | Some old => clearTimeout old (timers p)
                    | None => timers p
                    end = nextHandle (timers p))
    by (by destruct (scrollDebounceTimer (fields p))).
  rewrite Hnext.
  destruct (decide (handle = nextHandle (timers p))) as [->|Hother].
  - rewrite lookup_insert_eq. intros [= <- <-].
    split; [lia|]. by split.
  - rewrite lookup_insert_ne by done. intros Hpending.
    assert (Hwas : pending (timers p) !! handle = Some (callback, delay)
                   /\ scrollDebounceTimer (fields p) <> Some handle).
    { destruct (scrollDebounceTimer (fields p)) as [old|];
        cbn [clearTimeout pending] in Hpending; [|done].
      destruct (decide (old = handle)) as [->|Hold].
      - by rewrite lookup_delete_eq in Hpending.
      - rewrite lookup_delete_ne in Hpending by done.
        split; [done|]. by intros [= ->]. }
    destruct Hwas as [Hwas Hnot].
    destruct (Htidy handle callback delay Hwas) as [Hbelow Hheld].
    split; [lia|]. destruct callback; [exact Hheld|].
    by destruct Hheld as (_ & Hheld).
Qed.

Lemma fire_keeps_tidy (p : Page) (handle : positive) (page : Readings) :
  tidy p -> tidy (fire config p handle page).1.
Proof.
  intros Htidy. unfold fire.
  destruct (pending (timers p) !! handle) as [[[] delay]|] eqn:Hfired;
    [| |exact Htidy].
  - destruct (Htidy handle _ _ Hfired) as (_ & _ & Hheld & [el Hel]).
    unfold inputCallback, captureInputAction, advance. rewrite Hel.
    intros other callback delay'.
    cbn [fst fields timers pendingInputElement inputDebounceTimer
         scrollDebounceTimer withPointer clearTimeout pending nextHandle].
    destruct (decide (other = handle)) as [->|Hother];
      [by rewrite lookup_delete_eq|].
    rewrite lookup_delete_ne by done. intros Hpending.
    destruct (Htidy other callback delay' Hpending) as [Hbelow Hother'].
    split; [done|]. destruct callback; [|exact Hother'].
    destruct Hother' as (_ & Hsame & _). congruence.
  - destruct (Htidy handle _ _ Hfired) as (_ & _ & Hheld).
    unfold captureScrollAction, advance.
    intros other callback delay'.
    cbn [fst fields timers pendingInputElement inputDebounceTimer
         scrollDebounceTimer withPointer clearTimeout pending nextHandle].
    destruct (decide (other = handle)) as [->|Hother];
      [by rewrite lookup_delete_eq|].
    rewrite lookup_delete_ne by done. intros Hpending.
    exact (Htidy other callback delay' Hpending).
Qed.

Lemma destroy_quiet (p : Page) : tidy p -> quiet (destroy p).
Proof.
  intros Htidy. unfold destroy, quiet.
  assert (Hinput : inputDebounceTimer (stop (fields p))
                   = inputDebounceTimer (fields p))
    by (unfold stop; by destruct (isListening (pointer (fields p)))).
  assert (Hscroll : scrollDebounceTimer (stop (fields p))
                    = scrollDebounceTimer (fields p))
    by (unfold stop; by destruct (isListening (pointer (fields p)))).
  rewrite Hinput, Hscroll. cbn [fields timers]. split.
  { unfold stop. by destruct (isListening (pointer (fields p))) eqn:H. }
  apply map_empty. intros handle.
  destruct (pending (timers p) !! handle) as [[callback delay]|] eqn:Hwas.
  - destruct (Htidy handle callback delay Hwas) as [_ Hheld].
    destruct callback.
    + destruct Hheld as (_ & -> & _).
      destruct (scrollDebounceTimer (fields p)) as [other|];
        cbn [clearTimeout pending].
      * destruct (decide (other = handle)) as [->|Hother];
          [by rewrite lookup_delete_eq|].
        rewrite lookup_delete_ne by done. by rewrite lookup_delete_eq.
      * by rewrite lookup_delete_eq.
    + destruct Hheld as (_ & ->). cbn [clearTimeout pending].
      by rewrite lookup_delete_eq.
  - destruct (inputDebounceTimer (fields p)) as [i|],
      (scrollDebounceTimer (fields p)) as [s|];
      cbn [clearTimeout pending];
      repeat (rewrite lookup_delete_None; right); exact Hwas.
Qed.

Lemma handleEvent_keeps_tidy (p : Page) (e : DomEvent) :
  tidy p -> tidy (handleEvent config p e).1.
Proof.
  intros Htidy.
  destruct e as [href e|target now|target selected timestamp href
                 |target timestamp href|event timestamp href|
                 |referrer timestamp href|handle page| | |];
    cbn [handleEvent].
  - destruct (dispatch config href (pointer (fields p)) e) as [l effects].
    by apply (tidy_same_timers p).
  - by apply onInput_keeps_tidy.
  - apply (tidy_same_timers p); try done;
      unfold onFields, onChange, captureSelectAction, advance;
      cbn [fst fields]; repeat case_match; reflexivity.
  - apply (tidy_same_timers p); try done;
      unfold onFields, onSubmit, advance;
      cbn [fst fields]; repeat case_match; reflexivity.
  - apply (tidy_same_timers p); try done;
      unfold onFields, onKeyDown, advance;
      cbn [fst fields]; repeat case_match; reflexivity.
  - by apply onScroll_keeps_tidy.
  - apply (tidy_same_timers p); try done;
      unfold onFields, onPopState, advance;
      cbn [fst fields]; repeat case_match; reflexivity.
  - by apply fire_keeps_tidy.
  - apply (tidy_same_timers p); try done;
      unfold start; cbn [fst fields]; repeat case_match; reflexivity.
  - apply (tidy_same_timers p); try done;
      unfold stop; cbn [fst fields]; repeat case_match; reflexivity.
  - cbn [fst]. destruct (destroy_quiet p Htidy) as [_ Hnone].
    intros handle callback delay. by rewrite Hnone.
Qed.

Lemma handleEvents_keeps_tidy (events : list DomEvent) (p : Page) :
  tidy p -> tidy (handleEvents config p events).1.
Proof.
  revert p. induction events as [|e events IH]; intros p Htidy;
    cbn [handleEvents]; [exact Htidy|].
  pose proof (handleEvent_keeps_tidy p e Htidy) as Hstep.
  destruct (handleEvent config p e) as [p1 out]. cbn [fst] in Hstep.
  specialize (IH p1 Hstep).
  by destruct (handleEvents config p1 events) as [p2 out'].
Qed.

Lemma fire_pending (p : Page) (handle : positive)
    (callback : TimerCallback) (delay : Z) (page : Readings) :
  pending (timers p) !! handle = Some (callback, delay) ->
  (callback = InputCallback -> is_Some (pendingInputElement (fields p))) ->
  exists c : Captured,
    (fire config p handle page).2 = [c]
    /\ a_type c.1 = capturedType callback.
Proof.
  intros Hpending Helement. unfold fire. rewrite Hpending.
  destruct callback.
  - destruct (Helement eq_refl) as [el Hel].
    unfold inputCallback, captureInputAction, advance. rewrite Hel.
    eexists. split; reflexivity.
  - unfold captureScrollAction, advance. eexists. split; reflexivity.
Qed.

(** One timer for each of the two debounced handlers. Whatever events,
    timers and calls the object has seen since it was made, a pending
    timer is the one whose handle the object holds in the field of its
    handler, with that handler's delay: 500 ms for the input timer, 200 ms
    for the scroll timer. So two pending timers with the same callback are
    one and the same. *)
Theorem debounce_timers_are_unique (events : list DomEvent)
    (handle : positive) (callback : TimerCallback) (delay : Z) :
  let p := (handleEvents config newEventListener events).1 in
  pending (timers p) !! handle = Some (callback, delay) ->
  delay = match callback with InputCallback => 500 | ScrollCallback => 200 end
  /\ match callback with
     | InputCallback => inputDebounceTimer (fields p)
     | ScrollCallback => scrollDebounceTimer (fields p)
     end = Some handle
  /\ forall (other : positive) (delay' : Z),
       pending (timers p) !! other = Some (callback, delay') ->
       other = handle.
Proof.
  intros p Hpending.
  pose proof (handleEvents_keeps_tidy events newEventListener
                tidy_newEventListener) as Htidy.
  fold p in Htidy.
  destruct (Htidy handle callback delay Hpending) as [_ Hheld].
  destruct callback.
  - destruct Hheld as (-> & Hheld & _). repeat split; [exact Hheld|].
    intros other delay' Hother.
    destruct (Htidy other _ _ Hother) as (_ & _ & Hsame & _). congruence.
  - destruct Hheld as (-> & Hheld). repeat split; [exact Hheld|].
    intros other delay' Hother.
    destruct (Htidy other _ _ Hother) as (_ & _ & Hsame). congruence.
Qed.

(** [stop()] leaves the debounce timers running. A timer that is pending
    when the object is stopped still fires, and its callback hands one
    action to the callback of the object, an input or a scroll action,
    although the object is not listening. *)
Theorem stop_leaves_the_timers_running (events : list DomEvent)
    (handle : positive) (callback : TimerCallback) (delay : Z)
    (page : Readings) :
  let p := (handleEvents config newEventListener events).1 in
  pending (timers p) !! handle = Some (callback, delay) ->
  isListening (pointer (fields (handleEvent config p CallStop).1)) = false
  /\ exists c : Captured,
       (handleEvents config p [CallStop; TimerFires handle page]).2 = [c]
       /\ a_type c.1 = capturedType callback.
Proof.
  intros p Hpending.
  pose proof (handleEvents_keeps_tidy events newEventListener
                tidy_newEventListener) as Htidy.
  fold p in Htidy.
  destruct (Htidy handle callback delay Hpending) as [_ Hheld].
  split.
  { cbn [handleEvent fst fields]. unfold stop.
    by destruct (isListening (pointer (fields p))) eqn:H. }
  cbn [handleEvents handleEvent].
  destruct (fire_pending (mkPage (stop (fields p)) (timers p)) handle
              callback delay page) as (c & Hfire & Htype).
  { exact Hpending. }
  { intros ->. destruct Hheld as (_ & _ & Hel). cbn [fields].
    unfold stop. by destruct (isListening (pointer (fields p))). }
  exists c. split; [|exact Htype].
  destruct (fire config _ handle page) as [p1 out]. cbn [snd] in Hfire.
  subst out. reflexivity.
Qed.

Lemma quiet_step (p : Page) (e : DomEvent) :
  quiet p -> e <> CallStart ->
  (handleEvent config p e).2 = [] /\ quiet (handleEvent config p e).1.
Proof.
  intros [Hstopped Hnone] Hnot.
  destruct p as [[l inputTimer scrollTimer element began count] t].
  cbn [fields pointer timers] in Hstopped, Hnone.
  destruct e as [href e|target now|target selected timestamp href
                 |target timestamp href|event timestamp href|
                 |referrer timestamp href|handle page| | |];
    try done; cbn [handleEvent fields pointer timers]; unfold quiet.
  - destruct e as [event now timestamp|event timestamp|event timestamp];
      cbn [dispatch]; unfold onClick, onMouseDown, onDoubleClick;
      rewrite Hstopped; cbn [negb emitted omap list_omap List.map snd fst
                             fields pointer timers withPointer];
      by destruct l.
  - unfold onInput. cbn [fields pointer]. rewrite Hstopped. by cbn.
  - unfold onFields, onChange. cbn [fields pointer]. rewrite Hstopped.
    by cbn.
  - unfold onFields, onSubmit. cbn [fields pointer]. rewrite Hstopped.
    by cbn.
  - unfold onFields, onKeyDown. cbn [fields pointer]. rewrite Hstopped.
    by cbn.
  - unfold onScroll. cbn [fields pointer]. rewrite Hstopped. by cbn.
  - unfold onFields, onPopState. cbn [fields pointer]. rewrite Hstopped.
    by cbn.
  - unfold fire. cbn [timers]. rewrite Hnone, lookup_empty. by cbn.
  - unfold stop. cbn [fields pointer]. rewrite Hstopped. by cbn.
  - unfold destroy, stop. cbn [fields pointer]. rewrite Hstopped.
    cbn [negb fields pointer timers inputDebounceTimer scrollDebounceTimer
         fst snd].
    split; [reflexivity|]. split; [exact Hstopped|].
    destruct inputTimer, scrollTimer; cbn [clearTimeout pending];
      rewrite Hnone, ?delete_empty; reflexivity.
Qed.

Lemma quiet_run (events : list DomEvent) (p : Page) :
  quiet p -> CallStart ∉ events ->
  (handleEvents config p events).2 = [].
Proof.
  revert p. induction events as [|e events IH]; intros p Hquiet Hnot;
    cbn [handleEvents]; [reflexivity|].
  apply not_elem_of_cons in Hnot as [Hne Hnot].
  destruct (quiet_step p e Hquiet) as [Hout Hquiet1]; [done|].
  destruct (handleEvent config p e) as [p1 out]. cbn [fst snd] in *.
  specialize (IH p1 Hquiet1 Hnot).
  destruct (handleEvents config p1 events) as [p2 out']. cbn [snd] in *.
  by subst.
Qed.

Lemma handleEvents_app (events events' : list DomEvent) (p : Page) :
  handleEvents config p (events ++ events')
  = let '(p1, out) := handleEvents config p events in
    let '(p2, out') := handleEvents config p1 events' in
    (p2, out ++ out').
Proof.
  revert p. induction events as [|e events IH]; intros p;
    cbn [app handleEvents].
  - by destruct (handleEvents config p events').
  - destruct (handleEvent config p e) as [p1 out]. rewrite IH.
    destruct (handleEvents config p1 events) as [p2 out2].
    destruct (handleEvents config p2 events') as [p3 out3].
    by rewrite app_assoc.
Qed.

(** After [destroy()] nothing is captured any more. Whatever the object
    has seen before, once [destroy()] has been called no event and no timer
    hands an action to the callback, until [start()] is called again. *)
Theorem nothing_is_captured_after_destroy (before after : list DomEvent) :
  CallStart ∉ after ->
  (handleEvents config newEventListener (before ++ CallDestroy :: after)).2
  = (handleEvents config newEventListener before).2.
Proof.
  intros Hnot.
  pose proof (handleEvents_keeps_tidy before newEventListener
                tidy_newEventListener) as Htidy.
  rewrite handleEvents_app.
  destruct (handleEvents config newEventListener before) as [p out].
  cbn [fst snd handleEvents handleEvent] in *.
  pose proof (quiet_run after (destroy p) (destroy_quiet p Htidy) Hnot)
    as Hrun.
  destruct (handleEvents config (destroy p) after) as [p2 out2].
  cbn [snd app] in *. subst out2. apply app_nil_r.
Qed.

(** *** A burst of input events *)

Lemma onInput_begins (p : Page) (target : Element) (now : Z) :
  isListening (pointer (fields p)) = true ->
  typingStartTime (fields p) = 0 ->
  typedInto (target, now) ->
  typing (onInput p (Some target) now) now 1 target.
Proof.
  intros Hlistening Hstart [Htag Hnow]. unfold onInput.
  rewrite Hlistening, Hstart. cbn [negb fst] in *.
  assert (Hok : negb (jsstring_eqb (tagName (node target)) (js "INPUT"))
                && negb (jsstring_eqb (tagName (node target))
                           (js "TEXTAREA")) = false).
  { unfold jsstring_eqb. destruct Htag as [->| ->].
    - by rewrite bool_decide_eq_true_2.
    - rewrite (bool_decide_eq_true_2 (js "TEXTAREA" = js "TEXTAREA")) by done.
      apply andb_false_r. }
  rewrite Hok. cbn [Z.eqb setTimeout].
  repeat split; try done.
  eexists. split; [reflexivity|]. cbn [timers pending].
  by rewrite lookup_insert_eq.
Qed.

Lemma onInput_goes_on (p : Page) (target next : Element)
    (start count now : Z) :
  typing p start count target -> start <> 0 ->
  typedInto (next, now) ->
  typing (onInput p (Some next) now) start (count + 1) next.
Proof.
  intros (Hlistening & Hstart & Hcount & Hel & _) Hnz [Htag _].
  unfold onInput. rewrite Hlistening, Hstart, Hcount. cbn [negb fst] in *.
  assert (Hok : negb (jsstring_eqb (tagName (node next)) (js "INPUT"))
                && negb (jsstring_eqb (tagName (node next))
                           (js "TEXTAREA")) = false).
  { unfold jsstring_eqb. destruct Htag as [->| ->].
    - by rewrite bool_decide_eq_true_2.
    - rewrite (bool_decide_eq_true_2 (js "TEXTAREA" = js "TEXTAREA")) by done.
      apply andb_false_r. }
  rewrite Hok, (proj2 (Z.eqb_neq start 0) Hnz). cbn [setTimeout].
  repeat split; try done.
  eexists. split; [reflexivity|]. cbn [timers pending].
  by rewrite lookup_insert_eq.
Qed.

Lemma typing_goes_on (more : list (Element * Z)) (p : Page)
    (target : Element) (start count : Z) :
  typing p start count target -> start <> 0 ->
  Forall typedInto more ->
  (handleEvents config p (inputEvents more)).2 = []
  /\ typing (handleEvents config p (inputEvents more)).1 start
       (count + Z.of_nat (length more))
       (default (target, start) (last more)).1.
Proof.
  revert p target count.
  induction more as [|[next now] more IH]; intros p target count Htyping Hnz
    Hall.
  - cbn [inputEvents List.map handleEvents fst snd length last default].
    split; [reflexivity|]. by rewrite Z.add_0_r.
  - apply Forall_cons in Hall as [Hnext Hall].
    pose proof (onInput_goes_on p target next start count now Htyping Hnz
                  Hnext) as Hstep.
    specialize (IH _ _ _ Hstep Hnz Hall) as [IHout IHtyping].
    unfold inputEvents in *.
    cbn [List.map handleEvents handleEvent fst snd] in *.
    destruct (handleEvents config (onInput p (Some next) now)
                (List.map _ more)) as [p2 out] eqn:Hrun.
    cbn [fst snd app] in *. split; [exact IHout|].
    replace (count + Z.of_nat (length ((next, now) :: more)))
      with (count + 1 + Z.of_nat (length more))
      by (cbn [length]; lia).
    replace (default (target, start) (last ((next, now) :: more))).1
      with (default (next, start) (last more)).1; [exact IHtyping|].
    destruct more as [|m more] using rev_ind; [reflexivity|].
    by rewrite app_comm_cons, !last_snoc.
Qed.

(** A burst of input events is captured once, when its last timer fires.
    While the object listens and no burst is under way, input events on
    inputs and text areas hand nothing to the callback; each one replaces
    the timer of the one before. When the timer of the last one fires, the
    callback is handed one input action: for the element of the last event,
    whatever elements the earlier events were on, with the value the
    element then holds, or the mask if the element counts as sensitive, and
    with a typing delay that is the time from the first event to the
    firing, divided by the number of events and rounded, or 50 for a single
    event. *)
Theorem input_burst_is_captured_once (p : Page) (first : Element * Z)
    (more : list (Element * Z)) (page : Readings) :
  isListening (pointer (fields p)) = true ->
  typingStartTime (fields p) = 0 ->
  Forall typedInto (first :: more) ->
  let burst := inputEvents (first :: more) in
  let target := (default first (last more)).1 in
  let count := Z.of_nat (length (first :: more)) in
  (handleEvents config p burst).2 = []
  /\ exists (handle : positive) (action : Action),
       inputDebounceTimer (fields (handleEvents config p burst).1)
       = Some handle
       /\ (fire config (handleEvents config p burst).1 handle page).2
          = [(action,
              InputFields (js "type")
                (if 1 <? count
                 then roundDiv (nowReading page - first.2) count
                 else 50))]
       /\ a_type action = js "input"
       /\ a_selector action
          = Some (SelectorGenerator.generateSelectors config target)
       /\ a_isSensitive action = isSensitiveInput target
       /\ a_value action
          = Some (if isSensitiveInput target then js "***MASKED***"
                  else inputValue page).
Proof.
  intros Hlistening Hstart Hall burst target count.
  destruct first as [element now].
  apply Forall_cons in Hall as [Hfirst Hall].
  pose proof (onInput_begins p element now Hlistening Hstart Hfirst)
    as Hbegun.
  destruct (typing_goes_on more _ _ _ _ Hbegun (proj2 Hfirst) Hall)
    as [Hout Htyping].
  subst burst. unfold inputEvents in *.
  cbn [List.map handleEvents handleEvent fst snd] in *.
  destruct (handleEvents config (onInput p (Some element) now)
              (List.map _ more)) as [p2 out] eqn:Hrun.
  cbn [fst snd app] in *. split; [exact Hout|].
  destruct Htyping as (_ & Hbegan & Hcount & Hel & handle & Hheld & Hpending).
  exists handle. eexists. split; [exact Hheld|].
  unfold fire. rewrite Hpending.
  unfold inputCallback, captureInputAction, advance. rewrite Hel, Hbegan,
    Hcount.
  cbn [fst snd a_type a_selector a_isSensitive a_value].
  replace (1 + Z.of_nat (length more)) with count
    by (subst count; cbn [length]; lia).
  replace (default (element, now) (last more)).1 with target
    by (subst target; by destruct (last more)).
  repeat split.
Qed.

End Handlers.

Lemma debounce_timers_are_unique_witness :
  scrollDebounceTimer
    (fields
       (handleEvents (ext := Host.example) fullConfig newEventListener
          [CallStart; ScrollEvent; InputEvent (Some pwdElement) 1000;
           ScrollEvent]).1)
  = Some 3%positive.
Proof.
  refine (proj1 (proj2 (debounce_timers_are_unique (ext := Host.example)
                          fullConfig
                          [CallStart; ScrollEvent;
                           InputEvent (Some pwdElement) 1000; ScrollEvent]
                          3%positive ScrollCallback 200 _))).
  vm_compute. reflexivity.
Defined.

Lemma stop_leaves_the_timers_running_witness :
  exists c : Captured,
    (handleEvents (ext := Host.example) fullConfig
       (handleEvents (ext := Host.example) fullConfig newEventListener
          [CallStart; InputEvent (Some pwdElement) 1000]).1
       [CallStop; TimerFires 1%positive readings]).2 = [c]
    /\ a_type c.1 = js "input".
Proof.
  refine (proj2 (stop_leaves_the_timers_running (ext := Host.example)
                   fullConfig [CallStart; InputEvent (Some pwdElement) 1000]
                   1%positive InputCallback 500 readings _)).
  vm_compute. reflexivity.
Defined.

Lemma nothing_is_captured_after_destroy_witness :
  (handleEvents (ext := Host.example) fullConfig newEventListener
     ([CallStart; InputEvent (Some pwdElement) 1000]
      ++ CallDestroy :: [TimerFires 1%positive readings; ScrollEvent])).2
  = [].
Proof.
  refine (eq_trans
            (nothing_is_captured_after_destroy (ext := Host.example)
               fullConfig [CallStart; InputEvent (Some pwdElement) 1000]
               [TimerFires 1%positive readings; ScrollEvent] _)
            _).
  - rewrite !not_elem_of_cons. repeat split; try discriminate.
    apply not_elem_of_nil.
  - vm_compute. reflexivity.
Defined.

Lemma input_burst_is_captured_once_witness :
  exists (handle : positive) (action : Action),
    (fire (ext := Host.example) fullConfig
       (handleEvents (ext := Host.example) fullConfig
          (mkPage (mkFields freshListener None None None 0 0)
             (mkTimers ∅ 1%positive))
          (inputEvents [(pwdElement, 1000); (pwdElement, 1100);
                        (pwdElement, 1250)])).1
       handle readings).2
    = [(action, InputFields (js "type") 333)]
    /\ a_value action = Some (js "***MASKED***").
Proof.
  destruct (input_burst_is_captured_once (ext := Host.example) fullConfig
              (mkPage (mkFields freshListener None None None 0 0)
                 (mkTimers ∅ 1%positive))
              (pwdElement, 1000) [(pwdElement, 1100); (pwdElement, 1250)]
              readings)
    as (_ & handle & action & _ & Hfire & _ & _ & _ & Hvalue).
  - reflexivity.
  - reflexivity.
  - repeat constructor; discriminate.
  - exists handle, action. split; [exact Hfire|exact Hvalue].
Defined.

End EventListenerFacts.

Module StorageFacts.
Import JS Types Storage.

Lemma filter_other_ids (id : jsstring) (ids : list jsstring) :
  id ∉ ids ->
  List.filter (fun recordingId => negb (jsstring_eqb recordingId id)) ids
  = ids.
Proof.
  induction ids as [|other ids IH]; intros Hnotin; [reflexivity|].
  apply not_elem_of_cons in Hnotin as [Hne Hrest].
  cbn [List.filter]. unfold jsstring_eqb at 1.
  rewrite bool_decide_eq_false_2 by congruence.
  cbn [negb]. by rewrite IH.
Qed.

Lemma elem_of_filter_other_ids (id other : jsstring) (ids : list jsstring) :
  other ∈ List.filter (fun recordingId => negb (jsstring_eqb recordingId id))
            ids
  <-> other ∈ ids /\ other <> id.
Proof.
  rewrite !list_elem_of_In, filter_In, negb_true_iff.
  unfold jsstring_eqb. rewrite bool_decide_eq_false. reflexivity.
Qed.

Lemma mapM_listEntry_insert (recording : Recording) (store : LocalStore)
    (ids : list jsstring) (recordingIds : list jsstring) :
  r_id recording ∉ ids ->
  mapM (listEntry (mkLocal recordingIds
                     (<[r_id recording := recording]> (recordings store))))
       ids
  = mapM (listEntry store) ids.
Proof.
  induction ids as [|other ids IH]; intros Hnotin; [reflexivity|].
  apply not_elem_of_cons in Hnotin as [Hne Hrest].
  cbn [mapM].
  assert (listEntry (mkLocal recordingIds
                       (<[r_id recording := recording]> (recordings store)))
            other
          = listEntry store other) as ->.
  { unfold listEntry. cbn [recordings].
    by rewrite lookup_insert_ne by congruence. }
  destruct (listEntry store other) as [entry|]; cbn [mbind option_bind];
    [by rewrite (IH Hrest) | reflexivity].
Qed.

Lemma mapM_snoc {A B : Type} (f : A -> option B) (l : list A) (x : A) :
  mapM f (l ++ [x])
  = match mapM f l, f x with
    | Some k, Some y => Some (k ++ [y])
    | _, _ => None
    end.
Proof.
  induction l as [|a l IH]; cbn [app mapM].
  - by destruct (f x).
  - rewrite IH. destruct (f a) as [b|]; cbn [mbind option_bind];
      [|by destruct (mapM f l)].
    by destruct (mapM f l), (f x).
Qed.

(** Saving and loading. A recording that has been saved is loaded back
    under its id as it was saved, its id is among the listed ids, and what
    is stored under any other id is what was stored before. *)
Theorem saveRecording_then_loadRecording
    (recording : Recording) (store : LocalStore) :
  r_id recording <> js "ids" ->
  loadRecording (r_id recording) (saveRecording recording store)
  = Some recording
  /\ r_id recording ∈ recording_ids (saveRecording recording store)
  /\ (forall other : jsstring,
        other <> r_id recording -> other <> js "ids" ->
        loadRecording other (saveRecording recording store)
        = loadRecording other store
        /\ (other ∈ recording_ids (saveRecording recording store)
            <-> other ∈ recording_ids store)).
Proof.
  intros _. unfold loadRecording, saveRecording. cbn [recordings recording_ids].
  split; [apply lookup_insert_eq|]. split.
  - destruct (decide (r_id recording ∈ recording_ids store)) as [Hin|Hnotin].
    + by rewrite bool_decide_eq_true_2.
    + rewrite bool_decide_eq_false_2 by done. set_solver.
  - intros other Hne _. split; [by apply lookup_insert_ne|].
    destruct (bool_decide (r_id recording ∈ recording_ids store));
      [reflexivity|].
    rewrite elem_of_app, list_elem_of_singleton. tauto.
Qed.

Lemma saveRecording_then_loadRecording_witness :
  loadRecording (js "rec_page")
    (saveRecording Scenarios.pageRecording emptyLocal)
  = Some Scenarios.pageRecording.
Proof.
  refine (proj1 (saveRecording_then_loadRecording Scenarios.pageRecording
                   emptyLocal _)).
  vm_compute. discriminate.
Defined.

(** Saving under an id that is already stored. The later recording
    replaces the earlier one and the id list is left as it is; in
    particular saving the same recording twice is saving it once, and ids
    that were pairwise distinct stay so. *)
Theorem saveRecording_replaces
    (earlier later : Recording) (store : LocalStore) :
  r_id later = r_id earlier ->
  saveRecording later (saveRecording earlier store)
  = saveRecording later store
  /\ saveRecording earlier (saveRecording earlier store)
     = saveRecording earlier store
  /\ (r_id earlier ∈ recording_ids store ->
      recording_ids (saveRecording earlier store) = recording_ids store)
  /\ (NoDup (recording_ids store) ->
      NoDup (recording_ids (saveRecording earlier store))).
Proof.
  intros Hid.
  assert (Hagain : forall r r' : Recording,
            r_id r' = r_id r ->
            saveRecording r' (saveRecording r store) = saveRecording r' store).
  { intros r r' Heq. unfold saveRecording. cbn [recordings recording_ids].
    rewrite Heq, insert_insert_eq. f_equal.
    destruct (decide (r_id r ∈ recording_ids store)) as [Hin|Hnotin].
    - rewrite !(bool_decide_eq_true_2 _ Hin). reflexivity.
    - rewrite (bool_decide_eq_false_2 _ Hnotin).
      rewrite bool_decide_eq_true_2 by set_solver. reflexivity. }
  split; [by apply Hagain|]. split; [by apply Hagain|]. split.
  - intros Hin. unfold saveRecording. cbn [recording_ids].
    by rewrite bool_decide_eq_true_2.
  - intros Hnodup. unfold saveRecording. cbn [recording_ids].
    destruct (decide (r_id earlier ∈ recording_ids store)) as [Hin|Hnotin].
    + by rewrite bool_decide_eq_true_2.
    + rewrite bool_decide_eq_false_2 by done.
      apply NoDup_app. split; [exact Hnodup|]. split.
      * intros x Hx Hsingle. apply list_elem_of_singleton in Hsingle.
        by subst x.
      * apply NoDup_singleton.
Qed.

Lemma saveRecording_replaces_witness :
  recording_ids
    (saveRecording Scenarios.pageRecording
       (saveRecording Scenarios.pageRecording emptyLocal))
  = [js "rec_page"].
Proof.
  rewrite (proj1 (proj2 (saveRecording_replaces Scenarios.pageRecording
                           Scenarios.pageRecording emptyLocal eq_refl))).
  reflexivity.
Defined.

(** Deleting. Afterwards nothing is loaded under the id and the id is no
    longer listed, while every other id keeps its recording and its place
    in the list; deleting a recording right after it was saved under a
    fresh id gives back the store as it was before. As for saving, the ids
    are other than "ids", whose key is that of the id list itself. *)
Theorem deleteRecording_removes (id : jsstring) (store : LocalStore) :
  id <> js "ids" ->
  loadRecording id (deleteRecording id store) = None
  /\ (id ∉ recording_ids (deleteRecording id store))
  /\ (forall other : jsstring,
        other <> id -> other <> js "ids" ->
        loadRecording other (deleteRecording id store)
        = loadRecording other store
        /\ (other ∈ recording_ids (deleteRecording id store)
            <-> other ∈ recording_ids store))
  /\ (forall recording : Recording,
        r_id recording = id ->
        id ∉ recording_ids store ->
        loadRecording id store = None ->
        deleteRecording id (saveRecording recording store) = store).
Proof.
  intros _.
  unfold loadRecording, deleteRecording. cbn [recordings recording_ids].
  split; [apply lookup_delete_eq|]. split; [|split].
  - rewrite elem_of_filter_other_ids. tauto.
  - intros other Hne _. split; [by apply lookup_delete_ne|].
    rewrite elem_of_filter_other_ids. tauto.
  - intros recording <- Hfresh Hnone. unfold saveRecording.
    cbn [recordings recording_ids].
    rewrite bool_decide_eq_false_2 by done.
    rewrite delete_insert_id by done.
    rewrite List.filter_app, filter_other_ids by done.
    cbn [List.filter]. unfold jsstring_eqb.
    rewrite bool_decide_eq_true_2 by reflexivity. cbn [negb].
    rewrite app_nil_r. by destruct store.
Qed.

Lemma deleteRecording_removes_witness :
  deleteRecording (js "rec_page")
    (saveRecording Scenarios.pageRecording emptyLocal)
  = emptyLocal.
Proof.
  refine (proj2 (proj2 (proj2 (deleteRecording_removes (js "rec_page")
                                 emptyLocal _)))
            Scenarios.pageRecording eq_refl _ _).
  - discriminate.
  - apply not_elem_of_nil.
  - apply lookup_empty.
Defined.

(** Listing after a save. When the listing of a store succeeds, saving a
    recording that has an actions array under an id not yet listed adds
    one entry at the end of the listing: the recording's id, test name,
    URL and times with the number of its actions. *)
Theorem listRecordings_after_save
    (recording : Recording) (actions : list Action) (store : LocalStore)
    (entries : list RecordingMetadata) :
  r_id recording <> js "ids" ->
  r_actions recording = Some actions ->
  r_id recording ∉ recording_ids store ->
  listRecordings store = Some entries ->
  listRecordings (saveRecording recording store)
  = Some (entries
            ++ [mkRecordingMetadata (r_id recording) (r_testName recording)
                  (r_url recording) (r_startTime recording)
                  (r_endTime recording) (length actions)]).
Proof.
  intros _ Hactions Hfresh Hlist. unfold listRecordings, saveRecording in *.
  cbn [recording_ids recordings] in *.
  rewrite !(bool_decide_eq_false_2 _ Hfresh).
  rewrite (bool_decide_eq_false_2 (_ ++ [_] = [])).
  2:{ intros Heq. by apply app_nil in Heq as [_ [=]]. }
  rewrite mapM_snoc. rewrite mapM_listEntry_insert by done.
  assert (Hold : exists found,
             mapM (listEntry store) (recording_ids store) = Some found
             /\ omap (fun item => item) found = entries).
  { destruct (decide (recording_ids store = [])) as [Hnil|Hcons].
    - rewrite Hnil in *. rewrite bool_decide_eq_true_2 in Hlist by done.
      injection Hlist as <-. by exists [].
    - rewrite bool_decide_eq_false_2 in Hlist by done.
      destruct (mapM (listEntry store) (recording_ids store)) as [found|];
        [|discriminate Hlist].
      injection Hlist as <-. by exists found. }
  destruct Hold as (found & -> & <-).
  unfold listEntry at 1. cbn [recordings].
  rewrite lookup_insert_eq, Hactions. cbn [mbind option_bind].
  by rewrite omap_app.
Qed.

Lemma listRecordings_after_save_witness :
  listRecordings (saveRecording Scenarios.pageRecording emptyLocal)
  = Some [mkRecordingMetadata (js "rec_page") (js "checkout")
            (js "https://example.com/") (js "1970-01-01T00:00:00.001Z")
            (js "1970-01-01T00:00:00.900Z") 0].
Proof.
  refine (listRecordings_after_save Scenarios.pageRecording [] emptyLocal []
            _ eq_refl _ eq_refl).
  - vm_compute. discriminate.
  - apply not_elem_of_nil.
Defined.

End StorageFacts.

Module BackgroundFacts.
Import JS Types Background Examples Scenarios.

(** Running a handler on a world: unfold the plumbing and compute. *)
Ltac run_handler_once :=
  cbv beta iota zeta delta
    [bind ret getState putState call sessionGet sessionSet sessionRemove
     tabsSendMessage broadcastStatusUpdate resetState startActionPolling
     stopActionPolling Background.saveRecording setCounter setPaused
     setAccumulated setActionCache];
  cbn [fst snd state session local trace isRecording isPaused testName
       currentTabId startTime metadata accumulatedActions actionCache
       pollingInterval actionCounter negb orb andb length Nat.ltb Nat.leb].

Ltac run_handler := run_handler_once; run_handler_once.

(** *** Sorting by timestamp *)






(** *** The merge of the navigation listener *)

Lemma mergeNewActions_eq (accumulated cache : list Action) :
  mergeNewActions accumulated cache
  = accumulated
      ++ List.filter
           (fun a => bool_decide
                       (a_timestamp a ∉ List.map a_timestamp accumulated))
           cache.
Proof.
  unfold mergeNewActions.
  assert (Hfilter :
    List.filter
      (fun a => bool_decide
         (a_timestamp a
            ∉ (list_to_set (List.map a_timestamp accumulated) : gset Z)))
      cache
    = List.filter
        (fun a => bool_decide
                    (a_timestamp a ∉ List.map a_timestamp accumulated))
        cache).
  { apply filter_ext. intros a. apply bool_decide_ext.
    by rewrite elem_of_list_to_set. }
  rewrite Hfilter. clear Hfilter.
  destruct (List.filter _ cache) as [|a new]; cbn [length Nat.ltb Nat.leb];
    [by rewrite app_nil_r | reflexivity].
Qed.

Lemma filter_nil_of_all_false {A : Type} (f : A -> bool) (l : list A) :
  (forall a, a ∈ l -> f a = false) -> List.filter f l = [].
Proof.
  induction l as [|a l IH]; intros H; [reflexivity|].
  cbn [List.filter]. rewrite (H a) by apply list_elem_of_here.
  apply IH. intros b Hb. apply H. by apply list_elem_of_further.
Qed.

Lemma occurrences_app (t : Z) (l1 l2 : list Action) :
  occurrences t (l1 ++ l2) = (occurrences t l1 + occurrences t l2)%nat.
Proof. unfold occurrences. by rewrite List.filter_app, length_app. Qed.

Lemma occurrences_zero (t : Z) (l : list Action) :
  (forall a, a ∈ l -> a_timestamp a <> t) -> occurrences t l = 0%nat.
Proof.
  intros H. unfold occurrences. rewrite filter_nil_of_all_false; [done|].
  intros a Ha. apply Z.eqb_neq. by apply H.
Qed.

Lemma mergeNewActions_facts (accumulated cache : list Action) :
  mergeNewActions accumulated cache
  = accumulated
      ++ List.filter
           (fun a => bool_decide
                       (a_timestamp a ∉ List.map a_timestamp accumulated))
           cache
  /\ (forall t : Z,
        t ∈ List.map a_timestamp accumulated ->
        occurrences t (mergeNewActions accumulated cache)
        = occurrences t accumulated)
  /\ (forall t : Z,
        t ∉ List.map a_timestamp accumulated ->
        occurrences t (mergeNewActions accumulated cache)
        = occurrences t cache)
  /\ ((forall a, a ∈ cache ->
         a_timestamp a ∈ List.map a_timestamp accumulated) ->
      mergeNewActions accumulated cache = accumulated)
  /\ (NoDup (List.map a_timestamp accumulated) ->
      NoDup (List.map a_timestamp cache) ->
      NoDup (List.map a_timestamp (mergeNewActions accumulated cache)))
  /\ mergeNewActions (mergeNewActions accumulated cache) cache
     = mergeNewActions accumulated cache.
Proof.
  assert (Hall : forall acc c : list Action,
             (forall a, a ∈ c -> a_timestamp a ∈ List.map a_timestamp acc) ->
             mergeNewActions acc c = acc).
  { intros acc c H. rewrite mergeNewActions_eq.
    rewrite filter_nil_of_all_false; [by rewrite app_nil_r|].
    intros a Ha. apply bool_decide_eq_false_2. intros Hnot.
    by apply Hnot, H. }
  split; [apply mergeNewActions_eq|].
  split; [|split; [|split; [exact (Hall accumulated cache)|split]]].
  - intros t Ht. rewrite mergeNewActions_eq, occurrences_app.
    rewrite (occurrences_zero t (List.filter _ cache)); [lia|].
    intros a Ha Heq. apply list_elem_of_In, filter_In in Ha as [_ Ha].
    apply bool_decide_eq_true_1 in Ha. by rewrite Heq in Ha.
  - intros t Ht. rewrite mergeNewActions_eq, occurrences_app.
    rewrite (occurrences_zero t accumulated).
    2:{ intros a Ha Heq. apply Ht. rewrite <- Heq.
        apply list_elem_of_In, in_map, list_elem_of_In, Ha. }
    cbn [Nat.add]. unfold occurrences. f_equal.
    induction cache as [|a cache IH]; [reflexivity|].
    cbn [List.filter].
    destruct (Z.eqb_spec (a_timestamp a) t) as [Heq|Hne].
    + rewrite bool_decide_eq_true_2 by (by rewrite Heq).
      cbn [List.filter]. rewrite (proj2 (Z.eqb_eq _ _) Heq). by f_equal.
    + destruct (bool_decide _); cbn [List.filter];
        rewrite ?(proj2 (Z.eqb_neq _ _) Hne); exact IH.
  - intros Hacc Hcache. rewrite mergeNewActions_eq, List.map_app.
    apply NoDup_app. split; [exact Hacc|]. split.
    + intros t Ht Hin. apply list_elem_of_In, in_map_iff in Hin
        as (a & <- & Ha).
      apply filter_In in Ha as [_ Ha]. by apply bool_decide_eq_true_1 in Ha.
    + clear Hacc. induction cache as [|a cache IH]; [constructor|].
      apply NoDup_cons in Hcache as [Hnotin Hcache].
      cbn [List.filter]. destruct (bool_decide _); [|by apply IH].
      cbn [List.map]. apply NoDup_cons. split; [|by apply IH].
      intros Hin. apply Hnotin.
      apply list_elem_of_In, in_map_iff in Hin as (b & Hb & Hin).
      apply filter_In in Hin as [Hin _].
      rewrite <- Hb. apply list_elem_of_In, in_map, Hin.
  - apply Hall. intros a Ha. rewrite mergeNewActions_eq, List.map_app.
    apply elem_of_app.
    destruct (decide (a_timestamp a ∈ List.map a_timestamp accumulated))
      as [Hin|Hnot]; [by left | right].
    apply list_elem_of_In, in_map, filter_In. split.
    + by apply list_elem_of_In.
    + by apply bool_decide_eq_true_2.
Qed.

Section WithExternals.
Context {ext : Externals}.

Lemma recordingState_idle (s : BackgroundState) :
  recordingState s = js "idle" <-> isRecording s = false.
Proof.
  unfold recordingState. destruct (isRecording s), (isPaused s);
    split; intros H; try reflexivity; discriminate H.
Qed.

Lemma recordingState_recording (s : BackgroundState) :
  recordingState s = js "recording" ->
  isRecording s = true /\ isPaused s = false.
Proof.
  unfold recordingState. destruct (isRecording s), (isPaused s);
    intros H; try discriminate H; split; reflexivity.
Qed.

Lemma onUpdated_merges (env : NavEnv) (tabId : Z)
    (changeInfo : TabChangeInfo) (w : World) (cache : list Action) :
  currentTabId (state w) = Some tabId ->
  isRecording (state w) = true ->
  status changeInfo = Some (js "loading") ->
  truthyo (url changeInfo) = true ->
  navSessionGet env = Resolved tt ->
  session w = Some cache ->
  let w1 := snd (onUpdated env tabId changeInfo w) in
  state w1
  = setActionCache []
      (setAccumulated (mergeNewActions (accumulatedActions (state w)) cache)
         (state w))
  /\ session w1 = (match navSessionRemove env with
                   | Resolved _ => None
                   | Rejected _ => Some cache
                   end).
Proof.
  intros Htab Hrec Hstatus Hurl Hget Hsession.
  destruct w as [[rec paused name tab start meta acc mirror poll counter]
                   stored saved calls].
  cbn [state session isRecording currentTabId] in Htab, Hrec, Hsession.
  subst rec tab stored.
  unfold onUpdated. run_handler.
  rewrite Hstatus, Hurl, Hget.
  rewrite !bool_decide_eq_true_2 by reflexivity. cbn [andb].
  destruct cache as [|a cache]; run_handler;
    destruct (navSessionRemove env); run_handler; split; reflexivity.
Qed.

(** C2 (as amended). When the recording tab starts loading a new URL, the
    merge appends to [accumulatedActions] exactly the
    cache actions whose timestamp does not occur among the accumulated
    ones, in cache order. So a timestamp that is already accumulated (for
    instance through the SAVE_CURRENT_STATE flush) gains no further
    occurrence, a cache whose timestamps are all accumulated changes
    nothing, timestamps that were pairwise distinct in both lists stay
    pairwise distinct, and merging the same cache again changes nothing.
    Two cache actions that share a timestamp not yet accumulated are both
    appended. *)
Theorem navigation_merge_dedup_idempotent
    (env : NavEnv) (tabId : Z) (changeInfo : TabChangeInfo) (w : World)
    (cache : list Action) :
  currentTabId (state w) = Some tabId ->
  isRecording (state w) = true ->
  status changeInfo = Some (js "loading") ->
  truthyo (url changeInfo) = true ->
  navSessionGet env = Resolved tt ->
  session w = Some cache ->
  let accumulated := accumulatedActions (state w) in
  let w1 := snd (onUpdated env tabId changeInfo w) in
  let merged := accumulatedActions (state w1) in
  merged
  = accumulated
      ++ List.filter
           (fun a => bool_decide
                       (a_timestamp a ∉ List.map a_timestamp accumulated))
           cache
  /\ (forall t : Z,
        t ∈ List.map a_timestamp accumulated ->
        occurrences t merged = occurrences t accumulated)
  /\ (forall t : Z,
        t ∉ List.map a_timestamp accumulated ->
        occurrences t merged = occurrences t cache)
  /\ ((forall a, a ∈ cache ->
         a_timestamp a ∈ List.map a_timestamp accumulated) ->
      merged = accumulated)
  /\ (NoDup (List.map a_timestamp accumulated) ->
      NoDup (List.map a_timestamp cache) ->
      NoDup (List.map a_timestamp merged))
  /\ (navSessionRemove env = Resolved tt -> session w1 = None)
  /\ (forall w2 : World,
        currentTabId (state w2) = Some tabId ->
        isRecording (state w2) = true ->
        accumulatedActions (state w2) = merged ->
        session w2 = Some cache ->
        accumulatedActions (state (snd (onUpdated env tabId changeInfo w2)))
        = merged).
Proof.
  intros Htab Hrec Hstatus Hurl Hget Hsession accumulated w1 merged.
  destruct (onUpdated_merges env tabId changeInfo w cache Htab Hrec Hstatus
              Hurl Hget Hsession) as [Hstate Hstore].
  assert (Hmerged : merged = mergeNewActions accumulated cache).
  { subst merged w1. rewrite Hstate. reflexivity. }
  destruct (mergeNewActions_facts accumulated cache)
    as (Heq & Hold & Hnew & Hall & Hnodup & Hidem).
  rewrite Hmerged.
  repeat split; try assumption.
  - intros Hremove. subst w1. rewrite Hstore, Hremove. reflexivity.
  - intros w2 Htab2 Hrec2 Hacc2 Hsession2.
    destruct (onUpdated_merges env tabId changeInfo w2 cache Htab2 Hrec2
                Hstatus Hurl Hget Hsession2) as [Hstate2 _].
    rewrite Hstate2, Hacc2. cbn [setActionCache setAccumulated
      accumulatedActions]. exact Hidem.
Qed.

(** What [finishStop] leaves behind. *)
Lemma finishStop_spec (env : StopEnv) (recording : Recording) (w : World) :
  exists calls : list Call,
    finishStop env recording w
    = (okWith (DataRecording recording),
       mkWorld initialState (session w)
         (match stopSave env with
          | Resolved _ => Storage.saveRecording recording (local w)
          | Rejected _ => local w
          end)
         (trace w ++ SaveRecording recording :: calls))
    /\ validatorCalls calls = [].
Proof.
  unfold finishStop. run_handler.
  destruct (stopSave env); run_handler;
    destruct (pollingInterval (state w)); run_handler;
    rewrite <- ?app_assoc; cbn [app];
    eexists; (split; [reflexivity|]); reflexivity.
Qed.

Lemma handleStopRecording_paths (env : StopEnv) (w : World) (tabId : Z) :
  isRecording (state w) = true ->
  currentTabId (state w) = Some tabId ->
  tabId <> 0 ->
  handleStopRecording env w
  = match usablePageRecording env with
    | Some page =>
        finishStop env
          (mkRecording (r_id page) (r_version page) (r_testName page)
             (r_url page) (r_startTime page) (r_endTime page)
             (r_viewport page) (r_userAgent page)
             (Some (if (0 <? length (accumulatedActions (state w)))%nat
                    then sortByTimestamp
                           (accumulatedActions (state w) ++ cacheRead env w)
                    else cacheRead env w)))
          (stopMidWorld w tabId)
    | None =>
        stopFromBackgroundState env tabId (cacheRead env w)
          (stopMidWorld w tabId)
    end.
Proof.
  intros Hrec Htab Hnz.
  destruct w as [[rec paused name tab start meta acc mirror poll counter]
                   stored saved calls].
  cbn [state isRecording currentTabId] in Hrec, Htab. subst rec tab.
  unfold handleStopRecording, usablePageRecording, stopMidWorld, cacheRead.
  run_handler.
  rewrite (proj2 (Z.eqb_neq tabId 0) Hnz).
  destruct poll; run_handler; rewrite <- ?app_assoc; cbn [app];
    destruct (stopSessionGet env) as [[]|failure];
    destruct (stopReply env) as [[[[] [page|]]|]|message];
    try (destruct (truthy (r_id page) && truthy (r_testName page)
                   && truthy (r_startTime page)));
    destruct stored as [cache|]; reflexivity.
Qed.


Lemma stopFromBackgroundState_cases (env : StopEnv) (tabId : Z)
    (cache : list Action) (w : World) :
  (exists recording : Recording,
      stopFromBackgroundState env tabId cache w
      = finishStop env recording
          (mkWorld (state w) (session w) (local w)
             (trace w ++ [TabsGet tabId])))
  \/ (success (fst (stopFromBackgroundState env tabId cache w)) = false
      /\ state (snd (stopFromBackgroundState env tabId cache w))
         = initialState).
Proof.
  unfold stopFromBackgroundState. run_handler.
  destruct (testName (state w)) as [[|c name]|];
    destruct (startTime (state w)) as [start|];
    try (right; run_handler; destruct (pollingInterval (state w));
         split; reflexivity).
  destruct (start =? 0).
  - right; run_handler; destruct (pollingInterval (state w));
      split; reflexivity.
  - left. eexists. reflexivity.
Qed.



(** *** Syncing actions *)

Lemma idNumber_formatActionId (n : nat) :
  idNumber (formatActionId n) = Some n.
Proof.
  unfold idNumber, formatActionId, padStart.
  change (startsWith (js "act_") (js "act_" ++ ?s)) with true. cbv iota.
  change (drop 4 (js "act_" ++ ?s)) with s.
  rewrite JSFacts.parse_leading_zeros. apply JSFacts.parseDigits_String.
Qed.

Lemma formatActionId_shape (n : nat) :
  take 4 (formatActionId n) = js "act_"
  /\ (3 <= length (drop 4 (formatActionId n)))%nat
  /\ Forall (fun c => isDigit c = true) (drop 4 (formatActionId n)).
Proof.
  unfold formatActionId, padStart.
  change (take 4 (js "act_" ++ ?s)) with (js "act_").
  change (drop 4 (js "act_" ++ ?s)) with s.
  split; [reflexivity|]. split.
  - rewrite length_app, length_replicate. lia.
  - apply Forall_app. split.
    + apply Forall_replicate. reflexivity.
    + apply JSFacts.digits_are_digits.
Qed.

(** A sync whose storage write is rejected answers with the failure; the
    counter has advanced, nothing is stored. *)
Lemma sync_rejected_consumes_counter (w : World) (a : Action)
    (message : jsstring) :
  isRecording (state w) = true ->
  let result :=
    handleSyncAction (mkSyncEnv (Resolved tt) (Rejected message)) (Some a)
      w in
  fst result = failed message
  /\ actionCounter (state (snd result)) = S (actionCounter (state w))
  /\ session (snd result) = session w.
Proof.
  intros Hrec. unfold handleSyncAction. run_handler. rewrite Hrec.
  run_handler. repeat split.
Qed.

(** *** Starting a session *)

Lemma stop_resets (env : StopEnv) (w : World) :
  isRecording (state w) = true ->
  state (snd (handleStopRecording env w)) = initialState.
Proof.
  intros Hrec.
  destruct (currentTabId (state w)) as [tabId|] eqn:Htab.
  2:{ unfold handleStopRecording. run_handler. rewrite Hrec, Htab.
      run_handler. by destruct (pollingInterval (state w)). }
  destruct (Z.eqb_spec tabId 0) as [->|Hnz].
  { unfold handleStopRecording. run_handler. rewrite Hrec, Htab, Z.eqb_refl.
    run_handler. by destruct (pollingInterval (state w)). }
  rewrite (handleStopRecording_paths env w tabId Hrec Htab Hnz).
  destruct (usablePageRecording env) as [page|].
  - match goal with
    | |- context [finishStop env ?r ?mid] =>
        destruct (finishStop_spec env r mid) as (calls & -> & _)
    end.
    reflexivity.
  - destruct (stopFromBackgroundState_cases env tabId (cacheRead env w)
                (stopMidWorld w tabId)) as [(recording & ->)|[_ Hstate]];
      [|exact Hstate].
    match goal with
    | |- context [finishStop env ?r ?mid] =>
        destruct (finishStop_spec env r mid) as (calls & -> & _)
    end.
    reflexivity.
Qed.

Lemma step_preserves_idleIsInitial (w : World) (e : Event) :
  idleIsInitial w -> idleIsInitial (step w e).
Proof.
  unfold idleIsInitial. intros Hinv.
  destruct (isRecording (state w)) eqn:Hrec.
  - (* a recording is active *)
    clear Hinv. destruct e as [env nm|env|reply|reply| |answer|reply
                               |env payload|tabId|env tabId changeInfo
                               |settles].
    + unfold step, handle, handleStartRecording. run_handler. rewrite Hrec.
      run_handler. rewrite Hrec. discriminate.
    + intros _. unfold step, handle. run_handler.
      destruct (handleStopRecording env w) as [r w1] eqn:Hstop.
      cbn [snd]. change w1 with (snd (r, w1)). rewrite <- Hstop.
      by apply stop_resets.
    + unfold step, handle, handlePauseRecording. run_handler. rewrite Hrec.
      run_handler.
      destruct (isPaused (state w)),
        (truthyNumber (currentTabId (state w))), reply;
        run_handler; rewrite ?Hrec; discriminate.
    + unfold step, handle, handleResumeRecording. run_handler. rewrite Hrec.
      run_handler.
      destruct (isPaused (state w)),
        (truthyNumber (currentTabId (state w))), reply;
        run_handler; rewrite ?Hrec; discriminate.
    + unfold step, handle. run_handler. rewrite Hrec. discriminate.
    + unfold step, handle, handleGetRecording. run_handler. rewrite Hrec.
      run_handler.
      destruct (truthyNumber (currentTabId (state w))), answer;
        run_handler; rewrite ?Hrec; discriminate.
    + unfold step, handle, handleSaveCurrentState. run_handler. rewrite Hrec.
      run_handler.
      destruct (truthyNumber (currentTabId (state w)));
        [|run_handler; rewrite ?Hrec; discriminate].
      destruct reply as [[[[] [[|a actions]|]]|]|failure]; run_handler;
        rewrite ?Hrec; discriminate.
    + unfold step, handle, handleSyncAction. run_handler.
      destruct payload as [a|]; run_handler; rewrite Hrec; run_handler;
        [|discriminate].
      destruct (syncSessionGet env) as [[]|failure]; run_handler;
        [|rewrite ?Hrec; discriminate].
      destruct (syncSessionSet env) as [[]|failure]; run_handler;
        rewrite ?Hrec; discriminate.
    + unfold step, handle, onRemoved. run_handler. rewrite Hrec.
      destruct (bool_decide (currentTabId (state w) = Some tabId));
        run_handler; [|rewrite ?Hrec; discriminate].
      by destruct (pollingInterval (state w)).
    + unfold step, handle, onUpdated. run_handler. rewrite Hrec.
      destruct (bool_decide (currentTabId (state w) = Some tabId) && true
                && bool_decide (status changeInfo = Some (js "loading"))
                && truthyo (url changeInfo));
        run_handler; [|rewrite ?Hrec; discriminate].
      destruct (navSessionGet env) as [[]|failure],
        (session w) as [[|b cache]|],
        (navSessionRemove env) as [[]|failure2];
        run_handler; rewrite ?Hrec; discriminate.
    + unfold step, handle, pollTick. run_handler. rewrite Hrec. run_handler.
      destruct (truthyNumber (currentTabId (state w))); run_handler;
        [|rewrite ?Hrec; discriminate].
      destruct settles as [[]|failure], (session w) as [cache|];
        run_handler; rewrite ?Hrec; discriminate.
  - (* idle: the state is the initial one *)
    specialize (Hinv eq_refl).
    destruct w as [s stored saved calls]. cbn [state] in Hinv, Hrec.
    subst s. clear Hrec.
    destruct e as [env nm|env|reply|reply| |answer|reply|env payload
                   |tabId|env tabId changeInfo|settles];
      unfold step, handle; try (intros _; reflexivity).
    + unfold handleStartRecording, initialState. run_handler.
      destruct (queriedTabs env) as [|[tabId|] tabs]; run_handler;
        try (intros _; reflexivity).
      destruct (tabId =? 0); run_handler; try (intros _; reflexivity).
      destruct (startReply env) as [[]|failure]; run_handler;
        [discriminate | intros _; reflexivity].
    + unfold handleSyncAction, initialState. run_handler.
      destruct payload; intros _; reflexivity.
Qed.

Lemma reachable_idleIsInitial (w : World) : reachable w -> idleIsInitial w.
Proof.
  intros [events ->]. induction events as [|e events IH] using rev_ind.
  - intros _. reflexivity.
  - unfold runEvents. rewrite foldl_snoc.
    by apply step_preserves_idleIsInitial.
Qed.

(** Starting from idle, in a reachable world: the counter is 0 and nothing
    is accumulated, so the first action synced is numbered act_001; it is
    appended to whatever the cache already holds. *)
Lemma start_from_idle (w : World) (env : StartEnv) (name : jsstring) :
  reachable w ->
  isRecording (state w) = false ->
  success (fst (handleStartRecording env name w)) = true ->
  let w1 := snd (handleStartRecording env name w) in
  isRecording (state w1) = true
  /\ actionCounter (state w1) = 0%nat
  /\ accumulatedActions (state w1) = []
  /\ session w1 = session w
  /\ (forall a : Action,
        session (snd (handleSyncAction syncEnv (Some a) w1))
        = Some (default [] (session w) ++ [withId (js "act_001") a])).
Proof.
  intros Hreach Hidle Hsuccess w1.
  pose proof (reachable_idleIsInitial w Hreach Hidle) as Hinit.
  destruct w as [s stored saved calls]. cbn [state] in Hinit. subst s.
  subst w1. revert Hsuccess. unfold handleStartRecording, initialState.
  run_handler.
  destruct (queriedTabs env) as [|[tabId|] tabs]; run_handler;
    try discriminate.
  destruct (tabId =? 0); run_handler; try discriminate.
  destruct (startReply env) as [[]|failure]; run_handler;
    [|discriminate].
  intros _. split; [reflexivity|]. split; [reflexivity|].
  split; [reflexivity|]. split; [reflexivity|].
  intros a. unfold handleSyncAction, syncEnv. run_handler. reflexivity.
Qed.

(** C5: the code at the failing input. After a first session (start, one
    synced action, stop) a second start succeeds with counter 0 and nothing
    accumulated, but the cache in session storage still holds the first
    session's action: neither stop nor start clears it. The first action of
    the new session is numbered act_001 and lands behind the old one, and
    the next stop returns both in the new recording. *)
Theorem start_keeps_previous_cache :
  recordingState (state secondSession) = js "recording"
  /\ actionCounter (state secondSession) = 0%nat
  /\ accumulatedActions (state secondSession) = []
  /\ session secondSession = Some [clickAt (js "act_001") 5]
  /\ session (step (ext := Host.example) secondSession
                (MsgSyncAction syncEnv (Some (clickAt (js "act_001") 9))))
     = Some [clickAt (js "act_001") 5; clickAt (js "act_001") 9]
  /\ recordedActions
       (fst (handleStopRecording (ext := Host.example) stopEnvUnreachable
               (step (ext := Host.example) secondSession
                  (MsgSyncAction syncEnv
                     (Some (clickAt (js "act_001") 9))))))
     = Some [clickAt (js "act_001") 5; clickAt (js "act_001") 9].
Proof. repeat split; vm_compute; reflexivity. Qed.

(** C6. An operation that does not fit the phase fails and changes nothing:
    pause while idle answers with the error "No active recording to pause"
    and start while recording with "Recording is already in progress", the
    world being left as it was; and when the page cannot be reached, pause
    and resume answer with an error and leave the coordinator's state, with
    its [isPaused] flag, untouched. *)
Theorem phase_mismatch_fails_without_change (w : World) :
  (recordingState (state w) = js "idle" ->
   forall reply : Outcome unit,
     handlePauseRecording reply w
     = (failed (js "No active recording to pause"), w))
  /\ (recordingState (state w) = js "recording" ->
      forall (env : StartEnv) (name : jsstring),
        handleStartRecording env name w
        = (failed (js "Recording is already in progress"), w))
  /\ (forall message : jsstring,
        success (fst (handlePauseRecording (Rejected message) w)) = false
        /\ state (snd (handlePauseRecording (Rejected message) w)) = state w)
  /\ (forall message : jsstring,
        success (fst (handleResumeRecording (Rejected message) w)) = false
        /\ state (snd (handleResumeRecording (Rejected message) w))
           = state w).
Proof.
  split; [|split; [|split]].
  - intros Hidle reply. apply recordingState_idle in Hidle.
    unfold handlePauseRecording. run_handler. rewrite Hidle. reflexivity.
  - intros Hrec env name. apply recordingState_recording in Hrec as [Hrec _].
    unfold handleStartRecording. run_handler. rewrite Hrec. reflexivity.
  - intros message. unfold handlePauseRecording. run_handler.
    destruct (isRecording (state w)), (isPaused (state w)),
      (truthyNumber (currentTabId (state w))); split; reflexivity.
  - intros message. unfold handleResumeRecording. run_handler.
    destruct (isRecording (state w)), (isPaused (state w)),
      (truthyNumber (currentTabId (state w))); split; reflexivity.
Qed.

End WithExternals.

Lemma navigation_merge_dedup_idempotent_witness :
  accumulatedActions
    (state (snd (onUpdated navEnv 7 loading afterFlush)))
  = [clickAt (js "act_001") 5].
Proof.
  refine (proj1 (proj2 (proj2 (proj2
            (navigation_merge_dedup_idempotent navEnv 7 loading afterFlush
               [clickAt (js "act_001") 5] _ _ _ _ _ _)))) _).
  - vm_compute. reflexivity.
  - vm_compute. reflexivity.
  - reflexivity.
  - reflexivity.
  - reflexivity.
  - vm_compute. reflexivity.
  - intros a Ha. apply list_elem_of_singleton in Ha as ->.
    vm_compute. apply list_elem_of_here.
Defined.

(** C2 fails as stated: the same action synced twice on one page (a retry)
    sits twice in the cache with the timestamp 5; nothing with that
    timestamp is accumulated yet, so the merge appends both copies. *)
Lemma navigation_merge_counterexample :
  let w := afterSyncs [clickAt (js "act_001") 5; clickAt (js "act_001") 5] in
  let merged :=
    accumulatedActions (state (snd (onUpdated navEnv 7 loading w))) in
  accumulatedActions (state w) = []
  /\ List.map a_timestamp (default [] (session w)) = [5; 5]
  /\ List.map a_id merged = [js "act_001"; js "act_002"]
  /\ occurrences 5 merged = 2%nat
  /\ occurrences 5 merged <> 1%nat.
Proof.
  cbv zeta. repeat split; try (vm_compute; reflexivity).
  vm_compute. discriminate.
Qed.


(** Outside the claim C3: on a single page nothing is accumulated, and
    when the page answers STOP_RECORDING the cache is returned in its
    stored order; with the action of instant 10 stored before that of
    instant 5 the recording is not sorted, while the fallback path would
    have sorted it. *)
Lemma stop_live_single_page :
  let w :=
    afterSyncs [clickAt (js "act_001") 10; clickAt (js "act_001") 5] in
  let response :=
    fst (handleStopRecording (ext := Host.example) stopEnvLive w) in
  accumulatedActions (state w) = []
  /\ List.map a_timestamp (default [] (session w)) = [10; 5]
  /\ success response = true
  /\ recordedActions response
     = Some [clickAt (js "act_001") 10; clickAt (js "act_002") 5]
  /\ ~ Sorted notLater [clickAt (js "act_001") 10; clickAt (js "act_002") 5].
Proof.
  cbv zeta. repeat split; try (vm_compute; reflexivity).
  intros Hsorted. apply Sorted_inv in Hsorted as [_ Hhd].
  apply HdRel_inv in Hhd. unfold notLater in Hhd. cbn in Hhd. lia.
Qed.



Lemma phase_mismatch_fails_without_change_witness :
  handlePauseRecording (Resolved tt) initialWorld
  = (failed (js "No active recording to pause"), initialWorld)
  /\ handleStartRecording startEnv (js "again") recordingWorld
     = (failed (js "Recording is already in progress"), recordingWorld).
Proof.
  split.
  - exact (proj1 (phase_mismatch_fails_without_change initialWorld)
             eq_refl (Resolved tt)).
  - exact (proj1 (proj2 (phase_mismatch_fails_without_change
                           recordingWorld))
             eq_refl startEnv (js "again")).
Defined.

(** *** The coordinator between sessions *)

Section Sessions.
Context {ext : Externals}.

(** An idle coordinator reacts to nothing but a start. While no recording
    is active, every event other than START_RECORDING leaves the world as
    it is: variables, both stores, and the list of outgoing calls. Stop,
    pause, resume and the recording query are answered with a failure, sync
    and the pre-unload flush with a bare success, the status query with
    "idle" and no metadata. *)
Theorem idle_coordinator_is_inert (w : World) (e : Event) :
  isRecording (state w) = false ->
  (forall (env : StartEnv) (name : jsstring),
      e <> MsgStartRecording env name) ->
  step w e = w
  /\ match e with
     | MsgStopRecording _ | MsgPauseRecording _ | MsgResumeRecording _
     | MsgGetRecording _ =>
         exists message : jsstring, fst (handle e w) = Some (failed message)
     | MsgSyncAction _ _ | MsgSaveCurrentState _ =>
         fst (handle e w) = Some ok
     | MsgGetStatus =>
         fst (handle e w) = Some (okWith (DataStatus (js "idle") None))
     | _ => fst (handle e w) = None
     end.
Proof.
  intros Hidle Hnostart.
  destruct w as [[rec paused name tab start meta acc mirror poll counter]
                   stored saved calls].
  cbn [state isRecording] in Hidle. subst rec.
  destruct e as [env nm|env|reply|reply| |answer|reply|env [a|]|tabId
                 |env tabId changeInfo|settles];
    try (by destruct (Hnostart env nm));
    unfold step, handle, handleStopRecording, handlePauseRecording,
      handleResumeRecording, handleGetRecording, handleSaveCurrentState,
      handleSyncAction, handleGetStatus, onRemoved, onUpdated, pollTick;
    run_handler; rewrite ?andb_false_r; run_handler;
    (split; [reflexivity|]); try reflexivity; by eexists.
Qed.

(** Closing the recording tab throws the session away. The variables go
    back to their initial values and "idle" is broadcast; nothing is handed
    to [saveRecording], so the actions recorded so far are in no saved
    recording, and the cache in session storage is left where it is.
    Closing any other tab changes nothing. *)
Theorem closing_the_recording_tab_discards (w : World) (tabId : Z) :
  isRecording (state w) = true ->
  let w1 := snd (onRemoved tabId w) in
  (currentTabId (state w) = Some tabId ->
   state w1 = initialState /\ local w1 = local w /\ session w1 = session w
   /\ savedRecordings (tracedSince w w1) = []
   /\ last (trace w1) = Some (StatusUpdate (js "idle")))
  /\ (currentTabId (state w) <> Some tabId -> w1 = w).
Proof.
  intros Hrec w1. subst w1.
  destruct w as [[rec paused name tab start meta acc mirror poll counter]
                   stored saved calls].
  cbn [state isRecording currentTabId] in *. subst rec.
  unfold onRemoved, tracedSince. run_handler. split.
  - intros ->. rewrite bool_decide_eq_true_2 by reflexivity.
    destruct poll; run_handler; rewrite <- ?app_assoc, ?drop_app_length;
      cbn [app]; repeat split; by rewrite last_app_cons.
  - intros Hother. by rewrite bool_decide_eq_false_2.
Qed.

(** Pause and resume. A pause that the page acknowledges sets the pause
    flag and nothing else, and a resume that the page acknowledges puts the
    variables back as they were. The pause flag plays no part in syncing:
    a SYNC_ACTION that arrives while paused is numbered and stored exactly
    as it would be while recording. *)
Theorem pause_and_resume (w : World) :
  isRecording (state w) = true ->
  isPaused (state w) = false ->
  truthyNumber (currentTabId (state w)) = true ->
  let paused := snd (handlePauseRecording (Resolved tt) w) in
  state paused = setPaused true (state w)
  /\ state (snd (handleResumeRecording (Resolved tt) paused)) = state w
  /\ (forall (env : SyncEnv) (payloadAction : option Action),
        fst (handleSyncAction env payloadAction paused)
        = fst (handleSyncAction env payloadAction w)
        /\ session (snd (handleSyncAction env payloadAction paused))
           = session (snd (handleSyncAction env payloadAction w))
        /\ actionCounter (state (snd (handleSyncAction env payloadAction
                                        paused)))
           = actionCounter (state (snd (handleSyncAction env payloadAction
                                          w)))).
Proof.
  intros Hrec Hpaused Htab paused. subst paused.
  destruct w as [[rec ispaused name tab start meta acc mirror poll counter]
                   stored saved calls].
  cbn [state isRecording isPaused currentTabId] in *. subst rec ispaused.
  unfold handlePauseRecording, handleResumeRecording. run_handler.
  rewrite Htab. run_handler. rewrite Htab. run_handler.
  split; [reflexivity|]. split; [reflexivity|].
  intros env [a|]; unfold handleSyncAction; run_handler;
    [|repeat split].
  destruct (syncSessionGet env) as [[]|failure]; run_handler;
    [|repeat split].
  destruct (syncSessionSet env) as [[]|failure]; run_handler; repeat split.
Qed.

(** A stop that finds no test name. When the page does not answer the
    stop with a usable recording and the coordinator holds an empty test
    name (a start accepts any name) or no start time, the stop fails with
    "Missing recording metadata": the variables are reset, nothing is
    handed to [saveRecording], and what was recorded is in no recording. *)
Theorem stop_without_metadata_discards
    (env : StopEnv) (w : World) (tabId : Z) :
  isRecording (state w) = true ->
  currentTabId (state w) = Some tabId ->
  tabId <> 0 ->
  usablePageRecording env = None ->
  truthyo (testName (state w)) = false
  \/ truthyNumber (startTime (state w)) = false ->
  let result := handleStopRecording env w in
  fst result
  = failed (js "Failed to stop recording: Missing recording metadata")
  /\ state (snd result) = initialState
  /\ local (snd result) = local w
  /\ session (snd result) = session w
  /\ savedRecordings (tracedSince w (snd result)) = [].
Proof.
  intros Hrec Htab Hnz Hpage Hmissing result. subst result.
  rewrite (handleStopRecording_paths env w tabId Hrec Htab Hnz), Hpage.
  destruct w as [[rec paused name tab start meta acc mirror poll counter]
                   stored saved calls].
  cbn [state trace session local testName startTime pollingInterval] in *.
  unfold stopFromBackgroundState, stopMidWorld, tracedSince.
  assert (Hfail : match name, start with
                  | Some (_ :: _), Some st => (st =? 0) = true
                  | _, _ => True
                  end).
  { destruct Hmissing as [Hname|Hstart].
    - by destruct name as [[|c nm]|].
    - destruct name as [[|c nm]|], start as [st|]; try done.
      cbn [truthyNumber] in Hstart. by apply negb_false_iff in Hstart. }
  destruct name as [[|c nm]|], start as [st|]; destruct poll; run_handler;
    rewrite ?Hfail; run_handler; rewrite <- ?app_assoc, ?drop_app_length;
    repeat split.
Qed.

(** The outcomes of a start. From the initial variables a start succeeds
    exactly when an active tab with an id is found and the page
    acknowledges the message. A start that fails leaves the initial
    variables behind and sets no timer; one that succeeds holds the name,
    the tab and the start time, with the polling timer running and the
    counter at 0. Neither store is written either way. *)
Theorem start_outcomes (env : StartEnv) (name : jsstring) (w : World) :
  state w = initialState ->
  let result := handleStartRecording env name w in
  (success (fst result) = true
   <-> exists (tabId : Z) (others : list (option Z)),
         queriedTabs env = Some tabId :: others /\ tabId <> 0
         /\ startReply env = Resolved tt)
  /\ (success (fst result) = false ->
      state (snd result) = initialState
      /\ intervalsSet (tracedSince w (snd result)) = 0%nat)
  /\ (success (fst result) = true ->
      exists tabId : Z,
        state (snd result)
        = mkState true false (Some name) (Some tabId) (Some (startNow env))
            None [] [] true 0
        /\ tracedSince w (snd result)
           = [TabsQuery; TabsSendMessage tabId (START_RECORDING name);
              SetInterval; StatusUpdate (js "recording")])
  /\ session (snd result) = session w
  /\ local (snd result) = local w.
Proof.
  intros Hinit result. subst result.
  destruct w as [s stored saved calls]. cbn [state] in Hinit. subst s.
  unfold handleStartRecording, initialState, tracedSince. run_handler.
  destruct (queriedTabs env) as [|[tabId|] tabs]; run_handler.
  - rewrite <- ?app_assoc, ?drop_app_length.
    repeat split; try discriminate.
    intros (tabId & others & [=] & _).
  - destruct (Z.eqb_spec tabId 0) as [->|Hnz]; run_handler.
    { rewrite <- ?app_assoc, ?drop_app_length.
      repeat split; try discriminate.
      intros (tabId & others & [= <-] & Hnz & _). by destruct Hnz. }
    destruct (startReply env) as [[]|failure]; run_handler;
      rewrite <- ?app_assoc, ?drop_app_length; cbn [app].
    + repeat split; try discriminate; try by eexists.
      intros _. by exists tabId, tabs.
    + repeat split; try discriminate.
      intros (tabId' & others & _ & _ & [=]).
  - rewrite <- ?app_assoc, ?drop_app_length.
    repeat split; try discriminate.
    intros (tabId & others & [=] & _).
Qed.

End Sessions.

Lemma idle_coordinator_is_inert_witness :
  step (ext := Host.example) initialWorld
    (MsgSyncAction syncEnv (Some (clickAt (js "act_001") 5)))
  = initialWorld.
Proof.
  refine (proj1 (idle_coordinator_is_inert (ext := Host.example)
                   initialWorld
                   (MsgSyncAction syncEnv (Some (clickAt (js "act_001") 5)))
                   eq_refl _)).
  intros env name. discriminate.
Defined.

Lemma closing_the_recording_tab_discards_witness :
  state (snd (onRemoved 7 twoPages)) = initialState
  /\ session (snd (onRemoved 7 twoPages)) = session twoPages.
Proof.
  destruct (proj1 (closing_the_recording_tab_discards twoPages 7 eq_refl)
              eq_refl) as (Hstate & _ & Hsession & _).
  split; [exact Hstate | exact Hsession].
Defined.

Lemma pause_and_resume_witness :
  state (snd (handleResumeRecording (Resolved tt)
                (snd (handlePauseRecording (Resolved tt) recordingWorld))))
  = state recordingWorld.
Proof.
  exact (proj1 (proj2 (pause_and_resume recordingWorld eq_refl eq_refl
                         eq_refl))).
Defined.

Lemma stop_without_metadata_discards_witness :
  let result :=
    handleStopRecording (ext := Host.example) stopEnvUnreachable
      unnamedSession in
  fst result
  = failed (js "Failed to stop recording: Missing recording metadata")
  /\ session unnamedSession = Some [clickAt (js "act_001") 5]
  /\ local (snd result) = Storage.emptyLocal.
Proof.
  destruct (stop_without_metadata_discards (ext := Host.example)
              stopEnvUnreachable unnamedSession 7 eq_refl eq_refl)
    as (Hanswer & _ & Hlocal & _).
  - lia.
  - reflexivity.
  - left. reflexivity.
  - cbv zeta. split; [exact Hanswer|]. split; [reflexivity | exact Hlocal].
Defined.

Lemma start_outcomes_witness :
  success (fst (handleStartRecording startEnvUnreachable (js "checkout")
                  initialWorld)) = false
  /\ state (snd (handleStartRecording startEnvUnreachable (js "checkout")
                   initialWorld)) = initialState.
Proof.
  pose proof (start_outcomes startEnvUnreachable (js "checkout")
                initialWorld eq_refl) as (_ & Hfailed & _).
  split; [reflexivity | exact (proj1 (Hfailed eq_refl))].
Defined.

(** *** Handlers that other handlers interrupt *)

Section Interleavings.
Context {ext : Externals}.

(** Running a handler up to its next await. *)
Ltac run_segment :=
  cbv beta iota zeta delta
    [Interleaving.done Interleaving.await Interleaving.readRecordingIds
     Interleaving.writeRecording];
  run_handler; cbn [Interleaving.complete].

Lemma finishStop_uninterrupted (env : StopEnv) (recording : Recording)
    (w : World) :
  (let '(t, w1) := Interleaving.finishStop env recording w in
   Interleaving.complete t w1)
  = finishStop env recording w.
Proof.
  destruct w as [[rec paused name tab start meta acc mirror poll counter]
                   stored [ids saved] calls].
  unfold Interleaving.finishStop, finishStop. run_segment.
  destruct (stopSave env), poll; run_segment; reflexivity.
Qed.

Lemma stopFromBackgroundState_uninterrupted (env : StopEnv) (tabId : Z)
    (currentPageActions : list Action) (w : World) :
  (let '(t, w1) :=
     Interleaving.stopFromBackgroundState env tabId currentPageActions w in
   Interleaving.complete t w1)
  = stopFromBackgroundState env tabId currentPageActions w.
Proof.
  destruct w as [[rec paused name tab start meta acc mirror poll counter]
                   stored saved calls].
  unfold Interleaving.stopFromBackgroundState, stopFromBackgroundState.
  run_segment.
  destruct name as [[|c name]|], start as [start|];
    cbn [truthyo truthy truthyNumber negb orb andb];
    try (destruct poll; reflexivity).
  destruct (start =? 0); cbn [negb orb];
    [destruct poll; reflexivity|].
  run_segment. cbn [default from_option id].
  apply (finishStop_uninterrupted env _
           (mkWorld (mkState rec paused (Some (c :: name)) tab (Some start)
                       meta acc mirror poll counter)
              stored saved (calls ++ [TabsGet tabId]))).
Qed.

(** The handlers of [Background] are those of [Interleaving] when nothing
    comes in between: an event delivered and resumed at once each time its
    handler awaits leaves the answer and the world of [Background.handle]. *)
Lemma uninterrupted_handle (e : Event) (w : World) :
  Interleaving.handleUninterrupted e w = handle e w.
Proof.
  unfold Interleaving.handleUninterrupted, Interleaving.handle, handle.
  destruct e as [env nm|env|reply|reply| |reply|reply|env payload|tabId
                 |env tabId changeInfo|settles].
  - destruct w as [[rec paused name tab start meta acc mirror poll counter]
                     stored saved calls].
    unfold Interleaving.handleStartRecording, handleStartRecording.
    run_segment.
    destruct rec; [reflexivity|]. run_segment.
    destruct (queriedTabs env) as [|[tabId|] tabs]; run_segment;
      try reflexivity.
    destruct (tabId =? 0); run_segment; [reflexivity|].
    destruct (startReply env) as [[]|failure], poll; reflexivity.
  - unfold Interleaving.handleStopRecording, handleStopRecording.
    destruct w as [[rec paused name tab start meta acc mirror poll counter]
                     stored saved calls].
    run_segment. destruct rec; [|reflexivity]. cbn [negb].
    destruct tab as [tabId|]; [|destruct poll; reflexivity].
    destruct (tabId =? 0); [destruct poll; reflexivity|].
    destruct poll; run_segment;
      destruct (stopSessionGet env) as [[]|failure];
      destruct (stopReply env) as [[[[] [page|]]|]|message];
      try destruct (truthy (r_id page) && truthy (r_testName page)
                    && truthy (r_startTime page));
      run_segment;
      repeat match goal with
      | |- context [Interleaving.finishStop env ?r ?w0] =>
          rewrite <- (finishStop_uninterrupted env r w0);
          destruct (Interleaving.finishStop env r w0) as [t0 w1];
          destruct (Interleaving.complete t0 w1); reflexivity
      | |- context [Interleaving.stopFromBackgroundState env ?t ?l ?w0] =>
          rewrite <- (stopFromBackgroundState_uninterrupted env t l w0);
          destruct (Interleaving.stopFromBackgroundState env t l w0)
            as [t0 w1];
          destruct (Interleaving.complete t0 w1); reflexivity
      end.
  - destruct w as [[rec paused name tab start meta acc mirror poll counter]
                     stored saved calls].
    unfold Interleaving.handlePauseRecording, handlePauseRecording.
    run_segment.
    destruct rec, paused, (truthyNumber tab), reply as [[]|failure];
      reflexivity.
  - destruct w as [[rec paused name tab start meta acc mirror poll counter]
                     stored saved calls].
    unfold Interleaving.handleResumeRecording, handleResumeRecording.
    run_segment.
    destruct rec, paused, (truthyNumber tab), reply as [[]|failure];
      reflexivity.
  - reflexivity.
  - destruct w as [[rec paused name tab start meta acc mirror poll counter]
                     stored saved calls].
    unfold Interleaving.handleGetRecording, handleGetRecording.
    run_segment.
    destruct rec, (truthyNumber tab), reply as [answer|failure];
      reflexivity.
  - destruct w as [[rec paused name tab start meta acc mirror poll counter]
                     stored saved calls].
    unfold Interleaving.handleSaveCurrentState, handleSaveCurrentState.
    run_segment.
    destruct rec, (truthyNumber tab); try reflexivity.
    destruct reply as [[[[] [[|a actions]|]]|]|failure]; reflexivity.
  - destruct w as [[rec paused name tab start meta acc mirror poll counter]
                     stored saved calls].
    unfold Interleaving.handleSyncAction, handleSyncAction.
    run_segment.
    destruct payload as [a|], rec; try reflexivity. run_segment.
    destruct (syncSessionGet env) as [[]|failure]; run_segment;
      [|reflexivity].
    destruct (syncSessionSet env) as [[]|failure]; reflexivity.
  - unfold onRemoved. run_segment.
    destruct (bool_decide _ && _); run_segment;
      destruct (pollingInterval (state w)); reflexivity.
  - destruct w as [[rec paused name tab start meta acc mirror poll counter]
                     stored saved calls].
    unfold Interleaving.onUpdated, onUpdated. run_segment.
    destruct (bool_decide (tab = Some tabId) && rec
              && bool_decide (status changeInfo = Some (js "loading"))
              && truthyo (url changeInfo)); [|reflexivity].
    run_segment.
    destruct (navSessionGet env) as [[]|failure],
      stored as [[|b cache]|], (navSessionRemove env) as [[]|failure2];
      reflexivity.
  - destruct w as [[rec paused name tab start meta acc mirror poll counter]
                     stored saved calls].
    unfold Interleaving.pollTick, pollTick. run_segment.
    destruct rec, (truthyNumber tab); try reflexivity.
    run_segment.
    destruct settles as [[]|failure], stored as [cache|]; reflexivity.
Qed.

(** *** Properties that hold however the handlers interleave *)

Lemma settle_keeps (P : World -> Prop) (m : Interleaving.Machine)
    (r : Interleaving.Running * World) :
  Forall (fun resume => forall w : World,
              P w -> P (resume w).2 /\ runningKeeps P (resume w).1)
         (Interleaving.suspended m) ->
  P r.2 -> runningKeeps P r.1 ->
  P (Interleaving.world (Interleaving.settle m r))
  /\ Forall (fun resume => forall w : World,
                P w -> P (resume w).2 /\ runningKeeps P (resume w).1)
            (Interleaving.suspended (Interleaving.settle m r)).
Proof.
  intros Hpool Hworld Hkeeps. destruct r as [[[answer|resume]|[[]|resume]] w1];
    unfold Interleaving.settle;
    cbn [fst snd Interleaving.world Interleaving.suspended runningKeeps] in *;
    (split; [exact Hworld|]); try exact Hpool.
  - apply Forall_app. split; [exact Hpool|]. constructor; [|constructor].
    inversion Hkeeps as [|resume0 Hnext Hrest]; subst.
    intros w Hw. specialize (Hnext w Hw). specialize (Hrest w Hw).
    destruct (resume w) as [t w2]. by split.
  - apply Forall_app. split; [exact Hpool|]. constructor; [|constructor].
    inversion Hkeeps as [|resume0 Hnext Hrest]; subst.
    intros w Hw. specialize (Hnext w Hw). specialize (Hrest w Hw).
    destruct (resume w) as [t w2]. by split.
Qed.

(** A property of the world that holds when the script is loaded and that
    every handler keeps, segment by segment, holds at every instant,
    however the handlers interleave. *)
Lemma play_keeps (P : World -> Prop) :
  P initialWorld ->
  (forall (e : Event) (w : World),
      P w ->
      P (Interleaving.handle e w).2
      /\ runningKeeps P (Interleaving.handle e w).1) ->
  forall moves : list Interleaving.Move,
    P (Interleaving.world
         (Interleaving.play moves Interleaving.initialMachine)).
Proof.
  intros Hinit Hhandlers moves.
  assert (Hinv : P (Interleaving.world
                      (Interleaving.play moves Interleaving.initialMachine))
                 /\ Forall (fun resume => forall w : World,
                               P w -> P (resume w).2
                                      /\ runningKeeps P (resume w).1)
                      (Interleaving.suspended
                         (Interleaving.play moves
                            Interleaving.initialMachine)));
    [|by destruct Hinv].
  induction moves as [|mv moves IH] using rev_ind.
  - split; [exact Hinit|constructor].
  - unfold Interleaving.play. rewrite foldl_snoc.
    fold (Interleaving.play moves Interleaving.initialMachine).
    destruct IH as [Hworld Hpool].
    set (m := Interleaving.play moves Interleaving.initialMachine) in *.
    destruct mv as [e|i]; cbn [Interleaving.move].
    + destruct (Hhandlers e (Interleaving.world m) Hworld) as [Hw Hr].
      by apply settle_keeps.
    + destruct (Interleaving.suspended m !! i) as [resume|] eqn:Hlookup;
        [|by split].
      pose proof (Forall_lookup_1 _ _ _ _ Hpool Hlookup) as Hresume.
      destruct (Hresume (Interleaving.world m) Hworld) as [Hw Hr].
      apply settle_keeps; [|exact Hw|exact Hr].
      cbn [Interleaving.suspended]. by apply Forall_delete.
Qed.

Lemma keeps_awaiting_both (P : World -> Prop) {A : Type}
    (resume : World -> Interleaving.Task A * World) :
  (forall w : World,
      P w -> P (resume w).2 /\ Interleaving.keeps P (resume w).1) ->
  Interleaving.keeps P (Interleaving.Awaiting resume).
Proof.
  intros Hboth. constructor; intros w Hw; by destruct (Hboth w Hw).
Qed.

(** Going through the segments of a handler: [sub] settles a call of a
    procedure that has a lemma of its own, [fin] the property of the world
    at the end of a segment. *)
Ltac segments sub fin :=
  run_segment;
  repeat first
    [ progress run_segment
    | progress cbn [runningKeeps fst snd]
    | sub
    | match goal with
      | |- _ /\ _ => split
      | |- Interleaving.keeps _ (Interleaving.Finished _) =>
          apply Interleaving.keeps_finished
      | |- Interleaving.keeps _ (Interleaving.Awaiting _) =>
          apply keeps_awaiting_both;
          intros [[? ? ? ? ? ? ? ? ? ?] ? [? ?] ?] ?
      end
    | (case_match; simplify_eq)
    | fin ].

Lemma intervalsSet_app (l l' : list Call) :
  intervalsSet (l ++ l') = (intervalsSet l + intervalsSet l')%nat.
Proof. unfold intervalsSet. by rewrite List.filter_app, length_app. Qed.

Lemma intervalsCleared_app (l l' : list Call) :
  intervalsCleared (l ++ l')
  = (intervalsCleared l + intervalsCleared l')%nat.
Proof. unfold intervalsCleared. by rewrite List.filter_app, length_app. Qed.

(** Counting the timers among the calls that a segment has added. *)
Ltac count_timers :=
  unfold timersBalanced in *;
  cbn [trace state pollingInterval] in *;
  rewrite <- ?app_assoc; cbn [app];
  rewrite ?intervalsSet_app, ?intervalsCleared_app;
  repeat match goal with
         | H : intervalsSet ?l = _ |- _ =>
             generalize dependent (intervalsSet l);
             generalize dependent (intervalsCleared l)
         end;
  intros; unfold intervalsSet, intervalsCleared;
  cbn [List.filter length]; lia.

Lemma finishStop_keeps_timers (env : StopEnv) (recording : Recording)
    (w : World) :
  timersBalanced w ->
  timersBalanced (Interleaving.finishStop env recording w).2
  /\ Interleaving.keeps timersBalanced
       (Interleaving.finishStop env recording w).1.
Proof.
  intros Hw.
  destruct w as [[rec paused name tab start meta acc mirror poll counter]
                   stored [ids saved] calls].
  unfold Interleaving.finishStop. segments fail count_timers.
Qed.

Lemma stopFromBackgroundState_keeps_timers (env : StopEnv) (tabId : Z)
    (currentPageActions : list Action) (w : World) :
  timersBalanced w ->
  timersBalanced
    (Interleaving.stopFromBackgroundState env tabId currentPageActions w).2
  /\ Interleaving.keeps timersBalanced
       (Interleaving.stopFromBackgroundState env tabId currentPageActions
          w).1.
Proof.
  intros Hw.
  destruct w as [[rec paused name tab start meta acc mirror poll counter]
                   stored [ids saved] calls].
  unfold Interleaving.stopFromBackgroundState.
  segments ltac:(apply finishStop_keeps_timers) count_timers.
Qed.

Lemma handleStopRecording_keeps_timers (env : StopEnv) (w : World) :
  timersBalanced w ->
  timersBalanced (Interleaving.handleStopRecording env w).2
  /\ Interleaving.keeps timersBalanced
       (Interleaving.handleStopRecording env w).1.
Proof.
  intros Hw.
  destruct w as [[rec paused name tab start meta acc mirror poll counter]
                   stored [ids saved] calls].
  unfold Interleaving.handleStopRecording.
  segments ltac:(first [ apply finishStop_keeps_timers
                       | apply stopFromBackgroundState_keeps_timers ])
           count_timers.
Qed.

Lemma handlers_keep_timersBalanced (e : Event) (w : World) :
  timersBalanced w ->
  timersBalanced (Interleaving.handle e w).2
  /\ runningKeeps timersBalanced (Interleaving.handle e w).1.
Proof.
  intros Hw.
  destruct e as [env nm|env|reply|reply| |reply|reply|env payload|tabId
                 |env tabId changeInfo|settles];
    unfold Interleaving.handle.
  2:{ destruct (handleStopRecording_keeps_timers env w Hw) as [H1 H2].
      by destruct (Interleaving.handleStopRecording env w). }
  all: destruct w as [[rec paused name tab start meta acc mirror poll
                         counter] stored [ids saved] calls].
  - unfold Interleaving.handleStartRecording. segments fail count_timers.
  - unfold Interleaving.handlePauseRecording. segments fail count_timers.
  - unfold Interleaving.handleResumeRecording. segments fail count_timers.
  - segments fail count_timers.
  - unfold Interleaving.handleGetRecording. segments fail count_timers.
  - unfold Interleaving.handleSaveCurrentState. segments fail count_timers.
  - unfold Interleaving.handleSyncAction. segments fail count_timers.
  - unfold onRemoved. segments fail count_timers.
  - unfold Interleaving.onUpdated. segments fail count_timers.
  - unfold Interleaving.pollTick. segments fail count_timers.
Qed.

(** The variables of a session in the world at the end of a segment. *)
Ltac settle_anchored :=
  unfold anchored in *;
  cbn [state metadata isRecording currentTabId testName startTime] in *;
  repeat match goal with
         | H : _ /\ _ |- _ => destruct H
         | H : (_ =? _) = false |- _ => apply Z.eqb_neq in H
         end;
  repeat (case_match; simplify_eq);
  repeat match goal with
         | H : _ /\ _ |- _ => destruct H
         | H : exists _, _ |- _ => destruct H
         end;
  simplify_eq;
  (split; [done|]);
  first [ done | by eauto 10 ].

Lemma finishStop_keeps_anchored (env : StopEnv) (recording : Recording)
    (w : World) :
  anchored w ->
  anchored (Interleaving.finishStop env recording w).2
  /\ Interleaving.keeps anchored
       (Interleaving.finishStop env recording w).1.
Proof.
  intros Hw.
  destruct w as [[rec paused name tab start meta acc mirror poll counter]
                   stored [ids saved] calls].
  unfold Interleaving.finishStop. segments fail settle_anchored.
Qed.

Lemma stopFromBackgroundState_keeps_anchored (env : StopEnv) (tabId : Z)
    (currentPageActions : list Action) (w : World) :
  anchored w ->
  anchored
    (Interleaving.stopFromBackgroundState env tabId currentPageActions w).2
  /\ Interleaving.keeps anchored
       (Interleaving.stopFromBackgroundState env tabId currentPageActions
          w).1.
Proof.
  intros Hw.
  destruct w as [[rec paused name tab start meta acc mirror poll counter]
                   stored [ids saved] calls].
  unfold Interleaving.stopFromBackgroundState.
  segments ltac:(apply finishStop_keeps_anchored) settle_anchored.
Qed.

Lemma handleStopRecording_keeps_anchored (env : StopEnv) (w : World) :
  anchored w ->
  anchored (Interleaving.handleStopRecording env w).2
  /\ Interleaving.keeps anchored
       (Interleaving.handleStopRecording env w).1.
Proof.
  intros Hw.
  destruct w as [[rec paused name tab start meta acc mirror poll counter]
                   stored [ids saved] calls].
  unfold Interleaving.handleStopRecording.
  segments ltac:(first [ apply finishStop_keeps_anchored
                       | apply stopFromBackgroundState_keeps_anchored ])
           settle_anchored.
Qed.

Lemma handlers_keep_anchored (e : Event) (w : World) :
  anchored w ->
  anchored (Interleaving.handle e w).2
  /\ runningKeeps anchored (Interleaving.handle e w).1.
Proof.
  intros Hw.
  destruct e as [env nm|env|reply|reply| |reply|reply|env payload|tabId
                 |env tabId changeInfo|settles];
    unfold Interleaving.handle.
  2:{ destruct (handleStopRecording_keeps_anchored env w Hw) as [H1 H2].
      by destruct (Interleaving.handleStopRecording env w). }
  all: destruct w as [[rec paused name tab start meta acc mirror poll
                         counter] stored [ids saved] calls].
  - unfold Interleaving.handleStartRecording. segments fail settle_anchored.
  - unfold Interleaving.handlePauseRecording. segments fail settle_anchored.
  - unfold Interleaving.handleResumeRecording. segments fail settle_anchored.
  - segments fail settle_anchored.
  - unfold Interleaving.handleGetRecording. segments fail settle_anchored.
  - unfold Interleaving.handleSaveCurrentState.
    segments fail settle_anchored.
  - unfold Interleaving.handleSyncAction. segments fail settle_anchored.
  - unfold onRemoved. segments fail settle_anchored.
  - unfold Interleaving.onUpdated. segments fail settle_anchored.
  - unfold Interleaving.pollTick. segments fail settle_anchored.
Qed.

(** Going through the segments of a handler for the answers that it can
    give, whatever the world is each time it goes on. *)
Ltac answers sub :=
  run_segment;
  repeat first
    [ progress run_segment
    | sub
    | match goal with
      | H : negb (truthyNumber (Some ?t)) = true, Hz : (?t =? 0) = false
        |- _ =>
          cbn [truthyNumber] in H; rewrite Hz in H; discriminate H
      | H : (?t =? 0) = false |- context [?t =? 0] => rewrite H
      | |- _ /\ _ => split
      | |- Interleaving.always _ (Interleaving.Finished _) =>
          apply Interleaving.always_finished;
          unfold noActiveTab, okWith, ok, failed;
          first [ discriminate
                | let Heq := fresh in
                  intros Heq; injection Heq as Heq;
                  vm_compute in Heq; discriminate Heq ]
      | |- Interleaving.always _ (Interleaving.Awaiting _) =>
          apply Interleaving.always_awaiting;
          intros [[? ? ? ? ? ? ? ? ? ?] ? [? ?] ?]
      end
    | (case_match; simplify_eq) ].

Lemma finishStop_answers (env : StopEnv) (recording : Recording)
    (w : World) :
  Interleaving.always (fun answer => answer <> noActiveTab)
    (Interleaving.finishStop env recording w).1.
Proof.
  destruct w as [[rec paused name tab start meta acc mirror poll counter]
                   stored [ids saved] calls].
  unfold Interleaving.finishStop. answers fail.
Qed.

Lemma stopFromBackgroundState_answers (env : StopEnv) (tabId : Z)
    (currentPageActions : list Action) (w : World) :
  Interleaving.always (fun answer => answer <> noActiveTab)
    (Interleaving.stopFromBackgroundState env tabId currentPageActions w).1.
Proof.
  destruct w as [[rec paused name tab start meta acc mirror poll counter]
                   stored [ids saved] calls].
  unfold Interleaving.stopFromBackgroundState.
  answers ltac:(apply finishStop_answers).
Qed.

(** From a world whose session variables are anchored, no handler answers
    that the coordinator holds no tab, however it is interrupted. *)
Lemma anchored_answers (w : World) :
  anchored w ->
  (forall reply : Outcome unit,
      Interleaving.always (fun answer => answer <> noActiveTab)
        (Interleaving.handlePauseRecording reply w).1
      /\ Interleaving.always (fun answer => answer <> noActiveTab)
           (Interleaving.handleResumeRecording reply w).1)
  /\ (forall reply : Outcome MessageResponse,
        reply <> Resolved noActiveTab ->
        Interleaving.always (fun answer => answer <> noActiveTab)
          (Interleaving.handleGetRecording reply w).1)
  /\ (forall env : StopEnv,
        Interleaving.always (fun answer => answer <> noActiveTab)
          (Interleaving.handleStopRecording env w).1).
Proof.
  intros [_ Hw].
  destruct w as [[rec paused name tab start meta acc mirror poll counter]
                   stored [ids saved] calls].
  cbn [state isRecording currentTabId testName startTime] in Hw.
  destruct rec.
  - destruct Hw as (tabId & nm & began & Hnz & -> & -> & ->).
    apply Z.eqb_neq in Hnz.
    split; [|split].
    + intros reply.
      unfold Interleaving.handlePauseRecording,
        Interleaving.handleResumeRecording.
      answers fail.
    + intros reply Hreply. unfold Interleaving.handleGetRecording.
      answers fail.
      apply Interleaving.always_finished. intros ->. by apply Hreply.
    + intros env. unfold Interleaving.handleStopRecording.
      answers ltac:(first [ apply finishStop_answers
                          | apply stopFromBackgroundState_answers ]).
  - split; [|split].
    + intros reply.
      unfold Interleaving.handlePauseRecording,
        Interleaving.handleResumeRecording.
      answers fail.
    + intros reply _. unfold Interleaving.handleGetRecording. answers fail.
    + intros env. unfold Interleaving.handleStopRecording. answers fail.
Qed.

(** The variables of a session, however the handlers interleave. At every
    instant since the service worker was loaded (whatever events have
    arrived and in whatever order the awaiting handlers have gone on) the
    coordinator holds no metadata, and either a recording is active and it
    holds a tab id other than 0, a test name and a start time, or no
    recording is active and it holds none of the three. So a pause, a
    resume, a recording query or a stop that arrives at any instant never
    answers "No active tab for recording", whatever happens while it awaits
    (the recording query passes on the answer of the page, which is assumed
    not to be that answer). *)
Theorem reachable_worlds_are_anchored (moves : list Interleaving.Move) :
  let w :=
    Interleaving.world
      (Interleaving.play moves Interleaving.initialMachine) in
  anchored w
  /\ (forall reply : Outcome unit,
        Interleaving.always (fun answer => answer <> noActiveTab)
          (Interleaving.handlePauseRecording reply w).1
        /\ Interleaving.always (fun answer => answer <> noActiveTab)
             (Interleaving.handleResumeRecording reply w).1)
  /\ (forall reply : Outcome MessageResponse,
        reply <> Resolved noActiveTab ->
        Interleaving.always (fun answer => answer <> noActiveTab)
          (Interleaving.handleGetRecording reply w).1)
  /\ (forall env : StopEnv,
        Interleaving.always (fun answer => answer <> noActiveTab)
          (Interleaving.handleStopRecording env w).1).
Proof.
  cbv zeta.
  assert (Hw : anchored
                 (Interleaving.world
                    (Interleaving.play moves Interleaving.initialMachine))).
  { apply play_keeps; [by split|]. apply handlers_keep_anchored. }
  split; [exact Hw|]. by apply anchored_answers.
Qed.

(** The polling timer, however the handlers interleave. At every instant
    since the service worker was loaded (whatever events have
    arrived and in whatever order the awaiting handlers have gone on), the
    interval timers that were set are as many as those that were cleared,
    plus one when the coordinator holds a timer: no timer is alive when the
    coordinator holds none, and exactly one is alive when it holds one, the
    one that the next stop, reset or start of polling clears. *)
Theorem polling_timers_are_balanced (moves : list Interleaving.Move) :
  let w :=
    Interleaving.world
      (Interleaving.play moves Interleaving.initialMachine) in
  timersBalanced w
  /\ (pollingInterval (state w) = false ->
      intervalsSet (trace w) = intervalsCleared (trace w))
  /\ (pollingInterval (state w) = true ->
      intervalsSet (trace w) = S (intervalsCleared (trace w))).
Proof.
  cbv zeta.
  assert (Hw : timersBalanced
                 (Interleaving.world
                    (Interleaving.play moves Interleaving.initialMachine))).
  { apply play_keeps; [reflexivity|]. apply handlers_keep_timersBalanced. }
  split; [exact Hw|]. unfold timersBalanced in Hw.
  split; intros Hpoll; rewrite Hpoll in Hw; lia.
Qed.

End Interleavings.

(** C1. The ids of a recording are not always act_001, act_002, ... in the
    order of its actions. In a recording over three pages in which every
    event is handled before the next arrives, the second page's action is
    stored as act_002, but the copy that the page hands over when it
    unloads still has the page's own id act_001, and the navigation
    listener then drops the stored act_002 as a duplicate of that copy: the
    recording that stop returns has the ids act_001, act_001, on the path
    where the page answers as on the fallback path. When the write of the
    cache fails for an action, its number is not given again: the next
    action is stored as act_002 and there is no act_001. When a second
    SYNC_ACTION arrives while the first awaits its read of the cache, both
    read the cache without the other's action and the second write
    replaces the first: both requests are answered with success and only
    act_002 is stored. In each run every handler has finished. *)
Theorem sync_ids_diverge :
  (recordedIds (threePages stopEnvLive)
   = Some [js "act_001"; js "act_001"]
   /\ Interleaving.suspended (threePages stopEnvLive) = [])
  /\ (recordedIds (threePages stopEnvUnreachable)
      = Some [js "act_001"; js "act_001"]
      /\ Interleaving.suspended (threePages stopEnvUnreachable) = [])
  /\ (session (Interleaving.world rejectedWrite)
      = Some [withId (js "act_002") (clickAt (js "act_002") 11)]
      /\ Interleaving.answers rejectedWrite
         = [okWith (DataState (js "recording") (Some (js "checkout")));
            failed (js "QuotaExceeded"); ok]
      /\ Interleaving.suspended rejectedWrite = [])
  /\ (session (Interleaving.world overlappingSyncs)
      = Some [withId (js "act_002") (clickAt (js "act_002") 11)]
      /\ Interleaving.answers overlappingSyncs
         = [okWith (DataState (js "recording") (Some (js "checkout")));
            ok; ok]
      /\ Interleaving.suspended overlappingSyncs = []).
Proof. vm_compute. done. Qed.

End BackgroundFacts.


(* ===================================================================== *)
(** ** Properties of the clock of the popup and of the overlay *)
(* ===================================================================== *)

Module PopupFacts.
Import JS Popup JSFacts.

Lemma String_nonempty (n : nat) : String_ n <> [].
Proof.
  intros Hnil. pose proof (parseDigits_String n) as Hparse.
  rewrite Hnil in Hparse. injection Hparse as <-. discriminate Hnil.
Qed.

Lemma padStart_parse (n : nat) :
  parseDigits (padStart 2 48%N (String_ n)) = Some n.
Proof.
  unfold padStart. rewrite parse_leading_zeros. apply parseDigits_String.
Qed.

Lemma padStart_length (c : N) (s : jsstring) :
  (2 <= length (padStart 2 c s))%nat.
Proof. unfold padStart. rewrite length_app, length_replicate. lia. Qed.

Lemma two_digits (n : nat) :
  (n < 100)%nat -> length (padStart 2 48%N (String_ n)) = 2%nat.
Proof.
  intros Hn.
  assert (Hall : forallb
                   (fun k => (length (padStart 2 48%N (String_ k)) =? 2)%nat)
                   (seq 0 100) = true) by (vm_compute; reflexivity).
  rewrite forallb_forall in Hall.
  apply Nat.eqb_eq, Hall, in_seq. lia.
Qed.

(** The clock shows the elapsed time. With a start time set, the text is
    two numerals around a colon. From the start time on, they are the
    minutes and the seconds of the whole seconds elapsed, the seconds below
    60 and on two digits, the minutes on two digits below a hundred minutes
    and on more from then on. Before the start time, when the clock of the
    host has been set back, the text begins with a minus sign. *)
Theorem updateDuration_shows_elapsed (start now : Z) :
  start <> 0 ->
  exists mm ss : jsstring,
    updateDuration (Some start) now = Some (mm ++ js ":" ++ ss)
    /\ (start <= now ->
        exists m s : nat,
          parseDigits mm = Some m /\ parseDigits ss = Some s
          /\ (s < 60)%nat
          /\ Z.of_nat (60 * m + s) = (now - start) / 1000
          /\ length ss = 2%nat /\ (2 <= length mm)%nat
          /\ (now - start < 6000000 -> length mm = 2%nat))
    /\ (now < start -> head mm = Some 45%N).
Proof.
  intros Hstart. unfold updateDuration.
  rewrite (proj2 (Z.eqb_neq start 0) Hstart).
  set (elapsed := (now - start) / 1000).
  eexists _, _. split; [reflexivity|]. split.
  - intros Hle.
    assert (Helapsed : 0 <= elapsed)
      by (apply Z.div_pos; lia).
    assert (Hminutes : 0 <= elapsed / 60) by (apply Z.div_pos; lia).
    assert (Hrem : Z.rem elapsed 60 = elapsed mod 60)
      by (apply Z.rem_mod_nonneg; lia).
    pose proof (Z.mod_pos_bound elapsed 60 ltac:(lia)) as Hbound.
    pose proof (Z.div_mod elapsed 60 ltac:(lia)) as Hsplit.
    unfold StringZ.
    destruct (Z.ltb_spec (elapsed / 60) 0) as [?|_]; [lia|].
    destruct (Z.ltb_spec (Z.rem elapsed 60) 0) as [?|_]; [lia|].
    exists (Z.to_nat (elapsed / 60)), (Z.to_nat (Z.rem elapsed 60)).
    split; [apply padStart_parse|]. split; [apply padStart_parse|].
    split; [lia|]. split; [lia|].
    split; [apply two_digits; lia|]. split; [apply padStart_length|].
    intros Hshort. apply two_digits.
    assert (elapsed < 6000)
      by (apply Z.div_lt_upper_bound; lia).
    assert (elapsed / 60 < 100)
      by (apply Z.div_lt_upper_bound; lia).
    lia.
  - intros Hlt.
    assert (Helapsed : elapsed < 0)
      by (apply Z.div_lt_upper_bound; lia).
    assert (Hminutes : elapsed / 60 < 0)
      by (apply Z.div_lt_upper_bound; lia).
    unfold StringZ at 1.
    destruct (Z.ltb_spec (elapsed / 60) 0) as [_|?]; [|lia].
    unfold padStart.
    destruct (String_ (Z.to_nat (- (elapsed / 60)))) as [|d ds] eqn:Hdigits;
      [by apply String_nonempty in Hdigits|].
    reflexivity.
Qed.

Lemma updateDuration_shows_elapsed_witness :
  exists mm ss : jsstring,
    updateDuration (Some 1700000000000) 1700000754321
    = Some (mm ++ js ":" ++ ss)
    /\ parseDigits mm = Some 12%nat /\ parseDigits ss = Some 34%nat.
Proof.
  destruct (updateDuration_shows_elapsed 1700000000000 1700000754321)
    as (mm & ss & Htext & Hafter & _); [lia|].
  destruct (Hafter ltac:(lia)) as (m & s & Hm & Hs & Hlt & Hsum & _).
  exists mm, ss. split; [exact Htext|].
  change ((1700000754321 - 1700000000000) / 1000) with 754 in Hsum.
  assert (m = 12%nat /\ s = 34%nat) as [-> ->] by lia.
  by split.
Defined.

End PopupFacts.
